(** * Retry policies of the Slack webhook examples

    A shallow embedding of the six scripts of the repository
    ([slack_simple_rq.py], [slack_retries_v0.py] ... [slack_retries_v3.py],
    [retries_slack.py]) together with the part of the [tenacity] retry
    library and of [requests] that they drive.

    The scripts talk to the outside through two effects only: one HTTP POST
    per attempt and [time.sleep] between attempts.  Both are recorded, in
    order, in the [trace] of the [World]; the remote server is an oracle
    giving the result of the n-th POST.  The two Python objects the scripts
    mutate and share - the caller's [msg] dictionary and the [wait]
    dictionary of a [SlackPub] instance - are fields of the same [World], so
    that a write by the operation is seen by the wait strategy of the retry
    engine, as in the source where both hold the same object.  Logging
    ([before_log], [logger.info]) and the statistics bookkeeping of tenacity
    are not modelled; the attempt count is read off the trace.

    Two things the scripts leave to their environment are kept open or
    made explicit: the release of tenacity, on which it depends whether the
    wait strategy is asked before or after [stop] ([iter_order]), and the
    lengths that [time.sleep] refuses ([sleep_error]). *)

From Stdlib Require Import Ascii.
From stdpp Require Import gmap strings list fin_maps pretty.

Local Open Scope Z_scope.

(** ** Python and [requests] data *)

(** JSON values as the payload dictionaries hold them. *)
#[local] Unset Elimination Schemes.
Inductive json :=
| JStr (s : string)
| JArr (items : list json)
| JObj (fields : list (string * json)).
#[local] Set Elimination Schemes.

(** A [requests.Response].  [headers] is the store of requests'
    case-insensitive dictionary: it is keyed by the lower-cased header
    name. *)
Record Response := mkResponse {
  status_code : Z;
  reason : string;
  headers : gmap string string;
  text : string
}.

(** What one [requests.post] gives: a response of the server, or an
    exception of the transport itself (no status code available). *)
Inductive post_result :=
| Responded (msg_rq : Response)
| Failed (what : string).

(** The two observable effects. *)
Inductive event :=
| Post (url : string) (payload : gmap string json) (r : post_result)
| Sleep (seconds : Z).

(** The [result] dictionary built by [retries_slack.py]. *)
Record SendResult := mkResult {
  success : bool;
  response : string;
  err_msg : string;
  destination : string
}.

(** The exceptions that occur.  [SendMsgError] has a message and, in
    [retries_slack.py], the [result] dictionary as its [state]. *)
Inductive exn :=
| HTTPError (of_response : Response)
| ConnectionError (what : string)
| SendMsgError (message : string) (state : option SendResult)
| ValueError (message : string)
| UnboundLocalError (name : string)
| OverflowError (message : string)
| RetryError (last_attempt : exn).

Inductive outcome (A : Type) :=
| Returned (v : A)
| Raised (e : exn).
Arguments Returned {A} v.
Arguments Raised {A} e.

(** The mutable world: how many POSTs were issued, the effects so far, the
    caller's [msg] dictionary and the [self.wait] dictionary of the
    [SlackPub] instance ([None] values are Python's [None]). *)
Record World := mkWorld {
  posts : nat;
  trace : list event;
  msg : gmap string json;
  self_wait : gmap string (option Z)
}.

Definition log (e : event) (w : World) : World :=
  mkWorld (posts w) (trace w ++ [e]) (msg w) (self_wait w).

Definition set_msg (m : gmap string json) (w : World) : World :=
  mkWorld (posts w) (trace w) m (self_wait w).

Definition set_self_wait (d : gmap string (option Z)) (w : World) : World :=
  mkWorld (posts w) (trace w) (msg w) d.

(** [dict.get(key, None)] on a dictionary whose values may be [None]. *)
Definition dict_get (d : gmap string (option Z)) (key : string) : option Z :=
  match d !! key with
  | Some v => v
  | None => None
  end.

Definition ascii_lower (c : ascii) : ascii :=
  let n := nat_of_ascii c in
  if ((65 <=? n) && (n <=? 90))%nat then ascii_of_nat (n + 32) else c.

Fixpoint lower (s : string) : string :=
  match s with
  | EmptyString => EmptyString
  | String c s' => String (ascii_lower c) (lower s')
  end.

(** [msg_rq.headers.get(name, None)]. *)
Definition headers_get (msg_rq : Response) (name : string) : option string :=
  headers msg_rq !! lower name.

(** [Response.raise_for_status]: an [HTTPError] for 4xx and 5xx, nothing
    otherwise. *)
Definition raise_for_status (msg_rq : Response) : option exn :=
  if (400 <=? status_code msg_rq) && (status_code msg_rq <? 600)
  then Some (HTTPError msg_rq)
  else None.

(** [requests.post(url=url, json=json, headers=...)] against the oracle
    [net]: the result of the POST number [posts w], recorded in the trace
    with the payload as it is at that moment. *)
Definition requests_post (net : nat → post_result) (url : string)
    (payload : gmap string json) (w : World) : post_result * World :=
  let r := net (posts w) in
  (r, mkWorld (S (posts w)) (trace w ++ [Post url payload r]) (msg w) (self_wait w)).

(** [time.sleep(secs)] refuses a negative length with a [ValueError], and
    with an [OverflowError] a length that does not fit the clock of
    CPython, which counts nanoseconds in a signed 64-bit integer: the
    largest whole number of seconds it takes is [sleep_max]. *)
Definition sleep_max : Z := 9223372036.

Definition sleep_error (secs : Z) : option exn :=
  if secs <? 0 then Some (ValueError "sleep length must be non-negative")
  else if sleep_max <? secs
  then Some (OverflowError "timestamp too large to convert to C _PyTime_t")
  else None.

Definition time_sleep (secs : Z) (w : World) : exn + World :=
  match sleep_error secs with
  | Some e => inl e
  | None => inr (log (Sleep secs) w)
  end.

(** [msg["channel"] = "#{channel}".format(channel=channel)], on the caller's
    dictionary. *)
Definition set_channel (channel : string) (w : World) : World :=
  set_msg (<["channel" := JStr ("#" +:+ channel)]> (msg w)) w.

(** ** The part of tenacity the scripts use *)

Module Tenacity.

Record RetryCallState := mkState {
  fn_name : string;          (* retry_state.fn.__name__ *)
  attempt_number : nat       (* starts at 1 *)
}.

(** A wait strategy is called with the retry state; [custom_wait] also
    reaches the instance through [retry_state.args[0]], which is why it
    takes and returns the world. *)
Definition wait_fn : Type := RetryCallState → World → Z * World.

Record Retrying := mkRetrying {
  stop : RetryCallState → bool;
  wait : wait_fn;
  retry : exn → bool;
  reraise : bool
}.

(** The releases of tenacity differ in what [Retrying.iter] does after an
    attempt that failed with an exception that [retry] accepts.  Up to
    8.2.3 it asks [stop] first, and the wait strategy only when the run
    goes on.  From 8.3.0 on it asks the wait strategy first - after every
    such attempt, the one on which [stop] fires included - and [stop] after
    it.  The scripts import tenacity without naming a release, so the
    engine takes the order as a parameter. *)
Inductive iter_order := stop_then_wait | wait_then_stop.
Existing Class iter_order.

Definition stop_after_attempt (max_attempt_number : nat) : RetryCallState → bool :=
  fun retry_state => (max_attempt_number <=? attempt_number retry_state)%nat.

(** Exception classes, as the predicates [isinstance(e, cls)]. *)
Definition is_Exception (e : exn) : bool := true.

Definition is_SendMsgError (e : exn) : bool :=
  match e with
  | SendMsgError _ _ => true
  | _ => false
  end.

Definition retry_if_exception_type (cls : exn → bool) : exn → bool := cls.

Definition wait_fixed (secs : Z) : wait_fn :=
  fun _ w => (secs, w).

(** [wait_chain] over its strategies: the strategy number
    [min(max(attempt_number, 1), len(strategies))].  (An empty chain is an
    [IndexError] in Python; none is built here.) *)
Definition wait_chain (strategies : list wait_fn) : wait_fn :=
  fun retry_state w =>
    let wait_func_no :=
      Nat.min (Nat.max (attempt_number retry_state) 1) (length strategies) in
    match strategies !! (wait_func_no - 1)%nat with
    | Some wait_func => wait_func retry_state w
    | None => (0, w)
    end.

(** [wait_exponential(multiplier, min, max)] with [exp_base = 2], as in
    current releases of tenacity:
    [max(max(0, min), min(multiplier * 2 ** (attempt_number - 1), max))].
    All quantities are Python integers here, so no [OverflowError]. *)
Definition wait_exponential (multiplier min max : Z) : wait_fn :=
  fun retry_state w =>
    let exp := 2 ^ (Z.of_nat (attempt_number retry_state) - 1) in
    let result := multiplier * exp in
    (Z.max (Z.max 0 min) (Z.min result max), w).

(** [Retrying.__call__] with [Retrying.iter] inlined.  One round of the
    [while True] loop pair (attempt, then decision) per unit of fuel:
    - the function returned: its value is the result;
    - it raised and [retry] rejects the exception: the exception goes up;
    - [stop] fires: the last exception itself with [reraise], else a
      [RetryError] holding it;
    - otherwise [time.sleep] is called with what the wait strategy
      answered, and the next attempt starts.
    The wait strategy is asked after [stop] or before it, as [order]
    says. *)
Fixpoint call {A : Type} {order : iter_order} (fuel : nat) (self : Retrying)
    (fn : World → outcome A * World) (retry_state : RetryCallState)
    (w : World) : option (outcome A * World) :=
  match fuel with
  | O => None
  | S fuel' =>
    let '(fut, w1) := fn w in
    match fut with
    | Returned v => Some (Returned v, w1)
    | Raised e =>
      if negb (retry self e) then Some (Raised e, w1)
      else
        match order with
        | stop_then_wait =>
          if stop self retry_state then
            Some (Raised (if reraise self then e else RetryError e), w1)
          else
            let '(sleep, w2) := wait self retry_state w1 in
            match time_sleep sleep w2 with
            | inl e' => Some (Raised e', w2)
            | inr w3 =>
              call fuel' self fn
                (mkState (fn_name retry_state) (S (attempt_number retry_state))) w3
            end
        | wait_then_stop =>
          let '(sleep, w2) := wait self retry_state w1 in
          if stop self retry_state then
            Some (Raised (if reraise self then e else RetryError e), w2)
          else
            match time_sleep sleep w2 with
            | inl e' => Some (Raised e', w2)
            | inr w3 =>
              call fuel' self fn
                (mkState (fn_name retry_state) (S (attempt_number retry_state))) w3
            end
        end
    end
  end.

(** The callable that [retry(...)(fn)] puts in place of [fn]. *)
Definition wrapped_f {A : Type} {order : iter_order} (self : Retrying) (name : string)
    (fn : World → outcome A * World) (fuel : nat) (w : World)
    : option (outcome A * World) :=
  call fuel self fn (mkState name 1) w.

End Tenacity.

Import Tenacity.

(** ** [slack_simple_rq.py]: one POST, no retry *)

Module Simple.

Definition send_msg_slack (net : nat → post_result)
    (web_hook_url channel : string) (w : World) : outcome string * World :=
  let w := set_channel channel w in
  let '(rq, w) := requests_post net web_hook_url (msg w) w in
  match rq with
  | Failed what => (Raised (ConnectionError what), w)
  | Responded msg_rq =>
    let response := text msg_rq in
    match raise_for_status msg_rq with
    | Some e => (Raised e, w)
    | None => (Returned response, w)
    end
  end.

End Simple.

(** ** [slack_retries_v0.py]: the manual loop *)

Module V0.

Definition TOTAL_ATTEMPS : nat := 4.
Definition SLEEP : Z := 1.

(** The [while attemp <= TOTAL_ATTEMPS] loop and the statement after it.
    [msg_rq] is the local variable of that name, unbound before the first
    POST.  The POST is outside the [try]: an exception of the transport
    leaves the function at once.  The function ends without a [return] if
    the last [raise_for_status] does not raise; [None] is that value. *)
Fixpoint loop (net : nat → post_result) (web_hook_url channel : string)
    (fuel : nat) (attemp : nat) (msg_rq : option Response) (w : World)
    : option (outcome (option string) * World) :=
  match fuel with
  | O => None
  | S fuel' =>
    if (attemp <=? TOTAL_ATTEMPS)%nat then
      let w := set_channel channel w in
      let '(rq, w) := requests_post net web_hook_url (msg w) w in
      match rq with
      | Failed what => Some (Raised (ConnectionError what), w)
      | Responded msg_rq =>
        let response := text msg_rq in
        match raise_for_status msg_rq with
        | Some _ =>
          match time_sleep SLEEP w with
          | inl e' => Some (Raised e', w)
          | inr w => loop net web_hook_url channel fuel' (S attemp) (Some msg_rq) w
          end
        | None => Some (Returned (Some response), w)
        end
      end
    else
      match msg_rq with
      | None => Some (Raised (UnboundLocalError "msg_rq"), w)
      | Some msg_rq =>
        match raise_for_status msg_rq with
        | Some e => Some (Raised e, w)
        | None => Some (Returned None, w)
        end
      end
  end.

Definition send_msg_slack (net : nat → post_result)
    (web_hook_url channel : string) (fuel : nat) (w : World)
    : option (outcome (option string) * World) :=
  loop net web_hook_url channel fuel 1 None w.

End V0.

(** ** [slack_retries_v1.py]: tenacity, exponential wait, every exception
    retried *)

Module V1.

Definition retrying : Retrying :=
  mkRetrying (stop_after_attempt 4) (wait_exponential 1 0 10)
             (retry_if_exception_type is_Exception) false.

(** The function under the decorator. *)
Definition send_msg_slack_fn (net : nat → post_result)
    (web_hook_url channel : string) (w : World) : outcome string * World :=
  let w := set_channel channel w in
  let '(rq, w) := requests_post net web_hook_url (msg w) w in
  match rq with
  | Failed what => (Raised (ConnectionError what), w)
  | Responded msg_rq =>
    let response := text msg_rq in
    match raise_for_status msg_rq with
    | Some e => (Raised e, w)
    | None => (Returned response, w)
    end
  end.

Definition send_msg_slack {order : iter_order} (net : nat → post_result)
    (web_hook_url channel : string) : nat → World → option (outcome string * World) :=
  wrapped_f retrying "send_msg_slack" (send_msg_slack_fn net web_hook_url channel).

End V1.

(** ** [slack_retries_v2.py]: only [SendMsgError] is retried *)

Module V2.

Definition retrying : Retrying :=
  mkRetrying (stop_after_attempt 4) (wait_exponential 1 4 10)
             (retry_if_exception_type is_SendMsgError) false.

Definition send_msg_slack_fn (net : nat → post_result)
    (web_hook_url channel : string) (w : World) : outcome string * World :=
  let w := set_channel channel w in
  let '(rq, w) := requests_post net web_hook_url (msg w) w in
  match rq with
  | Failed what => (Raised (ConnectionError what), w)
  | Responded msg_rq =>
    let response := text msg_rq in
    if status_code msg_rq =? 200 then (Returned response, w)
    else if (status_code msg_rq =? 429) || (500 <=? status_code msg_rq) then
      (Raised (SendMsgError (response +:+ " - " +:+ pretty (status_code msg_rq)) None), w)
    else
      match raise_for_status msg_rq with
      | Some e => (Raised e, w)
      | None => (Returned response, w)
      end
  end.

Definition send_msg_slack {order : iter_order} (net : nat → post_result)
    (web_hook_url channel : string) : nat → World → option (outcome string * World) :=
  wrapped_f retrying "send_msg_slack" (send_msg_slack_fn net web_hook_url channel).

End V2.

(** ** [slack_retries_v3.py]: a server-directed wait on 429 *)

Module V3.

Definition default_wait : wait_fn := wait_exponential 1 0 10.

(** [retry_state.args[0]] is the [SlackPub] instance, whose [wait]
    dictionary is [self_wait] of the world. *)
Definition custom_wait : wait_fn :=
  fun retry_state w =>
    let func_name := fn_name retry_state in
    match dict_get (self_wait w) func_name with
    | None => default_wait retry_state w
    | Some wait =>
      (wait, set_self_wait (<[func_name := None]> (self_wait w)) w)
    end.

Record SlackPub := mkSlackPub {
  whook_url : string;
  channel : string
}.

(** [SlackPub.__init__]: the instance and its fresh [wait] dictionary. *)
Definition init (whook_url channel : string) (w : World) : SlackPub * World :=
  (mkSlackPub whook_url channel,
   set_self_wait (<["send_msg_slack" := None]> ∅) w).

Definition retrying : Retrying :=
  mkRetrying (stop_after_attempt 4) custom_wait
             (retry_if_exception_type is_SendMsgError) false.

Section Program.
Variable net : nat → post_result.
(** Python's [int] on a header value: [None] is a [ValueError]. *)
Variable int : string → option Z.

Definition send_msg_slack_fn (self : SlackPub) (w : World)
    : outcome string * World :=
  let w := set_channel (channel self) w in
  let '(rq, w) := requests_post net (whook_url self) (msg w) w in
  match rq with
  | Failed what => (Raised (ConnectionError what), w)
  | Responded msg_rq =>
    let response := text msg_rq in
    if status_code msg_rq =? 200 then (Returned response, w)
    else if status_code msg_rq =? 429 then
      let error :=
        SendMsgError (response +:+ " - " +:+ pretty (status_code msg_rq)) None in
      match headers_get msg_rq "Retry-After" with
      | Some retry_after =>
        match int retry_after with
        | Some k =>
          (Raised error,
           set_self_wait (<["send_msg_slack" := Some k]> (self_wait w)) w)
        | None => (Raised (ValueError retry_after), w)
        end
      | None => (Raised error, w)
      end
    else if 500 <=? status_code msg_rq then
      (Raised (SendMsgError (response +:+ " - " +:+ pretty (status_code msg_rq)) None), w)
    else
      match raise_for_status msg_rq with
      | Some e => (Raised e, w)
      | None => (Returned response, w)
      end
  end.

Definition send_msg_slack {order : iter_order} (self : SlackPub)
    : nat → World → option (outcome string * World) :=
  wrapped_f retrying "send_msg_slack" (send_msg_slack_fn self).
End Program.

End V3.

(** ** [retries_slack.py]: fixed chain by default, server-directed wait on
    429, the last exception re-raised *)

Module RetriesSlack.

Definition TOO_MANY_CALLS : Z := 429.

Definition default_wait : wait_fn :=
  wait_chain (replicate 2 (wait_fixed 1) ++
              replicate 2 (wait_fixed 3) ++
              [wait_fixed 6]).

Definition custom_wait : wait_fn :=
  fun retry_state w =>
    let func_name := fn_name retry_state in
    match dict_get (self_wait w) func_name with
    | None => default_wait retry_state w
    | Some wait =>
      (wait, set_self_wait (<[func_name := None]> (self_wait w)) w)
    end.

(** [retry_options]: the policy it installs on the decorated function. *)
Definition retry_options : Retrying :=
  mkRetrying (stop_after_attempt 4) custom_wait
             (retry_if_exception_type is_Exception) true.

(** [SlackPub.__init__]. *)
Definition init (w : World) : World :=
  set_self_wait (<["send_msg_slack" := None]> ∅) w.

Definition prepare_msg : gmap string json :=
  let inner_params : gmap string json :=
    <["username" := JStr "username"]>
      (<["icon_emoji" := JStr ":screm_cat:"]>
         (<["channel" := JStr ("#" +:+ "learning")]> ∅)) in
  let block :=
    [ JObj [("type", JStr "header");
            ("text", JObj [("type", JStr "plain_text");
                           ("text", JStr "Budget Performance")])];
      JObj [("type", JStr "divider")];
      JObj [("type", JStr "section");
            ("text", JObj [("type", JStr "mrkdwn");
                           ("text", JStr "This is the text")])] ] in
  <["blocks" := JArr block]> inner_params.

Section Program.
Variable net : nat → post_result.
Variable int : string → option Z.

Definition send_msg_slack_fn (web_hook_url : string) (w : World)
    : outcome SendResult * World :=
  let msg := prepare_msg in
  let '(rq, w) := requests_post net web_hook_url msg w in
  match rq with
  | Failed what => (Raised (ConnectionError what), w)
  | Responded msg_rq =>
    let response := text msg_rq in
    let result := mkResult true response "" "destination" in
    if negb (status_code msg_rq =? 200) then
      let err_msg :=
        web_hook_url +:+ ": " +:+ pretty (status_code msg_rq) +:+ " - " +:+
        reason msg_rq in
      let result := mkResult false response err_msg "destination" in
      if status_code msg_rq =? TOO_MANY_CALLS then
        match headers_get msg_rq "Retry-After" with
        | None => (Raised (SendMsgError err_msg (Some result)), w)
        | Some retry_after =>
          match int retry_after with
          | Some k =>
            (Raised (SendMsgError err_msg (Some result)),
             set_self_wait (<["send_msg_slack" := Some k]> (self_wait w)) w)
          | None => (Raised (ValueError retry_after), w)
          end
        end
      else if 500 <=? status_code msg_rq then
        (Raised (SendMsgError err_msg (Some result)), w)
      else (Returned result, w)
    else (Returned result, w)
  end.

Definition send_msg_slack {order : iter_order} (web_hook_url : string)
    : nat → World → option (outcome SendResult * World) :=
  wrapped_f retry_options "send_msg_slack" (send_msg_slack_fn web_hook_url).

(** The loop at the end of the script, on the entries of [config.json]:
    one call per entry, all on the one instance [slack_cli]; whatever a
    call raises is caught and ["Failure"] is printed.  The result says, per
    entry, whether ["Failure"] was printed.  (The other prints are left
    out.) *)
Fixpoint main_loop {order : iter_order}
    (config : list (string * string)) (fuel : nat) (w : World)
    : option (list bool * World) :=
  match config with
  | [] => Some ([], w)
  | (cfg, url) :: config' =>
    match send_msg_slack url fuel w with
    | None => None
    | Some (rst, w') =>
      let failure := match rst with Raised _ => true | Returned _ => false end in
      match main_loop config' fuel w' with
      | None => None
      | Some (printed, w'') => Some (failure :: printed, w'')
      end
    end
  end.

(** [slack_cli = SlackPub()], then the loop. *)
Definition main {order : iter_order}
    (config : list (string * string)) (fuel : nat) (w : World)
    : option (list bool * World) :=
  main_loop config fuel (init w).
End Program.

End RetriesSlack.

(** ** One attempt seen from outside, and the unrolled run *)

(** What one attempt amounts to for the engine: the run stops with an
    outcome, or the attempt failed with an exception that the policy
    retries, possibly leaving a server-directed delay behind. *)
Inductive step (A : Type) :=
| Stop (o : outcome A)
| Retry (e : exn) (hint : option Z).
Arguments Stop {A} o.
Arguments Retry {A} e hint.

Definition negative_sleep : exn := ValueError "sleep length must be non-negative".


(** Number of attempts in a trace. *)
Fixpoint attempts (tr : list event) : nat :=
  match tr with
  | [] => O
  | Post _ _ _ :: tr' => S (attempts tr')
  | Sleep _ :: tr' => attempts tr'
  end.

(** The delays of a trace, in order. *)
Fixpoint delays (tr : list event) : list Z :=
  match tr with
  | [] => []
  | Post _ _ _ :: tr' => delays tr'
  | Sleep d :: tr' => d :: delays tr'
  end.

Section Unrolled.
Context {A : Type}.
Variable self : Retrying.
(** The decorated operation, as a function of the oracle. *)
Variable op : (nat → post_result) → World → outcome A * World.
Variable name : string.
Variables (url : string) (payload : gmap string json).

(** A world that holds nothing but a pending override for [name]. *)
Definition pending (h : option Z) : World := mkWorld 0 [] ∅ {[name := h]}.

(** The operation run on the response [r] alone, in a world without
    history, and what the policy makes of the result. *)
Definition classify (r : post_result) : step A :=
  let '(fut, w1) := op (fun _ => r) (pending None) in
  match fut with
  | Returned _ => Stop fut
  | Raised e =>
    if retry self e then Retry e (dict_get (self_wait w1) name) else Stop fut
  end.

(** The wait strategy asked in a world that holds only the hint. *)
Definition chosen_delay (n : nat) (h : option Z) : Z :=
  fst (wait self (mkState name n) (pending h)).

(** The run as a function of the responses alone: outcome (if the
    responses suffice) and effects, attempt [n] being the next one. *)
Fixpoint unrolled (n : nat) (rs : list post_result)
    : option (outcome A) * list event :=
  match rs with
  | [] => (None, [])
  | r :: rs' =>
    match classify r with
    | Stop o => (Some o, [Post url payload r])
    | Retry e h =>
      if stop self (mkState name n) then
        (Some (Raised (if reraise self then e else RetryError e)),
         [Post url payload r])
      else
        let d := chosen_delay n h in
        match sleep_error d with
        | Some e' => (Some (Raised e'), [Post url payload r])
        | None =>
          let '(o, tr) := unrolled (S n) rs' in
          (o, Post url payload r :: Sleep d :: tr)
        end
    end
  end.
End Unrolled.

(** ** What an attempt leaves behind *)

(** The override that the operation, run on the response [r] alone, leaves
    for [name]. *)
Definition hint_after {A : Type}
    (op : (nat → post_result) → World → outcome A * World)
    (name : string) (r : post_result) : option Z :=
  dict_get (self_wait (snd (op (fun _ => r) (pending name None)))) name.

(** Seconds slept in a trace. *)
Definition total_sleep (tr : list event) : Z := foldr Z.add 0 (delays tr).

(** ** The schedule in the words of the design *)

(** The server-directed delay of a response: the integer of the
    [Retry-After] header of a 429, none otherwise. *)
Definition suggested_delay (int : string → option Z) (r : post_result)
    : option Z :=
  match r with
  | Responded msg_rq =>
    if status_code msg_rq =? 429 then
      match headers_get msg_rq "Retry-After" with
      | Some retry_after => int retry_after
      | None => None
      end
    else None
  | Failed _ => None
  end.

(** The fixed chain: 1 second after each of the first two attempts, 3 after
    each of the next two, 6 from then on. *)
Definition fixed_chain (attempt : nat) : Z :=
  if (attempt <=? 2)%nat then 1
  else if (attempt <=? 4)%nat then 3
  else 6.

(** Exponential backoff, multiplier 1, base 2, between [lo] and [hi]. *)
Definition exponential (lo hi : Z) (attempt : nat) : Z :=
  Z.max lo (Z.min (2 ^ (Z.of_nat attempt - 1)) hi).



(** ** Sample data *)

(** A reading of Python's [int] for the examples: ASCII decimal digits with
    an optional minus sign.  (Python accepts more - blanks around, a plus
    sign, underscores; the theorems hold for every reading.) *)
Fixpoint digits (s : string) (acc : Z) : option Z :=
  match s with
  | EmptyString => Some acc
  | String c s' =>
    let n := nat_of_ascii c in
    if ((48 <=? n) && (n <=? 57))%nat
    then digits s' (10 * acc + Z.of_nat (n - 48))
    else None
  end.

Definition int_dec (s : string) : option Z :=
  match s with
  | EmptyString => None
  | String "-" EmptyString => None
  | String "-" s' => Z.opp <$> digits s' 0
  | _ => digits s 0
  end.

Definition respond (status : Z) (hdrs : gmap string string) (body : string)
    : post_result :=
  Responded (mkResponse status "" hdrs body).

(** The server of the 429 scenario: rate-limited with [Retry-After: 5],
    then a 503, then 200. *)
Definition net_hint (i : nat) : post_result :=
  match i with
  | O => respond 429 {["retry-after" := "5"]} "slow down"
  | 1%nat => respond 503 ∅ "unavailable"
  | _ => respond 200 ∅ "ok"
  end.

Definition net_always (r : post_result) (i : nat) : post_result := r.

(** A server that answers from a script and then keeps giving one
    response. *)
Definition net_script (rs : list post_result) (last : post_result) (i : nat)
    : post_result :=
  nth i rs last.

(** A world before anything happened, with the instance just built. *)
Definition fresh_world (m : gmap string json) : World :=
  RetriesSlack.init (mkWorld 0 [] m ∅).

(** The same server, reached after [k] earlier POSTs. *)
Definition later (k : nat) (net : nat → post_result) (i : nat) : post_result :=
  net (i - k)%nat.

(** A world with a history: two POSTs issued before, a sleep in the trace,
    an override pending for another function. *)
Definition used_world (m : gmap string json) : World :=
  mkWorld 2 [Sleep 7] m
    (<["send_msg_slack" := None]> {["other_function" := Some 3]}).

Definition sample_msg : gmap string json :=
  <["text" := JStr "This is a simple text"]>
    (<["username" := JStr "PythonProcess"]>
       (<["icon_emoji" := JStr ":smile:"]> ∅)).

(** ** The programs as operations on the oracle *)

Definition rs_op (int : string → option Z) (url : string)
    (net : nat → post_result) : World → outcome SendResult * World :=
  RetriesSlack.send_msg_slack_fn net int url.

Definition v3_op (int : string → option Z) (self : V3.SlackPub)
    (net : nat → post_result) : World → outcome string * World :=
  V3.send_msg_slack_fn net int self.

Definition v2_op (url channel : string) (net : nat → post_result)
    : World → outcome string * World :=
  V2.send_msg_slack_fn net url channel.

Definition v1_op (url channel : string) (net : nat → post_result)
    : World → outcome string * World :=
  V1.send_msg_slack_fn net url channel.

(** The override pending for [send_msg_slack] is [h]. *)
Definition slot (h : option Z) (w : World) : Prop :=
  dict_get (self_wait w) "send_msg_slack" = h.

(** The payload that a caller's dictionary [m] becomes. *)
Definition with_channel (channel : string) (m : gmap string json)
    : gmap string json :=
  <["channel" := JStr ("#" +:+ channel)]> m.

(** Before an attempt of the variants that take the caller's dictionary: it
    is [m] up to its channel (and, for the variant with an override, none is
    pending).  From the first attempt on it is [m] with the channel. *)
Definition chan_pre (channel : string) (m : gmap string json) (w : World) : Prop :=
  with_channel channel (msg w) = with_channel channel m.

Definition sent_pre (channel : string) (m : gmap string json) (w : World) : Prop :=
  slot None w ∧ chan_pre channel m w.

Definition sent (channel : string) (m : gmap string json) (w : World) : Prop :=
  msg w = with_channel channel m.

(** Every POST of a trace carries the payload [p]. *)
Definition carries (p : gmap string json) (e : event) : Prop :=
  match e with
  | Post _ q _ => q = p
  | Sleep _ => True
  end.

(** The dictionary is [m] with the channel, and the effects since [t0]
    include a POST and carry that dictionary in every POST. *)
Definition written (channel : string) (m : gmap string json)
    (t0 : list event) (w : World) : Prop :=
  sent channel m w ∧
  ∃ tr, trace w = t0 ++ tr ∧ (1 ≤ attempts tr)%nat ∧
        Forall (carries (with_channel channel m)) tr.

(** The caller's dictionary is still [m], and the effects since [t0] carry
    the payload [p] in every POST. *)
Definition untouched (m p : gmap string json) (t0 : list event) (w : World)
    : Prop :=
  msg w = m ∧ ∃ tr, trace w = t0 ++ tr ∧ Forall (carries p) tr.

(** * Properties *)

(** ** What [time.sleep] accepts *)

Lemma sleep_error_None d : sleep_error d = None ↔ 0 ≤ d ≤ sleep_max.
Proof.
  unfold sleep_error.
  destruct (Z.ltb_spec d 0), (Z.ltb_spec sleep_max d); split; (done || lia).
Qed.

Lemma sleep_error_accepts d : 0 ≤ d ≤ sleep_max → sleep_error d = None.
Proof. apply sleep_error_None. Qed.

Lemma sleep_error_negative d : d < 0 → sleep_error d = Some negative_sleep.
Proof.
  intros H. unfold sleep_error. destruct (Z.ltb_spec d 0); [done|lia].
Qed.


Lemma time_sleep_accepts d w :
  sleep_error d = None → time_sleep d w = inr (log (Sleep d) w).
Proof. unfold time_sleep. by intros ->. Qed.


(** ** The unrolled run as a list function *)

Section UnrolledPure.
Context {A : Type}.
Variable self : Retrying.
Variable op : (nat → post_result) → World → outcome A * World.
Variable name : string.
Variables (url : string) (payload : gmap string json).

Abbreviation run := (unrolled self op name url payload).

(** Responses beyond the ones used do not matter. *)
Lemma unrolled_app rs more : ∀ n o,
  fst (run n rs) = Some o → run n (rs ++ more) = run n rs.
Proof.
  induction rs as [|r rs IH]; intros n o H; [discriminate|].
  cbn [app unrolled] in *.
  destruct (classify self op name r) as [o'|e h]; [reflexivity|].
  destruct (stop self (mkState name n)); [reflexivity|].
  destruct (sleep_error (chosen_delay self name n h)); [reflexivity|].
  destruct (run (S n) rs) as [o' tr] eqn:E. cbn [fst] in H.
  rewrite (IH (S n) o); rewrite E; auto.
Qed.



(** A run that ends made at least one attempt. *)
Lemma unrolled_attempts_pos rs : ∀ n o,
  fst (run n rs) = Some o → (1 ≤ attempts (snd (run n rs)))%nat.
Proof.
  destruct rs as [|r rs]; intros n o H; [discriminate|].
  cbn [unrolled] in *.
  destruct (classify self op name r) as [o'|e h]; cbn; [lia|].
  destruct (stop self (mkState name n)); cbn; [lia|].
  destruct (sleep_error (chosen_delay self name n h)); cbn; [lia|].
  destruct (run (S n) rs) as [o' tr]. cbn. lia.
Qed.

(** An attempt that stops the run is the last one. *)
Lemma unrolled_stop_at rs : ∀ n j r o,
  rs !! j = Some r → (j < attempts (snd (run n rs)))%nat →
  classify self op name r = Stop o →
  fst (run n rs) = Some o ∧ attempts (snd (run n rs)) = S j ∧
  length (delays (snd (run n rs))) = j.
Proof.
  induction rs as [|r' rs IH]; intros n j r o Hj Hatt Hc; [done|].
  cbn [unrolled] in *.
  destruct j as [|j]; cbn in Hj.
  - injection Hj as ->. rewrite Hc. cbn. auto.
  - destruct (classify self op name r') as [o'|e h]; cbn in *; [lia|].
    destruct (stop self (mkState name n)); cbn in *; [lia|].
    destruct (sleep_error (chosen_delay self name n h)); cbn in *; [lia|].
    specialize (IH (S n) j r o Hj).
    destruct (run (S n) rs) as [o' tr]. cbn in *.
    destruct IH as (-> & -> & Hd); [lia|done|].
    split_and!; auto.
Qed.

(** An attempt that fails with a retried exception, before [stop] fires
    and with a delay that [time.sleep] accepts, is followed by the sleep
    of that delay and by another attempt. *)
Lemma unrolled_retry_at rs : ∀ n j r e h o,
  fst (run n rs) = Some o →
  rs !! j = Some r → (j < attempts (snd (run n rs)))%nat →
  classify self op name r = Retry e h →
  stop self (mkState name (n + j)) = false →
  sleep_error (chosen_delay self name (n + j) h) = None →
  (S j < attempts (snd (run n rs)))%nat ∧
  delays (snd (run n rs)) !! j = Some (chosen_delay self name (n + j) h).
Proof.
  induction rs as [|r' rs IH]; intros n j r e h o Ho Hj Hatt Hc Hstop Hd; [done|].
  cbn [unrolled] in *.
  destruct j as [|j]; cbn in Hj.
  - injection Hj as ->. rewrite Hc in *. rewrite Nat.add_0_r in *.
    rewrite Hstop in *. rewrite Hd in *.
    destruct (run (S n) rs) as [o' tr] eqn:Er. cbn in *.
    pose proof (unrolled_attempts_pos rs (S n) o) as Hpos.
    rewrite Er in Hpos. cbn in Hpos. split; [|done].
    specialize (Hpos Ho). lia.
  - destruct (classify self op name r') as [o'|e' h']; cbn in *; [lia|].
    destruct (stop self (mkState name n)); cbn in *; [lia|].
    destruct (sleep_error (chosen_delay self name n h')); cbn in *; [lia|].
    specialize (IH (S n) j r e h o).
    replace (S n + j)%nat with (n + S j)%nat in IH by lia.
    destruct (run (S n) rs) as [o' tr]. cbn in *.
    destruct IH as [IH1 IH2]; auto; [lia|]. split; [lia|done].
Qed.

(** An attempt that fails with a retried exception when [stop] fires is
    the last one, and its exception is what goes up. *)
Lemma unrolled_exhaust_at rs : ∀ n j r e h,
  rs !! j = Some r → (j < attempts (snd (run n rs)))%nat →
  classify self op name r = Retry e h →
  stop self (mkState name (n + j)) = true →
  fst (run n rs) = Some (Raised (if reraise self then e else RetryError e)) ∧
  attempts (snd (run n rs)) = S j.
Proof.
  induction rs as [|r' rs IH]; intros n j r e h Hj Hatt Hc Hstop; [done|].
  cbn [unrolled] in *.
  destruct j as [|j]; cbn in Hj.
  - injection Hj as ->. rewrite Hc in *. rewrite Nat.add_0_r in *.
    rewrite Hstop. cbn. auto.
  - destruct (classify self op name r') as [o'|e' h']; cbn in *; [lia|].
    destruct (stop self (mkState name n)); cbn in *; [lia|].
    destruct (sleep_error (chosen_delay self name n h')); cbn in *; [lia|].
    specialize (IH (S n) j r e h Hj).
    replace (S n + j)%nat with (n + S j)%nat in IH by lia.
    destruct (run (S n) rs) as [o' tr]. cbn in *.
    destruct IH as [-> ->]; auto. lia.
Qed.

(** When the override that an attempt leaves is the server's delay, and
    the strategy chooses it over the default, the effects of a run that
    ends are the schedule of the design over the responses it used. *)
Section Schedule.
Variable int : string → option Z.
Variable default : nat → Z.
Hypothesis hint_is_suggested : ∀ r e h,
  classify self op name r = Retry e h → h = suggested_delay int r.
Hypothesis delay_prefers_hint : ∀ k h,
  chosen_delay self name k h =
  match h with Some d => d | None => default k end.

End Schedule.

Section StopAfter.
Variable N : nat.
Hypothesis stop_N : ∀ k, stop self (mkState name k) = (N <=? k)%nat.

(** With [stop_after_attempt N] the run ends within the budget. *)
Lemma unrolled_total rs : ∀ n,
  (1 ≤ length rs)%nat → (N + 1 - n ≤ length rs)%nat →
  ∃ o, fst (run n rs) = Some o.
Proof.
  induction rs as [|r rs IH]; intros n H1 H2; cbn [length] in *; [lia|].
  cbn [unrolled].
  destruct (classify self op name r) as [o'|e h]; [eauto|].
  rewrite stop_N. destruct (N <=? n)%nat eqn:E; [eauto|].
  apply Nat.leb_gt in E.
  destruct (sleep_error (chosen_delay self name n h)); [eauto|].
  destruct (IH (S n)) as [o Ho]; [lia..|].
  destruct (run (S n) rs) as [o' tr]. cbn [fst] in *. eauto.
Qed.

Lemma unrolled_attempts_le rs : ∀ n,
  (attempts (snd (run n rs)) ≤ Nat.max 1 (N + 1 - n))%nat.
Proof.
  induction rs as [|r rs IH]; intros n; cbn [unrolled snd attempts]; [lia|].
  destruct (classify self op name r) as [o'|e h]; cbn [snd attempts]; [lia|].
  rewrite stop_N. destruct (N <=? n)%nat eqn:E; cbn [snd attempts]; [lia|].
  apply Nat.leb_gt in E.
  destruct (sleep_error (chosen_delay self name n h)); cbn [snd attempts]; [lia|].
  specialize (IH (S n)).
  destruct (run (S n) rs) as [o' tr]. cbn [snd attempts] in *. lia.
Qed.

End StopAfter.
End UnrolledPure.

(** ** More about the unrolled run *)

Section UnrolledMore.
Context {A : Type}.
Variable self : Retrying.
Variable op : (nat → post_result) → World → outcome A * World.
Variable name : string.
Variables (url : string) (payload : gmap string json).

(** Every sleep follows a retried failure met before [stop] fires, and
    lasts what the wait strategy chose for it. *)
Lemma unrolled_delay_at rs : ∀ n i d,
  delays (snd (unrolled self op name url payload n rs)) !! i = Some d →
  ∃ r e h,
    rs !! i = Some r ∧ classify self op name r = Retry e h ∧
    stop self (mkState name (n + i)) = false ∧
    d = chosen_delay self name (n + i) h ∧ 0 ≤ d ≤ sleep_max.
Proof.
  induction rs as [|r rs IH]; intros n i d Hd; [done|].
  cbn [unrolled] in Hd.
  destruct (classify self op name r) as [o'|e h] eqn:Hc; [done|].
  destruct (stop self (mkState name n)) eqn:Hstop; [done|].
  destruct (sleep_error (chosen_delay self name n h)) eqn:Hpos; [done|].
  apply sleep_error_None in Hpos.
  destruct (unrolled self op name url payload (S n) rs) as [o' tr] eqn:E.
  cbn [snd delays] in Hd. destruct i as [|i]; cbn in Hd.
  - injection Hd as <-. exists r, e, h. rewrite Nat.add_0_r. auto.
  - specialize (IH (S n) i d). rewrite E in IH. cbn [snd] in IH.
    destruct (IH Hd) as (r' & e' & h' & H1 & H2 & H3 & H4 & H5).
    exists r', e', h'. replace (n + S i)%nat with (S n + i)%nat by lia. auto.
Qed.

(** A run that ends sleeps between its attempts and nowhere else. *)
Lemma unrolled_delays_length rs : ∀ n o,
  fst (unrolled self op name url payload n rs) = Some o →
  attempts (snd (unrolled self op name url payload n rs)) =
  S (length (delays (snd (unrolled self op name url payload n rs)))).
Proof.
  induction rs as [|r rs IH]; intros n o Ho; [done|].
  cbn [unrolled] in *.
  destruct (classify self op name r) as [o'|e h]; [done|].
  destruct (stop self (mkState name n)); [done|].
  destruct (sleep_error (chosen_delay self name n h)); [done|].
  specialize (IH (S n) o).
  destruct (unrolled self op name url payload (S n) rs) as [o' tr].
  cbn [fst snd attempts delays length] in *. by rewrite IH.
Qed.

(** A delay that [time.sleep] refuses ends the run. *)
Lemma unrolled_abort_at rs : ∀ n j r e h e',
  rs !! j = Some r →
  (j < attempts (snd (unrolled self op name url payload n rs)))%nat →
  classify self op name r = Retry e h →
  stop self (mkState name (n + j)) = false →
  sleep_error (chosen_delay self name (n + j) h) = Some e' →
  fst (unrolled self op name url payload n rs) = Some (Raised e') ∧
  attempts (snd (unrolled self op name url payload n rs)) = S j.
Proof.
  induction rs as [|r' rs IH]; intros n j r e h e' Hj Hatt Hc Hstop Hd; [done|].
  cbn [unrolled] in *.
  destruct j as [|j]; cbn in Hj.
  - injection Hj as ->. rewrite Hc in *. rewrite Nat.add_0_r in *.
    rewrite Hstop, Hd. done.
  - destruct (classify self op name r') as [o'|e1 h']; cbn in *; [lia|].
    destruct (stop self (mkState name n)); cbn in *; [lia|].
    destruct (sleep_error (chosen_delay self name n h')); cbn in *; [lia|].
    specialize (IH (S n) j r e h e' Hj).
    replace (S n + j)%nat with (n + S j)%nat in IH by lia.
    destruct (unrolled self op name url payload (S n) rs) as [o' tr]. cbn in *.
    destruct IH as [-> ->]; auto. lia.
Qed.
End UnrolledMore.

(** The same three facts, read off a run that is at hand. *)
Section At.
Context {A : Type} {self : Retrying}.
Context {op : (nat → post_result) → World → outcome A * World}.
Context {name url : string} {payload : gmap string json}.
Context {rs : list post_result} {n : nat} {o : outcome A} {tr : list event}.
Hypothesis Hrun : unrolled self op name url payload n rs = (Some o, tr).

Lemma stopped_at j r o' :
  rs !! j = Some r → (j < attempts tr)%nat →
  classify self op name r = Stop o' →
  o = o' ∧ attempts tr = S j ∧ length (delays tr) = j.
Proof.
  intros Hj Hatt Hc.
  destruct (unrolled_stop_at self op name url payload rs n j r o' Hj)
    as (H1 & H2 & H3); rewrite ?Hrun; auto.
  rewrite Hrun in H1, H2, H3. cbn [fst snd] in *. split_and!; congruence.
Qed.

Lemma exhausted_at j r e h :
  rs !! j = Some r → (j < attempts tr)%nat →
  classify self op name r = Retry e h →
  stop self (mkState name (n + j)) = true →
  o = Raised (if reraise self then e else RetryError e) ∧ attempts tr = S j.
Proof.
  intros Hj Hatt Hc Hstop.
  destruct (unrolled_exhaust_at self op name url payload rs n j r e h Hj)
    as (H1 & H2); rewrite ?Hrun; auto.
  rewrite Hrun in H1, H2. cbn [fst snd] in *. split; congruence.
Qed.

Lemma retried_at j r e h :
  rs !! j = Some r → (j < attempts tr)%nat →
  classify self op name r = Retry e h →
  stop self (mkState name (n + j)) = false →
  sleep_error (chosen_delay self name (n + j) h) = None →
  (S j < attempts tr)%nat ∧
  delays tr !! j = Some (chosen_delay self name (n + j) h).
Proof.
  intros Hj Hatt Hc Hstop Hd.
  destruct (unrolled_retry_at self op name url payload rs n j r e h o)
    as (H1 & H2); rewrite ?Hrun; auto.
  rewrite Hrun in H1, H2. cbn [snd] in *. auto.
Qed.
End At.

(** ** The engine against the unrolled run *)

Section UnrolledFacts.
Context {A : Type} {order : iter_order}.
Variable self : Retrying.
Variable op : (nat → post_result) → World → outcome A * World.
Variable name : string.
Variables (url : string) (payload : gmap string json).
Variable net : nat → post_result.

(** [Pre] holds before each attempt, [Mid h] after an attempt that left
    the override [h], [Q] from the first attempt on. *)
Variable Pre : World → Prop.
Variable Mid : option Z → World → Prop.
Variable Q : World → Prop.

(** The operation looks at the world only through the next response. *)
Hypothesis op_local : ∀ w, Pre w →
  ∃ w1,
    op net w = (fst (op (fun _ => net (posts w)) (pending name None)), w1) ∧
    posts w1 = S (posts w) ∧
    trace w1 = trace w ++ [Post url payload (net (posts w))] ∧
    Mid (dict_get
           (self_wait (snd (op (fun _ => net (posts w)) (pending name None))))
           name) w1 ∧
    Q w1.

(** The wait strategy looks at the world only through the override, and
    consumes it. *)
Hypothesis wait_local : ∀ n h w, Mid h w → Q w →
  ∃ w2,
    wait self (mkState name n) w = (chosen_delay self name n h, w2) ∧
    posts w2 = posts w ∧ trace w2 = trace w ∧ Pre w2 ∧ Q w2.

Hypothesis Pre_log : ∀ e w, Pre w → Pre (log e w).

Lemma call_unrolled fuel : ∀ n w, Pre w →
  match unrolled self op name url payload n (map net (seq (posts w) fuel)) with
  | (None, _) => call fuel self (op net) (mkState name n) w = None
  | (Some o, tr) =>
    ∃ w', call fuel self (op net) (mkState name n) w = Some (o, w') ∧
          trace w' = trace w ++ tr ∧
          posts w' = (posts w + attempts tr)%nat ∧
          Q w'
  end.
Proof.
  induction fuel as [|fuel IH]; intros n w HPre; [reflexivity|].
  destruct (op_local w HPre) as (w1 & Hop & Hposts & Htrace & HMid & HQ).
  cbn [seq map unrolled call]. unfold classify. rewrite Hop.
  destruct (op (fun _ => net (posts w)) (pending name None)) as [fut wc].
  cbn [fst snd] in *.
  destruct fut as [v|e].
  - exists w1. rewrite Hposts. cbn [attempts]. split_and!; auto; lia.
  - destruct (retry self e); cbn [negb].
    2:{ exists w1. rewrite Hposts. cbn [attempts]. split_and!; auto; lia. }
    destruct (wait_local n _ w1 HMid HQ) as (w2 & Hw & Hp2 & Ht2 & HPre2 & HQ2).
    cbn [fn_name attempt_number].
    destruct order; rewrite Hw;
      (destruct (stop self (mkState name n));
       [eexists; split; [reflexivity|]; rewrite ?Hp2, ?Ht2, Hposts;
        cbn [attempts]; split_and!; auto; lia|]).
    all: unfold time_sleep.
    all: destruct (sleep_error (chosen_delay self name n _));
      [exists w2; rewrite Hp2, Ht2, Hposts; cbn [attempts];
       split_and!; auto; lia|].
    all: specialize (IH (S n) (log (Sleep (chosen_delay self name n
                        (dict_get (self_wait wc) name))) w2) (Pre_log _ _ HPre2)).
    all: cbn [log posts trace] in IH; rewrite Hp2, Hposts in IH.
    all: destruct (unrolled self op name url payload (S n)
                     (map net (seq (S (posts w)) fuel))) as [[o|] tr]; [|exact IH].
    all: destruct IH as (w' & Hcall & Htr & Hps & HQ').
    all: exists w'; split_and!; auto;
      [rewrite Htr, Ht2, Htrace; rewrite <- !app_assoc; reflexivity
      |rewrite Hps; cbn [attempts]; lia].
Qed.

(** The same with any fuel at least the number of responses needed. *)
Lemma call_unrolled_enough k fuel n w o tr :
  Pre w → (k ≤ fuel)%nat →
  unrolled self op name url payload n (map net (seq (posts w) k)) = (Some o, tr) →
  ∃ w', call fuel self (op net) (mkState name n) w = Some (o, w') ∧
        trace w' = trace w ++ tr ∧
        posts w' = (posts w + attempts tr)%nat ∧
        Q w'.
Proof.
  intros HPre Hk Hrun. pose proof (call_unrolled fuel n w HPre) as H.
  assert (map net (seq (posts w) fuel) =
          map net (seq (posts w) k) ++ map net (seq (posts w + k) (fuel - k)))
    as Hsplit.
  { rewrite <- map_app, <- seq_app. do 2 f_equal. lia. }
  rewrite Hsplit in H.
  rewrite (unrolled_app _ _ _ _ _ _ _ _ o) in H by (rewrite Hrun; done).
  rewrite Hrun in H. exact H.
Qed.

(** Under [stop_after_attempt N] the first [N] responses decide the
    run, whatever the fuel beyond [N]. *)
Lemma call_stop_after N fuel w :
  (∀ k, stop self (mkState name k) = (N <=? k)%nat) →
  (1 ≤ N)%nat → Pre w → (N ≤ fuel)%nat →
  ∃ o tr w',
    unrolled self op name url payload 1 (map net (seq (posts w) N)) = (Some o, tr) ∧
    call fuel self (op net) (mkState name 1) w = Some (o, w') ∧
    trace w' = trace w ++ tr ∧
    posts w' = (posts w + attempts tr)%nat ∧
    (1 ≤ attempts tr ≤ N)%nat ∧
    Q w'.
Proof.
  intros Hstop HN HPre Hfuel.
  destruct (unrolled_total self op name url payload N Hstop
              (map net (seq (posts w) N)) 1) as [o Ho];
    [rewrite length_map, length_seq; lia..|].
  pose proof (unrolled_attempts_le self op name url payload N Hstop
                (map net (seq (posts w) N)) 1) as Hle.
  pose proof (unrolled_attempts_pos self op name url payload
                (map net (seq (posts w) N)) 1 o Ho) as Hpos.
  destruct (unrolled self op name url payload 1 (map net (seq (posts w) N)))
    as [o' tr] eqn:E.
  cbn [fst snd] in *. subst o'.
  destruct (call_unrolled_enough N fuel 1 w o tr HPre Hfuel E)
    as (w' & Hcall & Ht & Hp & HQ).
  exists o, tr, w'. split_and!; auto. lia.
Qed.
End UnrolledFacts.

(** ** Dictionaries and default schedules *)

Lemma dict_get_insert (d : gmap string (option Z)) key v :
  dict_get (<[key := v]> d) key = v.
Proof. unfold dict_get. by rewrite lookup_insert_eq. Qed.

Lemma dict_get_singleton key (v : option Z) :
  dict_get {[key := v]} key = v.
Proof. unfold dict_get. by rewrite lookup_singleton_eq. Qed.

Lemma rs_default_wait_eq retry_state w :
  RetriesSlack.default_wait retry_state w =
  (fixed_chain (attempt_number retry_state), w).
Proof.
  unfold RetriesSlack.default_wait, wait_chain, fixed_chain.
  destruct (attempt_number retry_state) as [|[|[|[|[|n]]]]]; try reflexivity.
  cbn [replicate app length Nat.max Nat.min]. rewrite Nat.min_0_r.
  reflexivity.
Qed.

Lemma v3_default_wait_eq retry_state w :
  V3.default_wait retry_state w =
  (exponential 0 10 (attempt_number retry_state), w).
Proof.
  unfold V3.default_wait, wait_exponential, exponential.
  rewrite Z.mul_1_l. reflexivity.
Qed.

(** ** The four tenacity variants are local in the above sense *)

Section RetriesSlackLocal.
Variable net : nat → post_result.
Variable int : string → option Z.
Variable url : string.

Lemma rs_op_local w :
  slot None w →
  ∃ w1,
    rs_op int url net w =
      (fst (rs_op int url (fun _ => net (posts w))
              (pending "send_msg_slack" None)), w1) ∧
    posts w1 = S (posts w) ∧
    trace w1 = trace w ++ [Post url RetriesSlack.prepare_msg (net (posts w))] ∧
    slot (dict_get
            (self_wait (snd (rs_op int url (fun _ => net (posts w))
                               (pending "send_msg_slack" None))))
            "send_msg_slack") w1 ∧
    True.
Proof.
  unfold slot, rs_op, RetriesSlack.send_msg_slack_fn, requests_post, pending.
  intros Hslot. cbn [posts trace msg self_wait].
  destruct (net (posts w)) as [msg_rq|what]; cbn [fst snd].
  2:{ eexists. split_and!; try reflexivity.
      cbn. rewrite dict_get_singleton. done. }
  repeat case_match; eexists; (split_and!; [reflexivity|..]); cbn; trivial;
    rewrite ?dict_get_insert, ?dict_get_singleton; done.
Qed.

Lemma rs_wait_local n h w :
  slot h w → True →
  ∃ w2,
    wait RetriesSlack.retry_options (mkState "send_msg_slack" n) w =
      (chosen_delay RetriesSlack.retry_options "send_msg_slack" n h, w2) ∧
    posts w2 = posts w ∧ trace w2 = trace w ∧ slot None w2 ∧ True.
Proof.
  unfold slot, chosen_delay, pending. cbn. unfold RetriesSlack.custom_wait.
  cbn. intros Hslot _. rewrite Hslot, dict_get_singleton.
  destruct h as [k|].
  - eexists. split_and!; try reflexivity. cbn. apply dict_get_insert.
  - rewrite !rs_default_wait_eq. eexists. split_and!; done.
Qed.

Lemma slot_log e w : slot None w → slot None (log e w).
Proof. done. Qed.
End RetriesSlackLocal.

Section ChannelLocal.
Variable net : nat → post_result.
Variable int : string → option Z.
Variables (url channel : string) (m : gmap string json).

Lemma sent_pre_log e w : sent_pre channel m w → sent_pre channel m (log e w).
Proof. done. Qed.

Lemma chan_pre_log e w : chan_pre channel m w → chan_pre channel m (log e w).
Proof. done. Qed.

Lemma with_channel_idem :
  with_channel channel (with_channel channel m) = with_channel channel m.
Proof. unfold with_channel. apply insert_insert_eq. Qed.

Ltac local_attempt :=
  unfold sent_pre, chan_pre, sent, slot,
    set_channel, requests_post, pending, set_msg, with_channel in *;
  intros Hpre; cbn [posts trace msg self_wait V3.channel V3.whook_url];
  rewrite (proj2 (conj I Hpre)) || rewrite (proj2 Hpre);
  destruct (net _) as [msg_rq|what]; cbn [fst snd];
  repeat case_match; eexists; (split_and!; [reflexivity|..]); cbn; trivial;
  rewrite ?dict_get_insert, ?dict_get_singleton; try done; by destruct Hpre.

Lemma v3_op_local w :
  sent_pre channel m w →
  ∃ w1,
    v3_op int (V3.mkSlackPub url channel) net w =
      (fst (v3_op int (V3.mkSlackPub url channel) (fun _ => net (posts w))
              (pending "send_msg_slack" None)), w1) ∧
    posts w1 = S (posts w) ∧
    trace w1 = trace w ++ [Post url (with_channel channel m) (net (posts w))] ∧
    slot (dict_get
            (self_wait (snd (v3_op int (V3.mkSlackPub url channel)
                               (fun _ => net (posts w))
                               (pending "send_msg_slack" None))))
            "send_msg_slack") w1 ∧
    sent channel m w1.
Proof. unfold v3_op, V3.send_msg_slack_fn. local_attempt. Qed.

Lemma v2_op_local w :
  chan_pre channel m w →
  ∃ w1,
    v2_op url channel net w =
      (fst (v2_op url channel (fun _ => net (posts w))
              (pending "send_msg_slack" None)), w1) ∧
    posts w1 = S (posts w) ∧
    trace w1 = trace w ++ [Post url (with_channel channel m) (net (posts w))] ∧
    True ∧
    sent channel m w1.
Proof. unfold v2_op, V2.send_msg_slack_fn. local_attempt. Qed.

Lemma v1_op_local w :
  chan_pre channel m w →
  ∃ w1,
    v1_op url channel net w =
      (fst (v1_op url channel (fun _ => net (posts w))
              (pending "send_msg_slack" None)), w1) ∧
    posts w1 = S (posts w) ∧
    trace w1 = trace w ++ [Post url (with_channel channel m) (net (posts w))] ∧
    True ∧
    sent channel m w1.
Proof. unfold v1_op, V1.send_msg_slack_fn. local_attempt. Qed.

Lemma v3_wait_local n h w :
  slot h w → sent channel m w →
  ∃ w2,
    wait V3.retrying (mkState "send_msg_slack" n) w =
      (chosen_delay V3.retrying "send_msg_slack" n h, w2) ∧
    posts w2 = posts w ∧ trace w2 = trace w ∧ sent_pre channel m w2 ∧ sent channel m w2.
Proof.
  unfold sent_pre, chan_pre, sent, slot,
    chosen_delay, pending.
  cbn. unfold V3.custom_wait. cbn. intros Hslot Hmsg.
  rewrite Hslot, dict_get_singleton.
  destruct h as [k|].
  - eexists. split_and!; try reflexivity; cbn.
    + apply dict_get_insert.
    + rewrite Hmsg. apply with_channel_idem.
    + done.
  - rewrite !v3_default_wait_eq. eexists. split_and!; try done.
    rewrite Hmsg. apply with_channel_idem.
Qed.

(** A wait strategy that does not look at the world. *)
Lemma exponential_wait_local (self : Retrying) lo n (h : option Z) w :
  wait self = wait_exponential 1 lo 10 →
  True → sent channel m w →
  ∃ w2,
    wait self (mkState "send_msg_slack" n) w =
      (chosen_delay self "send_msg_slack" n h, w2) ∧
    posts w2 = posts w ∧ trace w2 = trace w ∧ chan_pre channel m w2 ∧ sent channel m w2.
Proof.
  unfold chan_pre, sent, chosen_delay.
  intros Hpure _ Hmsg. rewrite !Hpure. cbn.
  eexists. split_and!; try done.
  rewrite Hmsg. apply with_channel_idem.
Qed.
End ChannelLocal.

(** ** Each decorated function is its unrolled run *)

Lemma rs_run {order : iter_order} net int url fuel w :
  slot None w → (4 ≤ fuel)%nat →
  ∃ o tr w',
    unrolled RetriesSlack.retry_options (rs_op int url) "send_msg_slack"
      url RetriesSlack.prepare_msg 1 (map net (seq (posts w) 4)) = (Some o, tr) ∧
    RetriesSlack.send_msg_slack net int url fuel w = Some (o, w') ∧
    trace w' = trace w ++ tr ∧
    posts w' = (posts w + attempts tr)%nat ∧
    (1 ≤ attempts tr ≤ 4)%nat ∧
    True.
Proof.
  intros Hslot Hfuel.
  apply (call_stop_after RetriesSlack.retry_options (rs_op int url)
           "send_msg_slack" url RetriesSlack.prepare_msg net
           (slot None) slot (fun _ => True)
           (rs_op_local net int url) (rs_wait_local) slot_log 4 fuel w);
    auto.
Qed.

Lemma v3_run {order : iter_order} net int url channel fuel w :
  slot None w → (4 ≤ fuel)%nat →
  ∃ o tr w',
    unrolled V3.retrying (v3_op int (V3.mkSlackPub url channel)) "send_msg_slack"
      url (with_channel channel (msg w)) 1 (map net (seq (posts w) 4)) = (Some o, tr) ∧
    V3.send_msg_slack net int (V3.mkSlackPub url channel) fuel w = Some (o, w') ∧
    trace w' = trace w ++ tr ∧
    posts w' = (posts w + attempts tr)%nat ∧
    (1 ≤ attempts tr ≤ 4)%nat ∧
    sent channel (msg w) w'.
Proof.
  intros Hslot Hfuel.
  apply (call_stop_after V3.retrying (v3_op int (V3.mkSlackPub url channel))
           "send_msg_slack" url (with_channel channel (msg w)) net
           (sent_pre channel (msg w)) slot (sent channel (msg w))
           (v3_op_local net int url channel (msg w))
           (v3_wait_local channel (msg w))
           (sent_pre_log channel (msg w)) 4 fuel w);
    auto. by split.
Qed.

Lemma v2_run {order : iter_order} net url channel fuel w :
  (4 ≤ fuel)%nat →
  ∃ o tr w',
    unrolled V2.retrying (v2_op url channel) "send_msg_slack"
      url (with_channel channel (msg w)) 1 (map net (seq (posts w) 4)) = (Some o, tr) ∧
    V2.send_msg_slack net url channel fuel w = Some (o, w') ∧
    trace w' = trace w ++ tr ∧
    posts w' = (posts w + attempts tr)%nat ∧
    (1 ≤ attempts tr ≤ 4)%nat ∧
    sent channel (msg w) w'.
Proof.
  intros Hfuel.
  apply (call_stop_after V2.retrying (v2_op url channel)
           "send_msg_slack" url (with_channel channel (msg w)) net
           (chan_pre channel (msg w)) (fun _ _ => True) (sent channel (msg w))
           (v2_op_local net url channel (msg w))
           (fun n h w0 => exponential_wait_local channel (msg w) V2.retrying 4 n h w0 eq_refl)
           (chan_pre_log channel (msg w)) 4 fuel w);
    auto. done.
Qed.

Lemma v1_run {order : iter_order} net url channel fuel w :
  (4 ≤ fuel)%nat →
  ∃ o tr w',
    unrolled V1.retrying (v1_op url channel) "send_msg_slack"
      url (with_channel channel (msg w)) 1 (map net (seq (posts w) 4)) = (Some o, tr) ∧
    V1.send_msg_slack net url channel fuel w = Some (o, w') ∧
    trace w' = trace w ++ tr ∧
    posts w' = (posts w + attempts tr)%nat ∧
    (1 ≤ attempts tr ≤ 4)%nat ∧
    sent channel (msg w) w'.
Proof.
  intros Hfuel.
  apply (call_stop_after V1.retrying (v1_op url channel)
           "send_msg_slack" url (with_channel channel (msg w)) net
           (chan_pre channel (msg w)) (fun _ _ => True) (sent channel (msg w))
           (v1_op_local net url channel (msg w))
           (fun n h w0 => exponential_wait_local channel (msg w) V1.retrying 0 n h w0 eq_refl)
           (chan_pre_log channel (msg w)) 4 fuel w);
    auto. done.
Qed.

(** ** The default schedules *)

(** C6.  With no override pending for the retried function, the wait
    strategy of [retries_slack.py] leaves the world as it is and answers
    with the fixed chain: 1 second after each of the first two attempts
    (before the first two retries), 3 seconds after the third and the
    fourth, 6 seconds after any later one. *)
Theorem fixed_chain_default_wait (name : string) (n : nat) (w : World) :
  dict_get (self_wait w) name = None →
  ∃ d,
    RetriesSlack.custom_wait (mkState name n) w = (d, w) ∧
    RetriesSlack.default_wait (mkState name n) w = (d, w) ∧
    ((1 ≤ n ≤ 2)%nat → d = 1) ∧
    ((3 ≤ n ≤ 4)%nat → d = 3) ∧
    ((5 ≤ n)%nat → d = 6).
Proof.
  intros Hnone. exists (fixed_chain n).
  unfold RetriesSlack.custom_wait. cbn [fn_name]. rewrite Hnone.
  rewrite rs_default_wait_eq. cbn [attempt_number].
  split_and!; try reflexivity; intros Hn; unfold fixed_chain.
  - destruct (Nat.leb_spec n 2); [done|lia].
  - destruct (Nat.leb_spec n 2); [lia|].
    destruct (Nat.leb_spec n 4); [done|lia].
  - destruct (Nat.leb_spec n 2); [lia|].
    destruct (Nat.leb_spec n 4); [lia|done].
Qed.

Lemma fixed_chain_default_wait_witness :
  dict_get (self_wait (fresh_world ∅)) "send_msg_slack" = None ∧
  ∃ d,
    RetriesSlack.custom_wait (mkState "send_msg_slack" 3) (fresh_world ∅) =
      (d, fresh_world ∅) ∧
    RetriesSlack.default_wait (mkState "send_msg_slack" 3) (fresh_world ∅) =
      (d, fresh_world ∅) ∧
    ((1 ≤ 3 ≤ 2)%nat → d = 1) ∧
    ((3 ≤ 3 ≤ 4)%nat → d = 3) ∧
    ((5 ≤ 3)%nat → d = 6).
Proof.
  split; [reflexivity|].
  apply (fixed_chain_default_wait "send_msg_slack" 3 (fresh_world ∅)).
  reflexivity.
Defined.

Lemma pow2_mono (a b : nat) :
  (1 ≤ a ≤ b)%nat → 2 ^ (Z.of_nat a - 1) ≤ 2 ^ (Z.of_nat b - 1).
Proof. intros H. apply Z.pow_le_mono_r; lia. Qed.

Lemma wait_exponential_bounds multiplier lo hi retry_state w :
  0 ≤ lo ≤ hi →
  lo ≤ fst (wait_exponential multiplier lo hi retry_state w) ≤ hi.
Proof. unfold wait_exponential. cbn [fst]. lia. Qed.

Lemma wait_exponential_mono multiplier lo hi rs1 rs2 w1 w2 :
  0 ≤ multiplier →
  (1 ≤ attempt_number rs1 ≤ attempt_number rs2)%nat →
  fst (wait_exponential multiplier lo hi rs1 w1) ≤
  fst (wait_exponential multiplier lo hi rs2 w2).
Proof.
  intros Hm Hn. unfold wait_exponential. cbn [fst].
  pose proof (pow2_mono _ _ Hn) as Hpow.
  assert (multiplier * 2 ^ (Z.of_nat (attempt_number rs1) - 1) ≤
          multiplier * 2 ^ (Z.of_nat (attempt_number rs2) - 1)) by nia.
  lia.
Qed.

(** C7.  In the variants with exponential backoff - the policies of v1 and
    v2 and the default schedule of v3 - the delay computed for an attempt
    number (from 1 on) lies between the configured minimum (0, 4 and 0) and
    the cap of 10 seconds, and a later attempt never gets a shorter delay
    than an earlier one; so does [wait_exponential] for every multiplier
    that is not negative and every minimum between 0 and the cap. *)
Theorem exponential_wait_bounded_monotone (rs1 rs2 : RetryCallState) (w1 w2 : World) :
  (1 ≤ attempt_number rs1 ≤ attempt_number rs2)%nat →
  (0 ≤ fst (wait V1.retrying rs1 w1) ≤ 10 ∧
   fst (wait V1.retrying rs1 w1) ≤ fst (wait V1.retrying rs2 w2)) ∧
  (4 ≤ fst (wait V2.retrying rs1 w1) ≤ 10 ∧
   fst (wait V2.retrying rs1 w1) ≤ fst (wait V2.retrying rs2 w2)) ∧
  (0 ≤ fst (V3.default_wait rs1 w1) ≤ 10 ∧
   fst (V3.default_wait rs1 w1) ≤ fst (V3.default_wait rs2 w2)) ∧
  (∀ multiplier lo hi, 0 ≤ multiplier → 0 ≤ lo ≤ hi →
     lo ≤ fst (wait_exponential multiplier lo hi rs1 w1) ≤ hi ∧
     fst (wait_exponential multiplier lo hi rs1 w1) ≤
     fst (wait_exponential multiplier lo hi rs2 w2)).
Proof.
  intros Hn. cbn [V1.retrying V2.retrying wait]. unfold V3.default_wait.
  split_and!;
    try (apply wait_exponential_bounds; lia);
    try (apply wait_exponential_mono; [lia|exact Hn]).
  intros multiplier lo hi Hm Hlo. split.
  - by apply wait_exponential_bounds.
  - by apply wait_exponential_mono.
Qed.

Lemma exponential_wait_bounded_monotone_witness :
  (1 ≤ 2 ≤ 5)%nat ∧
  fst (wait V1.retrying (mkState "send_msg_slack" 2) (fresh_world ∅)) ≤
  fst (wait V1.retrying (mkState "send_msg_slack" 5) (fresh_world ∅)).
Proof.
  split; [lia|].
  refine (proj2 (proj1 (exponential_wait_bounded_monotone
           (mkState "send_msg_slack" 2) (mkState "send_msg_slack" 5)
           (fresh_world ∅) (fresh_world ∅) _))).
  cbn. lia.
Defined.

(** ** Single attempts: how a status code is treated *)

Ltac status_cases :=
  repeat match goal with
  | |- context [?a =? ?b] => destruct (Z.eqb_spec a b)
  | |- context [?a <=? ?b] => destruct (Z.leb_spec a b)
  | |- context [?a <? ?b] => destruct (Z.ltb_spec a b)
  end; cbn [negb andb orb]; try lia.

Ltac first_attempt Hnet :=
  unfold wrapped_f, V0.send_msg_slack;
  cbn [call V0.loop Nat.leb V0.TOTAL_ATTEMPS];
  unfold Simple.send_msg_slack, V1.send_msg_slack_fn,
    V2.send_msg_slack_fn, V3.send_msg_slack_fn, RetriesSlack.send_msg_slack_fn,
    RetriesSlack.TOO_MANY_CALLS, raise_for_status, requests_post, set_channel,
    set_msg, with_channel;
  cbn [V0.loop Nat.leb V0.TOTAL_ATTEMPS posts trace msg self_wait
       V3.channel V3.whook_url];
  rewrite Hnet; cbn [text].

(** C3, as the code has it.  A response with status 200 is a success in
    every variant: one POST, no sleep, and the body comes back - as the
    return value, or in [retries_slack.py] as the [response] of a result
    marked [success].  For the other codes of the 2xx range there is still
    one POST and no sleep and the body still comes back, as a plain return
    value in the simple script and in v0 to v3; [retries_slack.py] however
    marks the result as failed. *)
Theorem status_2xx_single_attempt {order : iter_order} net int url channel w rq fuel :
  net (posts w) = Responded rq →
  200 ≤ status_code rq ≤ 299 →
  (1 ≤ fuel)%nat →
  let sent_once :=
    mkWorld (S (posts w))
      (trace w ++ [Post url (with_channel channel (msg w)) (Responded rq)])
      (with_channel channel (msg w)) (self_wait w) in
  let posted_once :=
    mkWorld (S (posts w))
      (trace w ++ [Post url RetriesSlack.prepare_msg (Responded rq)])
      (msg w) (self_wait w) in
  Simple.send_msg_slack net url channel w = (Returned (text rq), sent_once) ∧
  V0.send_msg_slack net url channel fuel w =
    Some (Returned (Some (text rq)), sent_once) ∧
  V1.send_msg_slack net url channel fuel w = Some (Returned (text rq), sent_once) ∧
  V2.send_msg_slack net url channel fuel w = Some (Returned (text rq), sent_once) ∧
  V3.send_msg_slack net int (V3.mkSlackPub url channel) fuel w =
    Some (Returned (text rq), sent_once) ∧
  ∃ result,
    RetriesSlack.send_msg_slack net int url fuel w =
      Some (Returned result, posted_once) ∧
    response result = text rq ∧
    success result = (status_code rq =? 200).
Proof.
  intros Hnet Hstatus Hfuel. destruct fuel as [|fuel]; [lia|].
  cbn zeta. split_and!.
  - first_attempt Hnet. status_cases. all: reflexivity.
  - first_attempt Hnet. status_cases. all: reflexivity.
  - unfold V1.send_msg_slack. first_attempt Hnet. status_cases. all: reflexivity.
  - unfold V2.send_msg_slack. first_attempt Hnet. status_cases. all: reflexivity.
  - unfold V3.send_msg_slack. first_attempt Hnet. status_cases. all: reflexivity.
  - unfold RetriesSlack.send_msg_slack. first_attempt Hnet.
    status_cases; eexists; split_and!; reflexivity.
Qed.

Lemma status_2xx_single_attempt_witness :
  let net := net_always (respond 200 ∅ "ok") in
  Simple.send_msg_slack net "hook" "general" (fresh_world sample_msg) =
    (Returned "ok",
     mkWorld 1
       [Post "hook" (with_channel "general" sample_msg) (respond 200 ∅ "ok")]
       (with_channel "general" sample_msg) {["send_msg_slack" := None]}).
Proof.
  intros net.
  refine (proj1 (status_2xx_single_attempt (order := wait_then_stop)
                   net int_dec "hook" "general"
                   (fresh_world sample_msg) (mkResponse 200 "" ∅ "ok") 1
                   _ _ _)).
  - reflexivity.
  - cbn. lia.
  - lia.
Defined.

(** The claim C3 itself fails on [retries_slack.py]: a 201 is in the 2xx
    range, and the result is not a success. *)
Lemma created_201_is_not_a_success :
  let rq := mkResponse 201 "Created" ∅ "created" in
  200 ≤ status_code rq ≤ 299 ∧
  ∃ w',
    RetriesSlack.send_msg_slack (order := wait_then_stop)
      (net_always (Responded rq)) int_dec "hook" 4
      (fresh_world ∅) =
    Some (Returned (mkResult false "created" "hook: 201 - Created" "destination"), w').
Proof.
  cbn zeta. split; [cbn; lia|]. eexists. vm_compute. reflexivity.
Qed.

(** C4, as the code has it.  For a status code outside the 2xx range, below
    500 and other than 429, there is exactly one POST, no sleep and no
    further attempt.  In v2 and v3 the run raises at once - the [HTTPError]
    of [raise_for_status], which the policy does not retry - when the code
    is in 400..499, and returns the body when it is below 400.  In
    [retries_slack.py] nothing is raised: the result comes back, marked as
    failed and carrying the error message. *)
Theorem other_status_single_attempt {order : iter_order} net int url channel w rq fuel :
  net (posts w) = Responded rq →
  status_code rq < 200 ∨ 300 ≤ status_code rq →
  status_code rq ≠ 429 →
  status_code rq < 500 →
  (1 ≤ fuel)%nat →
  let sent_once :=
    mkWorld (S (posts w))
      (trace w ++ [Post url (with_channel channel (msg w)) (Responded rq)])
      (with_channel channel (msg w)) (self_wait w) in
  let posted_once :=
    mkWorld (S (posts w))
      (trace w ++ [Post url RetriesSlack.prepare_msg (Responded rq)])
      (msg w) (self_wait w) in
  let fate : outcome string :=
    if 400 <=? status_code rq then Raised (HTTPError rq)
    else Returned (text rq) in
  V2.send_msg_slack net url channel fuel w = Some (fate, sent_once) ∧
  V3.send_msg_slack net int (V3.mkSlackPub url channel) fuel w =
    Some (fate, sent_once) ∧
  RetriesSlack.send_msg_slack net int url fuel w =
    Some (Returned
            (mkResult false (text rq)
               (url +:+ ": " +:+ pretty (status_code rq) +:+ " - " +:+ reason rq)
               "destination"),
          posted_once).
Proof.
  intros Hnet Hrange H429 H500 Hfuel. destruct fuel as [|fuel]; [lia|].
  cbn zeta. split_and!.
  - unfold V2.send_msg_slack. first_attempt Hnet. status_cases. all: reflexivity.
  - unfold V3.send_msg_slack. first_attempt Hnet. status_cases. all: reflexivity.
  - unfold RetriesSlack.send_msg_slack. first_attempt Hnet.
    status_cases. all: reflexivity.
Qed.

Lemma other_status_single_attempt_witness :
  let rq := mkResponse 404 "Not Found" ∅ "no_service" in
  V2.send_msg_slack (order := wait_then_stop)
    (net_always (Responded rq)) "hook" "general" 4
    (fresh_world sample_msg) =
  Some (Raised (HTTPError rq),
        mkWorld 1
          [Post "hook" (with_channel "general" sample_msg) (Responded rq)]
          (with_channel "general" sample_msg) {["send_msg_slack" := None]}).
Proof.
  intros rq.
  refine (proj1 (other_status_single_attempt (order := wait_then_stop)
    (net_always (Responded rq)) int_dec
                   "hook" "general" (fresh_world sample_msg) rq 4 _ _ _ _ _)).
  - reflexivity.
  - right. cbn. lia.
  - cbn. lia.
  - cbn. lia.
  - lia.
Defined.

(** The claim C4 itself fails on its own example in [retries_slack.py]: on
    a 404 the run does not raise, it returns. *)
Lemma not_found_404_is_returned :
  let rq := mkResponse 404 "Not Found" ∅ "no_service" in
  ∃ w',
    RetriesSlack.send_msg_slack (order := wait_then_stop)
      (net_always (Responded rq)) int_dec "hook" 4
      (fresh_world ∅) =
    Some (Returned (mkResult false "no_service" "hook: 404 - Not Found" "destination"), w') ∧
    attempts (trace w') = 1%nat ∧ delays (trace w') = [].
Proof.
  cbn zeta. eexists. vm_compute. split_and!; reflexivity.
Qed.

(** ** The engine under [stop_after_attempt] *)

Section EngineStep.
Context {order : iter_order} {A : Type}.
Variable self : Retrying.
Variable fn : World → outcome A * World.

(** One round of the engine, in a form common to both orders: they differ
    in the world they leave when [stop] fires, which is the one after the
    wait strategy when that is asked first. *)
Lemma call_step fuel retry_state w :
  call (S fuel) self fn retry_state w =
  let '(fut, w1) := fn w in
  match fut with
  | Returned v => Some (Returned v, w1)
  | Raised e =>
    if negb (retry self e) then Some (Raised e, w1)
    else
      let '(sleep, w2) := wait self retry_state w1 in
      if stop self retry_state then
        Some (Raised (if reraise self then e else RetryError e),
              match order with stop_then_wait => w1 | wait_then_stop => w2 end)
      else
        match sleep_error sleep with
        | Some e' => Some (Raised e', w2)
        | None =>
          call fuel self fn
            (mkState (fn_name retry_state) (S (attempt_number retry_state)))
            (log (Sleep sleep) w2)
        end
  end.
Proof.
  cbn [call]. destruct (fn w) as [[v|e] w1]; [reflexivity|].
  destruct (retry self e); cbn [negb]; [|reflexivity].
  unfold time_sleep.
  destruct order, (wait self retry_state w1) as [sleep w2],
    (stop self retry_state), (sleep_error sleep); reflexivity.
Qed.
End EngineStep.

Section EngineFacts.
Context {order : iter_order}.
Context {A : Type}.
Variable self : Retrying.
Variable fn : World → outcome A * World.
Variable N : nat.
Hypothesis stop_N : ∀ retry_state,
  stop self retry_state = (N <=? attempt_number retry_state)%nat.

(** Fuel for the attempts left is enough. *)
Lemma call_total fuel : ∀ retry_state w,
  (1 ≤ fuel)%nat → (N + 1 - attempt_number retry_state ≤ fuel)%nat →
  ∃ o w', call fuel self fn retry_state w = Some (o, w').
Proof.
  induction fuel as [|fuel IH]; intros retry_state w H1 H2; [lia|].
  rewrite call_step. destruct (fn w) as [[v|e] w1]; [eauto|].
  destruct (retry self e); cbn [negb]; [|eauto].
  destruct (wait self retry_state w1) as [sleep w2].
  rewrite stop_N. destruct (Nat.leb_spec N (attempt_number retry_state)); [eauto|].
  destruct (sleep_error sleep); [eauto|].
  apply IH; cbn [attempt_number]; lia.
Qed.

(** What the operation and the wait strategy preserve, and the
    bookkeeping of effects does not disturb, holds at the end. *)
Lemma call_invariant (I : World → Prop) :
  (∀ w, I w → I (snd (fn w))) →
  (∀ retry_state w, I w → I (snd (wait self retry_state w))) →
  (∀ d w, I w → I (log (Sleep d) w)) →
  ∀ fuel retry_state w o w',
    I w → call fuel self fn retry_state w = Some (o, w') → I w'.
Proof.
  intros Hfn Hwait Hlog.
  induction fuel as [|fuel IH]; intros retry_state w o w' HI Hcall; [done|].
  rewrite call_step in Hcall. specialize (Hfn w HI).
  destruct (fn w) as [[v|e] w1]; cbn [snd] in Hfn; [by simplify_eq|].
  destruct (retry self e); cbn [negb] in Hcall; [|by simplify_eq].
  specialize (Hwait retry_state w1 Hfn).
  destruct (wait self retry_state w1) as [sleep w2]. cbn [snd] in Hwait.
  destruct (stop self retry_state); [simplify_eq; by destruct order|].
  destruct (sleep_error sleep); [by simplify_eq|].
  eapply IH; [|exact Hcall]. by apply Hlog.
Qed.

Hypothesis fn_posts : ∀ w, posts (snd (fn w)) = S (posts w).
Hypothesis wait_posts : ∀ retry_state w,
  posts (snd (wait self retry_state w)) = posts w.

(** One POST per attempt: never more POSTs than the attempts left. *)
Lemma call_posts_le fuel : ∀ retry_state w o w',
  call fuel self fn retry_state w = Some (o, w') →
  (posts w < posts w' ≤ posts w + Nat.max 1 (N + 1 - attempt_number retry_state))%nat.
Proof.
  induction fuel as [|fuel IH]; intros retry_state w o w' Hcall; [done|].
  rewrite call_step in Hcall. pose proof (fn_posts w) as Hp1.
  destruct (fn w) as [[v|e] w1]; cbn [snd] in Hp1; [simplify_eq; lia|].
  destruct (retry self e); cbn [negb] in Hcall; [|simplify_eq; lia].
  pose proof (wait_posts retry_state w1) as Hp2.
  destruct (wait self retry_state w1) as [sleep w2]. cbn [snd] in Hp2.
  rewrite stop_N in Hcall.
  destruct (Nat.leb_spec N (attempt_number retry_state));
    [simplify_eq; destruct order; lia|].
  destruct (sleep_error sleep); [simplify_eq; lia|].
  apply IH in Hcall. cbn [log posts attempt_number] in Hcall. lia.
Qed.

End EngineFacts.

(** ** The manual loop of v0 *)

Lemma raise_for_status_error rq :
  400 ≤ status_code rq < 600 → raise_for_status rq = Some (HTTPError rq).
Proof. intros H. unfold raise_for_status. status_cases. reflexivity. Qed.

(** One failed round of the loop: the POST, then the sleep. *)
Lemma v0_failed_round net url channel fuel attemp last w rq :
  (attemp ≤ 4)%nat →
  net (posts w) = Responded rq →
  400 ≤ status_code rq < 600 →
  V0.loop net url channel (S fuel) attemp last w =
  V0.loop net url channel fuel (S attemp) (Some rq)
    (mkWorld (S (posts w))
       (trace w ++ [Post url (with_channel channel (msg w)) (Responded rq);
                    Sleep V0.SLEEP])
       (with_channel channel (msg w)) (self_wait w)).
Proof.
  intros Hle Hnet Hstatus. cbn [V0.loop].
  replace (attemp <=? V0.TOTAL_ATTEMPS)%nat with true
    by (symmetry; apply Nat.leb_le; exact Hle).
  unfold set_channel, requests_post, set_msg. cbn [posts trace msg self_wait].
  rewrite Hnet, (raise_for_status_error rq Hstatus).
  unfold time_sleep, log. cbn. rewrite <- app_assoc. reflexivity.
Qed.

Lemma v0_loop_spec net url channel m fuel : ∀ attemp last w,
  (1 ≤ fuel)%nat → (6 - attemp ≤ fuel)%nat →
  chan_pre channel m w →
  ((4 < attemp)%nat → sent channel m w ∧ ∃ rq, last = Some rq) →
  ∃ o w' tr,
    V0.loop net url channel fuel attemp last w = Some (o, w') ∧
    sent channel m w' ∧
    trace w' = trace w ++ tr ∧
    Forall (carries (with_channel channel m)) tr ∧
    posts w' = (posts w + attempts tr)%nat ∧
    (attempts tr ≤ 5 - attemp)%nat ∧
    ((attemp ≤ 4)%nat → (1 ≤ attempts tr)%nat).
Proof.
  induction fuel as [|fuel IH]; intros attemp last w H1 Hfuel Hpre Hlast; [lia|].
  cbn [V0.loop]. unfold V0.TOTAL_ATTEMPS.
  destruct (Nat.leb_spec attemp 4) as [Hle|Hgt].
  - unfold set_channel, requests_post, set_msg. cbn [posts trace msg self_wait].
    unfold chan_pre, with_channel in Hpre. rewrite Hpre.
    fold (with_channel channel m).
    destruct (net (posts w)) as [rq|what].
    2:{ eexists _, _, [_].
        split_and!; try reflexivity; cbn; try lia; by repeat constructor. }
    destruct (raise_for_status rq) as [e|].
    2:{ eexists _, _, [_].
        split_and!; try reflexivity; cbn; try lia; by repeat constructor. }
    unfold time_sleep. cbn [V0.SLEEP Z.ltb Z.compare].
    edestruct (IH (S attemp) (Some rq)) as (o & w' & tr & Hrun & Hsent & Htr & Hall & Hp & Ha & _);
      [lia|lia| | |].
    3:{ exists o, w', (Post url (with_channel channel m) (Responded rq) :: Sleep 1 :: tr).
        split_and!; [exact Hrun|exact Hsent|..]; cbn; try lia.
        - rewrite Htr. cbn. rewrite <- !app_assoc. reflexivity.
        - repeat constructor. exact Hall.
        - rewrite Hp. cbn. lia. }
    + unfold chan_pre. cbn. apply with_channel_idem.
    + intros _. split; [reflexivity|eauto].
  - destruct (Hlast Hgt) as (Hsent & rq & ->).
    destruct (raise_for_status rq);
      eexists _, w, []; rewrite app_nil_r; cbn;
      (split_and!; [reflexivity|exact Hsent|reflexivity|constructor|lia..]).
Qed.

(** Four rejected responses in a row: four rounds, then the last error. *)
Lemma v0_four_failures net url channel w fuel :
  (∀ i, (i < 4)%nat →
        ∃ rq, net (posts w + i)%nat = Responded rq ∧ 400 ≤ status_code rq < 600) →
  (5 ≤ fuel)%nat →
  ∃ rq4 w',
    net (posts w + 3)%nat = Responded rq4 ∧
    V0.send_msg_slack net url channel fuel w = Some (Raised (HTTPError rq4), w') ∧
    trace w' =
      trace w ++
      [Post url (with_channel channel (msg w)) (net (posts w));
       Sleep V0.SLEEP;
       Post url (with_channel channel (msg w)) (net (posts w + 1)%nat);
       Sleep V0.SLEEP;
       Post url (with_channel channel (msg w)) (net (posts w + 2)%nat);
       Sleep V0.SLEEP;
       Post url (with_channel channel (msg w)) (net (posts w + 3)%nat);
       Sleep V0.SLEEP] ∧
    posts w' = (posts w + 4)%nat.
Proof.
  intros Hfail Hfuel.
  destruct (Hfail 0%nat) as (rq1 & Hn1 & Hs1); [lia|].
  destruct (Hfail 1%nat) as (rq2 & Hn2 & Hs2); [lia|].
  destruct (Hfail 2%nat) as (rq3 & Hn3 & Hs3); [lia|].
  destruct (Hfail 3%nat) as (rq4 & Hn4 & Hs4); [lia|].
  rewrite Nat.add_0_r in Hn1.
  rewrite Hn1, Hn2, Hn3, Hn4.
  replace (posts w + 1)%nat with (S (posts w)) in Hn2 by lia.
  replace (posts w + 2)%nat with (S (S (posts w))) in Hn3 by lia.
  replace (posts w + 3)%nat with (S (S (S (posts w)))) in Hn4 by lia.
  destruct fuel as [|[|[|[|[|fuel]]]]]; try lia.
  exists rq4. eexists. split; [reflexivity|].
  unfold V0.send_msg_slack.
  rewrite (v0_failed_round _ _ _ _ _ _ _ rq1) by (done || lia).
  rewrite (v0_failed_round _ _ _ _ _ _ _ rq2) by (done || lia).
  rewrite (v0_failed_round _ _ _ _ _ _ _ rq3) by (done || lia).
  rewrite (v0_failed_round _ _ _ _ _ _ _ rq4) by (done || lia).
  cbn [V0.loop Nat.leb V0.TOTAL_ATTEMPS posts trace msg self_wait].
  rewrite (raise_for_status_error rq4 Hs4).
  rewrite !with_channel_idem.
  split_and!; [reflexivity| |cbn [posts]; lia].
  cbn [trace]. rewrite <- !app_assoc. reflexivity.
Qed.

(** C10.  In the manual loop of v0, when each of the four attempts gets a
    response that [raise_for_status] rejects, the function sleeps [SLEEP]
    after every one of them, the fourth included: the trace ends with a
    sleep that no attempt follows, and only then the [HTTPError] of the
    last response is raised. *)
Theorem manual_loop_sleeps_after_last_failure net url channel w fuel :
  (∀ i, (i < 4)%nat →
        ∃ rq, net (posts w + i)%nat = Responded rq ∧ 400 ≤ status_code rq < 600) →
  (5 ≤ fuel)%nat →
  ∃ rq4 w',
    net (posts w + 3)%nat = Responded rq4 ∧
    V0.send_msg_slack net url channel fuel w = Some (Raised (HTTPError rq4), w') ∧
    trace w' =
      trace w ++
      [Post url (with_channel channel (msg w)) (net (posts w));
       Sleep V0.SLEEP;
       Post url (with_channel channel (msg w)) (net (posts w + 1)%nat);
       Sleep V0.SLEEP;
       Post url (with_channel channel (msg w)) (net (posts w + 2)%nat);
       Sleep V0.SLEEP;
       Post url (with_channel channel (msg w)) (net (posts w + 3)%nat);
       Sleep V0.SLEEP] ∧
    posts w' = (posts w + 4)%nat.
Proof.
  intros Hfail Hfuel. by apply v0_four_failures.
Qed.

Lemma manual_loop_sleeps_after_last_failure_witness :
  let net := net_always (respond 500 ∅ "down") in
  ∃ rq4 w',
    net 3%nat = Responded rq4 ∧
    V0.send_msg_slack net "hook" "general" 5 (fresh_world sample_msg) =
      Some (Raised (HTTPError rq4), w') ∧
    delays (trace w') = [1; 1; 1; 1] ∧ attempts (trace w') = 4%nat.
Proof.
  intros net.
  destruct (manual_loop_sleeps_after_last_failure net "hook" "general"
              (fresh_world sample_msg) 5) as (rq4 & w' & Hn & Hrun & Htr & Hp).
  - intros i Hi. exists (mkResponse 500 "" ∅ "down"). split; [reflexivity|cbn; lia].
  - lia.
  - exists rq4, w'. split_and!; [exact Hn|exact Hrun|..]; rewrite Htr; reflexivity.
Defined.

(** ** The caller's dictionary *)

Lemma sent_lookup channel m w :
  sent channel m w →
  msg w !! "channel" = Some (JStr ("#" +:+ channel)) ∧
  ∀ key, key ≠ "channel" → msg w !! key = m !! key.
Proof.
  unfold sent, with_channel. intros ->. split.
  - apply lookup_insert_eq.
  - intros key Hkey. by apply lookup_insert_ne.
Qed.

Section ChannelCall.
Context {order : iter_order}.
Context {A : Type}.
Variable self : Retrying.
Variable fn : World → outcome A * World.
Variables (channel : string) (m : gmap string json).
Variable N : nat.
Hypothesis stop_N : ∀ retry_state,
  stop self retry_state = (N <=? attempt_number retry_state)%nat.

(** An attempt writes the channel into the caller's dictionary and POSTs
    the result. *)
Hypothesis fn_channel : ∀ w, chan_pre channel m w →
  sent channel m (snd (fn w)) ∧
  ∃ url r, trace (snd (fn w)) = trace w ++ [Post url (with_channel channel m) r].

Hypothesis wait_frame : ∀ retry_state w,
  msg (snd (wait self retry_state w)) = msg w ∧
  trace (snd (wait self retry_state w)) = trace w.

Lemma sent_chan_pre w : sent channel m w → chan_pre channel m w.
Proof.
  unfold sent, chan_pre. intros ->. apply with_channel_idem.
Qed.

Lemma attempts_app tr1 tr2 : attempts (tr1 ++ tr2) = (attempts tr1 + attempts tr2)%nat.
Proof.
  induction tr1 as [|[] tr1 IH]; cbn; [done|rewrite IH; lia|done].
Qed.

Lemma written_fn t0 w : written channel m t0 w → written channel m t0 (snd (fn w)).
Proof.
  intros (Hsent & tr & Htr & Hatt & Hall).
  destruct (fn_channel w (sent_chan_pre w Hsent)) as (Hsent' & url & r & Htr').
  split; [exact Hsent'|].
  exists (tr ++ [Post url (with_channel channel m) r]).
  rewrite Htr', Htr, app_assoc, attempts_app. split_and!; [done|lia|].
  apply Forall_app. split; [done|]. by repeat constructor.
Qed.

Lemma written_wait t0 retry_state w :
  written channel m t0 w → written channel m t0 (snd (wait self retry_state w)).
Proof.
  destruct (wait_frame retry_state w) as [Hm Ht].
  unfold written, sent. rewrite Hm, Ht. done.
Qed.

Lemma written_log t0 d w : written channel m t0 w → written channel m t0 (log (Sleep d) w).
Proof.
  intros (Hsent & tr & Htr & Hatt & Hall). split; [exact Hsent|].
  exists (tr ++ [Sleep d]). cbn [log trace]. rewrite Htr, app_assoc, attempts_app.
  split_and!; [done|lia|]. apply Forall_app. split; [done|]. by repeat constructor.
Qed.

Lemma channel_call fuel retry_state w :
  (1 ≤ fuel)%nat → (N + 1 - attempt_number retry_state ≤ fuel)%nat →
  chan_pre channel m w →
  ∃ o w', call fuel self fn retry_state w = Some (o, w') ∧ written channel m (trace w) w'.
Proof.
  intros H1 H2 Hpre.
  destruct (call_total self fn N stop_N fuel retry_state w H1 H2) as (o & w' & Hcall).
  exists o, w'. split; [exact Hcall|].
  destruct fuel as [|fuel]; [lia|]. rewrite call_step in Hcall.
  assert (written channel m (trace w) (snd (fn w))) as Hw1.
  { destruct (fn_channel w Hpre) as (Hsent & url & r & Htr).
    split; [exact Hsent|]. eexists [_]. split_and!; [exact Htr|cbn; lia|].
    by repeat constructor. }
  destruct (fn w) as [[v|e] w1]; cbn [snd] in Hw1; [by simplify_eq|].
  destruct (retry self e); cbn [negb] in Hcall; [|by simplify_eq].
  pose proof (written_wait (trace w) retry_state w1 Hw1) as Hw2.
  destruct (wait self retry_state w1) as [sleep w2]. cbn [snd] in Hw2.
  destruct (stop self retry_state); [simplify_eq; by destruct order|].
  destruct (sleep_error sleep); [by simplify_eq|].
  eapply (call_invariant self fn (written channel m (trace w))); [| | | |exact Hcall].
  - apply written_fn.
  - intros. by apply written_wait.
  - intros. by apply written_log.
  - by apply written_log.
Qed.
End ChannelCall.

Lemma exponential_wait_frame multiplier lo hi retry_state w :
  msg (snd (wait_exponential multiplier lo hi retry_state w)) = msg w ∧
  trace (snd (wait_exponential multiplier lo hi retry_state w)) = trace w.
Proof. done. Qed.

Lemma v3_custom_wait_frame retry_state w :
  msg (snd (V3.custom_wait retry_state w)) = msg w ∧
  trace (snd (V3.custom_wait retry_state w)) = trace w.
Proof. unfold V3.custom_wait. by destruct (dict_get _ _). Qed.

Ltac channel_attempt Hpre :=
  unfold chan_pre, sent, set_channel, requests_post, set_msg in *;
  cbn [posts trace msg self_wait V3.channel V3.whook_url];
  unfold with_channel in *;
  rewrite Hpre;
  destruct (_ (posts _)) as [msg_rq|what]; repeat case_match;
  cbn; eauto.

Lemma simple_channel net url channel m w :
  chan_pre channel m w →
  sent channel m (snd (Simple.send_msg_slack net url channel w)) ∧
  ∃ url' r, trace (snd (Simple.send_msg_slack net url channel w)) =
            trace w ++ [Post url' (with_channel channel m) r].
Proof. intros Hpre. unfold Simple.send_msg_slack. channel_attempt Hpre. Qed.

Lemma v1_channel net url channel m w :
  chan_pre channel m w →
  sent channel m (snd (V1.send_msg_slack_fn net url channel w)) ∧
  ∃ url' r, trace (snd (V1.send_msg_slack_fn net url channel w)) =
            trace w ++ [Post url' (with_channel channel m) r].
Proof. intros Hpre. unfold V1.send_msg_slack_fn. channel_attempt Hpre. Qed.

Lemma v2_channel net url channel m w :
  chan_pre channel m w →
  sent channel m (snd (V2.send_msg_slack_fn net url channel w)) ∧
  ∃ url' r, trace (snd (V2.send_msg_slack_fn net url channel w)) =
            trace w ++ [Post url' (with_channel channel m) r].
Proof. intros Hpre. unfold V2.send_msg_slack_fn. channel_attempt Hpre. Qed.

Lemma v3_channel net int self m w :
  chan_pre (V3.channel self) m w →
  sent (V3.channel self) m (snd (V3.send_msg_slack_fn net int self w)) ∧
  ∃ url' r, trace (snd (V3.send_msg_slack_fn net int self w)) =
            trace w ++ [Post url' (with_channel (V3.channel self) m) r].
Proof. intros Hpre. unfold V3.send_msg_slack_fn. channel_attempt Hpre. Qed.

Lemma written_changed channel (w w' : World) :
  written channel (msg w) (trace w) w' →
  msg w' = <["channel" := JStr ("#" +:+ channel)]> (msg w) ∧
  msg w' !! "channel" = Some (JStr ("#" +:+ channel)) ∧
  (∀ key, key ≠ "channel" → msg w' !! key = msg w !! key) ∧
  ∃ tr, trace w' = trace w ++ tr ∧ (1 ≤ attempts tr)%nat ∧
        Forall (carries (msg w')) tr.
Proof.
  intros (Hsent & tr & Htr & Hatt & Hall).
  destruct (sent_lookup _ _ _ Hsent) as [Hch Hother].
  split_and!; [exact Hsent|exact Hch|exact Hother|].
  exists tr. rewrite Hsent. auto.
Qed.

Lemma chan_pre_refl channel (w : World) : chan_pre channel (msg w) w.
Proof. reflexivity. Qed.

Lemma rs_untouched_fn net int url m t0 w :
  untouched m RetriesSlack.prepare_msg t0 w →
  untouched m RetriesSlack.prepare_msg t0
    (snd (RetriesSlack.send_msg_slack_fn net int url w)).
Proof.
  intros (Hm & tr & Htr & Hall).
  assert (msg (snd (RetriesSlack.send_msg_slack_fn net int url w)) = msg w ∧
          ∃ r, trace (snd (RetriesSlack.send_msg_slack_fn net int url w)) =
               trace w ++ [Post url RetriesSlack.prepare_msg r]) as [Hm' [r Htr']].
  { unfold RetriesSlack.send_msg_slack_fn, requests_post.
    destruct (net (posts w)); repeat case_match; cbn; eauto. }
  split; [congruence|].
  exists (tr ++ [Post url RetriesSlack.prepare_msg r]).
  rewrite Htr', Htr, app_assoc. split; [done|].
  apply Forall_app. split; [done|]. by repeat constructor.
Qed.

Lemma rs_untouched_wait m t0 retry_state w :
  untouched m RetriesSlack.prepare_msg t0 w →
  untouched m RetriesSlack.prepare_msg t0
    (snd (RetriesSlack.custom_wait retry_state w)).
Proof.
  unfold RetriesSlack.custom_wait.
  destruct (dict_get _ _); [done|]. by rewrite rs_default_wait_eq.
Qed.

Lemma untouched_log m p t0 d w :
  untouched m p t0 w → untouched m p t0 (log (Sleep d) w).
Proof.
  intros (Hm & tr & Htr & Hall). split; [done|].
  exists (tr ++ [Sleep d]). cbn [log trace]. rewrite Htr, app_assoc.
  split; [done|]. apply Forall_app. split; [done|]. by repeat constructor.
Qed.

(** C9, as the code has it.  In the simple script and in v0, v1, v2 and v3
    - the variants whose send operation is given the payload - the
    operation writes the ["channel"] key of the caller's dictionary: when
    the call is over the dictionary is the one passed in with ["channel"]
    set to ["#" + channel], every other key is as before, and every POST of
    the call, retries included, carried that dictionary.  The send operation
    of [retries_slack.py] is given no payload: every POST carries the
    dictionary that [prepare_msg] builds, and a dictionary of the caller is
    left as it is. *)
Theorem send_writes_channel_only {order : iter_order} net int url channel w fuel :
  (5 ≤ fuel)%nat →
  let changed (w' : World) :=
    msg w' = <["channel" := JStr ("#" +:+ channel)]> (msg w) ∧
    msg w' !! "channel" = Some (JStr ("#" +:+ channel)) ∧
    (∀ key, key ≠ "channel" → msg w' !! key = msg w !! key) ∧
    ∃ tr, trace w' = trace w ++ tr ∧ (1 ≤ attempts tr)%nat ∧
          Forall (carries (msg w')) tr in
  changed (snd (Simple.send_msg_slack net url channel w)) ∧
  (∃ o w', V0.send_msg_slack net url channel fuel w = Some (o, w') ∧ changed w') ∧
  (∃ o w', V1.send_msg_slack net url channel fuel w = Some (o, w') ∧ changed w') ∧
  (∃ o w', V2.send_msg_slack net url channel fuel w = Some (o, w') ∧ changed w') ∧
  (∃ o w', V3.send_msg_slack net int (V3.mkSlackPub url channel) fuel w =
             Some (o, w') ∧ changed w') ∧
  (∃ o w' tr, RetriesSlack.send_msg_slack net int url fuel w = Some (o, w') ∧
              msg w' = msg w ∧ trace w' = trace w ++ tr ∧
              Forall (carries RetriesSlack.prepare_msg) tr).
Proof.
  intros Hfuel changed. subst changed. cbn beta.
  pose proof (chan_pre_refl channel w) as Hpre.
  split; [|split; [|split; [|split; [|split]]]].
  - apply written_changed.
    destruct (simple_channel net url channel (msg w) w Hpre) as (Hsent & u & r & Htr).
    split; [exact Hsent|]. eexists [_]. split_and!; [exact Htr|cbn; lia|].
    by repeat constructor.
  - unfold V0.send_msg_slack.
    destruct (v0_loop_spec net url channel (msg w) fuel 1 None w
                ltac:(lia) ltac:(lia) Hpre ltac:(lia))
      as (o & w' & tr & Hrun & Hsent & Htr & Hall & Hp & Ha & Hpos).
    exists o, w'. split; [exact Hrun|]. apply written_changed.
    split; [exact Hsent|]. exists tr. split_and!; auto.
  - destruct (channel_call V1.retrying (V1.send_msg_slack_fn net url channel)
                channel (msg w) 4 (fun _ => eq_refl)
                (v1_channel net url channel (msg w))
                (exponential_wait_frame 1 0 10)
                fuel (mkState "send_msg_slack" 1) w) as (o & w' & Hrun & Hw);
      [lia|cbn; lia|exact Hpre|].
    exists o, w'. split; [exact Hrun|]. by apply written_changed.
  - destruct (channel_call V2.retrying (V2.send_msg_slack_fn net url channel)
                channel (msg w) 4 (fun _ => eq_refl)
                (v2_channel net url channel (msg w))
                (exponential_wait_frame 1 4 10)
                fuel (mkState "send_msg_slack" 1) w) as (o & w' & Hrun & Hw);
      [lia|cbn; lia|exact Hpre|].
    exists o, w'. split; [exact Hrun|]. by apply written_changed.
  - destruct (channel_call V3.retrying
                (V3.send_msg_slack_fn net int (V3.mkSlackPub url channel))
                channel (msg w) 4 (fun _ => eq_refl)
                (v3_channel net int (V3.mkSlackPub url channel) (msg w))
                v3_custom_wait_frame
                fuel (mkState "send_msg_slack" 1) w) as (o & w' & Hrun & Hw);
      [lia|cbn; lia|exact Hpre|].
    exists o, w'. split; [exact Hrun|]. by apply written_changed.
  - destruct (call_total RetriesSlack.retry_options
                (RetriesSlack.send_msg_slack_fn net int url) 4 (fun _ => eq_refl)
                fuel (mkState "send_msg_slack" 1) w) as (o & w' & Hrun);
      [lia|cbn; lia|].
    destruct (call_invariant RetriesSlack.retry_options
                (RetriesSlack.send_msg_slack_fn net int url)
                (untouched (msg w) RetriesSlack.prepare_msg (trace w))
                (rs_untouched_fn net int url (msg w) (trace w))
                (rs_untouched_wait (msg w) (trace w))
                (untouched_log (msg w) RetriesSlack.prepare_msg (trace w))
                fuel (mkState "send_msg_slack" 1) w o w')
      as (Hm & tr & Htr & Hall); [|exact Hrun|].
    + split; [done|]. exists []. by rewrite app_nil_r.
    + exists o, w', tr. auto.
Qed.

Lemma send_writes_channel_only_witness :
  let net := net_always (respond 503 ∅ "unavailable") in
  ∃ o w',
    V2.send_msg_slack (order := wait_then_stop)
      net "hook" "general" 5 (fresh_world sample_msg) = Some (o, w') ∧
    msg w' !! "channel" = Some (JStr "#general") ∧
    msg w' !! "text" = Some (JStr "This is a simple text").
Proof.
  intros net.
  destruct (send_writes_channel_only (order := wait_then_stop)
    net int_dec "hook" "general"
              (fresh_world sample_msg) 5 ltac:(lia))
    as (_ & _ & _ & (o & w' & Hrun & Heq & Hch & Hother & _) & _ & _).
  exists o, w'. split_and!; [exact Hrun|exact Hch|].
  rewrite Hother by done. reflexivity.
Defined.

(** The claim C9 itself fails on [retries_slack.py]: its send operation
    leaves the caller's dictionary alone - no ["channel"] key appears - and
    POSTs a dictionary of its own. *)
Lemma retries_slack_leaves_caller_dictionary :
  ∃ o w',
    RetriesSlack.send_msg_slack (order := wait_then_stop)
      (net_always (respond 200 ∅ "ok")) int_dec "hook" 4
      (fresh_world sample_msg) = Some (o, w') ∧
    msg w' = sample_msg ∧
    msg w' !! "channel" = None ∧
    trace w' = [Post "hook" RetriesSlack.prepare_msg (respond 200 ∅ "ok")].
Proof. do 2 eexists. vm_compute. split_and!; reflexivity. Qed.

(** ** What the wait strategies choose, and how responses are classified *)

Lemma fixed_chain_nonneg k : 0 ≤ fixed_chain k.
Proof. unfold fixed_chain. repeat case_match; lia. Qed.

Lemma exponential_nonneg lo hi k : 0 ≤ lo → 0 ≤ exponential lo hi k.
Proof. unfold exponential. lia. Qed.

Lemma fixed_chain_accepted k : sleep_error (fixed_chain k) = None.
Proof.
  apply sleep_error_accepts. unfold fixed_chain, sleep_max.
  repeat case_match; lia.
Qed.

Lemma exponential_accepted lo k :
  0 ≤ lo ≤ 10 → sleep_error (exponential lo 10 k) = None.
Proof.
  intros H. apply sleep_error_accepts. unfold exponential, sleep_max. lia.
Qed.

Lemma rs_chosen_delay k h :
  chosen_delay RetriesSlack.retry_options "send_msg_slack" k h =
  match h with Some d => d | None => fixed_chain k end.
Proof.
  unfold chosen_delay, pending. cbn. unfold RetriesSlack.custom_wait. cbn.
  rewrite dict_get_singleton. destruct h; [done|].
  by rewrite rs_default_wait_eq.
Qed.

Lemma v3_chosen_delay k h :
  chosen_delay V3.retrying "send_msg_slack" k h =
  match h with Some d => d | None => exponential 0 10 k end.
Proof.
  unfold chosen_delay, pending. cbn. unfold V3.custom_wait. cbn.
  rewrite dict_get_singleton. destruct h; [done|].
  by rewrite v3_default_wait_eq.
Qed.

Lemma v1_chosen_delay k h :
  chosen_delay V1.retrying "send_msg_slack" k h = exponential 0 10 k.
Proof.
  unfold chosen_delay, exponential. cbn. by rewrite Z.mul_1_l.
Qed.

Lemma v2_chosen_delay k h :
  chosen_delay V2.retrying "send_msg_slack" k h = exponential 4 10 k.
Proof.
  unfold chosen_delay, exponential. cbn. by rewrite Z.mul_1_l.
Qed.

Lemma rs_classify_failed int url what :
  classify RetriesSlack.retry_options (rs_op int url) "send_msg_slack" (Failed what) =
  Retry (ConnectionError what) None.
Proof. reflexivity. Qed.

Lemma v1_classify_failed url channel what :
  classify V1.retrying (v1_op url channel) "send_msg_slack" (Failed what) =
  Retry (ConnectionError what) None.
Proof. reflexivity. Qed.

Lemma v2_classify_failed url channel what :
  classify V2.retrying (v2_op url channel) "send_msg_slack" (Failed what) =
  Stop (Raised (ConnectionError what)).
Proof. reflexivity. Qed.

Lemma v3_classify_failed int self what :
  classify V3.retrying (v3_op int self) "send_msg_slack" (Failed what) =
  Stop (Raised (ConnectionError what)).
Proof. reflexivity. Qed.

Lemma lookup_responses (net : nat → post_result) p k j :
  (j < k)%nat → map net (seq p k) !! j = Some (net (p + j)%nat).
Proof.
  intros Hj. change (map net (seq p k)) with (net <$> seq p k).
  rewrite list_lookup_fmap, lookup_seq_lt by done. reflexivity.
Qed.

(** ** Failures of the transport *)

(** C5, as the code has it.  Let the attempt number [j + 1] of a run meet
    an exception of the transport.  In v1 and in [retries_slack.py], whose
    policies retry every exception, the loop absorbs it: before the budget
    of 4 is used up it sleeps the default delay and makes another attempt,
    and on the fourth attempt the run ends with that exception (inside a
    [RetryError] in v1).  In v2 and v3, whose policies retry only
    [SendMsgError], it is not retried: the run ends at once with the
    exception of the transport, whatever the attempt. *)
Theorem transport_failure_by_policy {order : iter_order}
    net int url channel w fuel j what :
  slot None w → (4 ≤ fuel)%nat →
  net (posts w + j)%nat = Failed what →
  (∃ o w' tr,
     RetriesSlack.send_msg_slack net int url fuel w = Some (o, w') ∧
     trace w' = trace w ++ tr ∧ (attempts tr ≤ 4)%nat ∧
     ((j < attempts tr)%nat →
      if (S j <? 4)%nat
      then (S j < attempts tr)%nat ∧ delays tr !! j = Some (fixed_chain (S j))
      else o = Raised (ConnectionError what) ∧ attempts tr = 4%nat)) ∧
  (∃ o w' tr,
     V1.send_msg_slack net url channel fuel w = Some (o, w') ∧
     trace w' = trace w ++ tr ∧ (attempts tr ≤ 4)%nat ∧
     ((j < attempts tr)%nat →
      if (S j <? 4)%nat
      then (S j < attempts tr)%nat ∧ delays tr !! j = Some (exponential 0 10 (S j))
      else o = Raised (RetryError (ConnectionError what)) ∧ attempts tr = 4%nat)) ∧
  (∃ o w' tr,
     V2.send_msg_slack net url channel fuel w = Some (o, w') ∧
     trace w' = trace w ++ tr ∧
     ((j < attempts tr)%nat →
      o = Raised (ConnectionError what) ∧ attempts tr = S j ∧
      length (delays tr) = j)) ∧
  (∃ o w' tr,
     V3.send_msg_slack net int (V3.mkSlackPub url channel) fuel w = Some (o, w') ∧
     trace w' = trace w ++ tr ∧
     ((j < attempts tr)%nat →
      o = Raised (ConnectionError what) ∧ attempts tr = S j ∧
      length (delays tr) = j)).
Proof.
  intros Hslot Hfuel Hnet.
  assert (∀ tr, (attempts tr ≤ 4)%nat → (j < attempts tr)%nat →
                map net (seq (posts w) 4) !! j = Some (Failed what)) as Hat.
  { intros tr Hle Hj. rewrite lookup_responses by lia. by rewrite Hnet. }
  split_and!.
  - destruct (rs_run net int url fuel w Hslot Hfuel)
      as (o & tr & w' & Hun & Hrun & Htr & _ & Hle & _).
    exists o, w', tr. split_and!; auto; try lia. intros Hj.
    specialize (Hat tr (proj2 Hle) Hj).
    destruct (Nat.ltb_spec (S j) 4) as [Hlt|Hge].
    + destruct (retried_at Hun j _ _ _ Hat Hj (rs_classify_failed int url what)) as [H1 H2].
      * cbn. destruct j as [|[|[|?]]]; (reflexivity || lia).
      * rewrite rs_chosen_delay. apply fixed_chain_accepted.
      * split; [exact H1|]. by rewrite H2, rs_chosen_delay.
    + destruct (exhausted_at Hun j _ _ _ Hat Hj (rs_classify_failed int url what)) as [H1 H2].
      * cbn. destruct j as [|[|[|?]]]; (reflexivity || lia).
      * split; [exact H1|lia].
  - destruct (v1_run net url channel fuel w Hfuel)
      as (o & tr & w' & Hun & Hrun & Htr & _ & Hle & _).
    exists o, w', tr. split_and!; auto; try lia. intros Hj.
    specialize (Hat tr (proj2 Hle) Hj).
    destruct (Nat.ltb_spec (S j) 4) as [Hlt|Hge].
    + destruct (retried_at Hun j _ _ _ Hat Hj (v1_classify_failed url channel what)) as [H1 H2].
      * cbn. destruct j as [|[|[|?]]]; (reflexivity || lia).
      * rewrite v1_chosen_delay. by apply exponential_accepted.
      * split; [exact H1|]. by rewrite H2, v1_chosen_delay.
    + destruct (exhausted_at Hun j _ _ _ Hat Hj (v1_classify_failed url channel what)) as [H1 H2].
      * cbn. destruct j as [|[|[|?]]]; (reflexivity || lia).
      * split; [exact H1|lia].
  - destruct (v2_run net url channel fuel w Hfuel)
      as (o & tr & w' & Hun & Hrun & Htr & _ & Hle & _).
    exists o, w', tr. split_and!; auto. intros Hj.
    specialize (Hat tr (proj2 Hle) Hj).
    exact (stopped_at Hun j _ _ Hat Hj (v2_classify_failed url channel what)).
  - destruct (v3_run net int url channel fuel w Hslot Hfuel)
      as (o & tr & w' & Hun & Hrun & Htr & _ & Hle & _).
    exists o, w', tr. split_and!; auto. intros Hj.
    specialize (Hat tr (proj2 Hle) Hj).
    exact (stopped_at Hun j _ _ Hat Hj (v3_classify_failed int (V3.mkSlackPub url channel) what)).
Qed.

Lemma transport_failure_by_policy_witness :
  let net := net_always (Failed "connection refused") in
  ∃ o w' tr,
    RetriesSlack.send_msg_slack (order := wait_then_stop)
      net int_dec "hook" 4 (fresh_world sample_msg) =
      Some (o, w') ∧
    trace w' = trace (fresh_world sample_msg) ++ tr ∧ (attempts tr ≤ 4)%nat ∧
    ((0 < attempts tr)%nat →
     if (1 <? 4)%nat
     then (1 < attempts tr)%nat ∧ delays tr !! 0%nat = Some (fixed_chain 1)
     else o = Raised (ConnectionError "connection refused") ∧ attempts tr = 4%nat).
Proof.
  intros net.
  refine (proj1 (transport_failure_by_policy (order := wait_then_stop)
    net int_dec "hook" "general"
                   (fresh_world sample_msg) 4 0 "connection refused" _ _ _)).
  - reflexivity.
  - lia.
  - reflexivity.
Defined.

(** The claim C5 itself fails on v2: the exception of the transport on the
    first attempt ends the run, after one POST and without a sleep. *)
Lemma transport_failure_ends_v2 :
  ∃ w',
    V2.send_msg_slack (order := wait_then_stop)
      (net_always (Failed "connection refused")) "hook" "general" 4
      (fresh_world sample_msg) =
    Some (Raised (ConnectionError "connection refused"), w') ∧
    attempts (trace w') = 1%nat ∧ delays (trace w') = [].
Proof.
  eexists. vm_compute. split_and!; reflexivity.
Qed.

(** ** The override that an attempt leaves is the server's delay *)

Lemma rs_hint int url r e h :
  classify RetriesSlack.retry_options (rs_op int url) "send_msg_slack" r = Retry e h →
  h = suggested_delay int r.
Proof.
  unfold classify, rs_op, RetriesSlack.send_msg_slack_fn, requests_post,
    suggested_delay, pending, RetriesSlack.TOO_MANY_CALLS.
  cbn [posts trace msg self_wait].
  destruct r as [msg_rq|what]; cbn [retry RetriesSlack.retry_options].
  2:{ intros [= _ <-]. reflexivity. }
  repeat case_match; try done; cbn; intros [= _ <-];
    rewrite ?dict_get_insert, ?dict_get_singleton; try reflexivity;
    simplify_eq; done.
Qed.

Lemma v3_hint int self r e h :
  classify V3.retrying (v3_op int self) "send_msg_slack" r = Retry e h →
  h = suggested_delay int r.
Proof.
  unfold classify, v3_op, V3.send_msg_slack_fn, requests_post, set_channel,
    set_msg, suggested_delay, pending.
  cbn [posts trace msg self_wait].
  destruct r as [msg_rq|what]; cbn [retry V3.retrying]; [|done].
  repeat case_match; try done; cbn; intros [= _ <-];
    rewrite ?dict_get_insert, ?dict_get_singleton; try reflexivity;
    simplify_eq; done.
Qed.

(** ** The attempt budget *)





(** ** The server-directed delay *)


(** A 429 with no [Retry-After], or with one that [int] reads, is a retried
    failure in both variants, and leaves the server's delay. *)
Lemma rs_classify_429 int url rq :
  status_code rq = 429 →
  (headers_get rq "Retry-After" = None ∨
   ∃ s k, headers_get rq "Retry-After" = Some s ∧ int s = Some k) →
  ∃ e, classify RetriesSlack.retry_options (rs_op int url) "send_msg_slack"
         (Responded rq) = Retry e (suggested_delay int (Responded rq)).
Proof.
  intros Hs Hh.
  unfold classify, rs_op, RetriesSlack.send_msg_slack_fn, requests_post,
    suggested_delay, pending, RetriesSlack.TOO_MANY_CALLS.
  cbn [posts trace msg self_wait]. rewrite Hs. cbn [Z.eqb negb Pos.eqb].
  destruct Hh as [->|(s & k & -> & ->)]; cbn;
    rewrite ?dict_get_insert, ?dict_get_singleton; eauto.
Qed.

Lemma v3_classify_429 int self rq :
  status_code rq = 429 →
  (headers_get rq "Retry-After" = None ∨
   ∃ s k, headers_get rq "Retry-After" = Some s ∧ int s = Some k) →
  ∃ e, classify V3.retrying (v3_op int self) "send_msg_slack"
         (Responded rq) = Retry e (suggested_delay int (Responded rq)).
Proof.
  intros Hs Hh.
  unfold classify, v3_op, V3.send_msg_slack_fn, requests_post, set_channel,
    set_msg, suggested_delay, pending.
  cbn [posts trace msg self_wait]. rewrite Hs. cbn [Z.eqb negb Pos.eqb].
  destruct Hh as [->|(s & k & -> & ->)]; cbn;
    rewrite ?dict_get_insert, ?dict_get_singleton; eauto.
Qed.

(** A response with a delay that [int] reads is a retried failure. *)
Lemma rs_suggested_retry int url r k :
  suggested_delay int r = Some k →
  ∃ e, classify RetriesSlack.retry_options (rs_op int url) "send_msg_slack" r =
       Retry e (Some k).
Proof.
  intros Hs. destruct r as [rq|what]; [|discriminate].
  pose proof Hs as Hs'. unfold suggested_delay in Hs'.
  destruct (Z.eqb_spec (status_code rq) 429) as [H429|]; [|discriminate].
  destruct (headers_get rq "Retry-After") as [s|] eqn:Hh; [|discriminate].
  rewrite <- Hs. apply rs_classify_429; [done|]. right. eauto.
Qed.

Lemma v3_suggested_retry int self r k :
  suggested_delay int r = Some k →
  ∃ e, classify V3.retrying (v3_op int self) "send_msg_slack" r = Retry e (Some k).
Proof.
  intros Hs. destruct r as [rq|what]; [|discriminate].
  pose proof Hs as Hs'. unfold suggested_delay in Hs'.
  destruct (Z.eqb_spec (status_code rq) 429) as [H429|]; [|discriminate].
  destruct (headers_get rq "Retry-After") as [s|] eqn:Hh; [|discriminate].
  rewrite <- Hs. apply v3_classify_429; [done|]. right. eauto.
Qed.







(** ** Determinism *)

Lemma responses_ext (net1 net2 : nat → post_result) p1 p2 k :
  (∀ i, (i < k)%nat → net1 (p1 + i)%nat = net2 (p2 + i)%nat) →
  map net1 (seq p1 k) = map net2 (seq p2 k).
Proof.
  intros H. apply list_eq. intros j.
  destruct (Nat.lt_ge_cases j k) as [Hj|Hj].
  - rewrite !lookup_responses by done. f_equal. by apply H.
  - rewrite !lookup_ge_None_2; [done|..]; rewrite length_map, length_seq; lia.
Qed.

(** C8.  Two runs of the same variant, each started with no override
    pending, that meet the same responses on their (at most four) attempts
    end with the same outcome after the same sequence of effects: the same
    number of attempts, the same response at each, the same delay after
    each.  Nothing else of the worlds they start in matters - not the
    history, not what else the dictionary of overrides holds - nor how much
    fuel they are given. *)
Theorem run_deterministic {order : iter_order}
    net1 net2 int url channel w1 w2 fuel1 fuel2 :
  slot None w1 → slot None w2 →
  (4 ≤ fuel1)%nat → (4 ≤ fuel2)%nat →
  (∀ i, (i < 4)%nat → net1 (posts w1 + i)%nat = net2 (posts w2 + i)%nat) →
  (∃ o tr w1' w2',
     RetriesSlack.send_msg_slack net1 int url fuel1 w1 = Some (o, w1') ∧
     RetriesSlack.send_msg_slack net2 int url fuel2 w2 = Some (o, w2') ∧
     trace w1' = trace w1 ++ tr ∧ trace w2' = trace w2 ++ tr ∧
     posts w1' = (posts w1 + attempts tr)%nat ∧
     posts w2' = (posts w2 + attempts tr)%nat) ∧
  (msg w1 = msg w2 →
   (∃ o tr w1' w2',
      V3.send_msg_slack net1 int (V3.mkSlackPub url channel) fuel1 w1 = Some (o, w1') ∧
      V3.send_msg_slack net2 int (V3.mkSlackPub url channel) fuel2 w2 = Some (o, w2') ∧
      trace w1' = trace w1 ++ tr ∧ trace w2' = trace w2 ++ tr ∧
      posts w1' = (posts w1 + attempts tr)%nat ∧
      posts w2' = (posts w2 + attempts tr)%nat) ∧
   (∃ o tr w1' w2',
      V2.send_msg_slack net1 url channel fuel1 w1 = Some (o, w1') ∧
      V2.send_msg_slack net2 url channel fuel2 w2 = Some (o, w2') ∧
      trace w1' = trace w1 ++ tr ∧ trace w2' = trace w2 ++ tr ∧
      posts w1' = (posts w1 + attempts tr)%nat ∧
      posts w2' = (posts w2 + attempts tr)%nat) ∧
   (∃ o tr w1' w2',
      V1.send_msg_slack net1 url channel fuel1 w1 = Some (o, w1') ∧
      V1.send_msg_slack net2 url channel fuel2 w2 = Some (o, w2') ∧
      trace w1' = trace w1 ++ tr ∧ trace w2' = trace w2 ++ tr ∧
      posts w1' = (posts w1 + attempts tr)%nat ∧
      posts w2' = (posts w2 + attempts tr)%nat)).
Proof.
  intros Hs1 Hs2 Hf1 Hf2 Hsame.
  pose proof (responses_ext net1 net2 (posts w1) (posts w2) 4 Hsame) as Hresp.
  split; [|intros Hmsg; split_and!].
  - destruct (rs_run net1 int url fuel1 w1 Hs1 Hf1)
      as (o & tr & w1' & Hun1 & Hrun1 & Htr1 & Hp1 & _).
    destruct (rs_run net2 int url fuel2 w2 Hs2 Hf2)
      as (o2 & tr2 & w2' & Hun2 & Hrun2 & Htr2 & Hp2 & _).
    rewrite Hresp, Hun2 in Hun1. injection Hun1 as -> ->.
    exists o, tr, w1', w2'. split_and!; auto.
  - destruct (v3_run net1 int url channel fuel1 w1 Hs1 Hf1)
      as (o & tr & w1' & Hun1 & Hrun1 & Htr1 & Hp1 & _).
    destruct (v3_run net2 int url channel fuel2 w2 Hs2 Hf2)
      as (o2 & tr2 & w2' & Hun2 & Hrun2 & Htr2 & Hp2 & _).
    rewrite Hresp, Hmsg, Hun2 in Hun1. injection Hun1 as -> ->.
    exists o, tr, w1', w2'. split_and!; auto.
  - destruct (v2_run net1 url channel fuel1 w1 Hf1)
      as (o & tr & w1' & Hun1 & Hrun1 & Htr1 & Hp1 & _).
    destruct (v2_run net2 url channel fuel2 w2 Hf2)
      as (o2 & tr2 & w2' & Hun2 & Hrun2 & Htr2 & Hp2 & _).
    rewrite Hresp, Hmsg, Hun2 in Hun1. injection Hun1 as -> ->.
    exists o, tr, w1', w2'. split_and!; auto.
  - destruct (v1_run net1 url channel fuel1 w1 Hf1)
      as (o & tr & w1' & Hun1 & Hrun1 & Htr1 & Hp1 & _).
    destruct (v1_run net2 url channel fuel2 w2 Hf2)
      as (o2 & tr2 & w2' & Hun2 & Hrun2 & Htr2 & Hp2 & _).
    rewrite Hresp, Hmsg, Hun2 in Hun1. injection Hun1 as -> ->.
    exists o, tr, w1', w2'. split_and!; auto.
Qed.

Lemma run_deterministic_witness :
  ∃ o tr w1' w2',
    RetriesSlack.send_msg_slack (order := wait_then_stop)
      net_hint int_dec "hook" 4 (fresh_world sample_msg) =
      Some (o, w1') ∧
    RetriesSlack.send_msg_slack (order := wait_then_stop)
      (later 2 net_hint) int_dec "hook" 9
      (used_world sample_msg) = Some (o, w2') ∧
    trace w1' = trace (fresh_world sample_msg) ++ tr ∧
    trace w2' = trace (used_world sample_msg) ++ tr ∧
    posts w1' = (posts (fresh_world sample_msg) + attempts tr)%nat ∧
    posts w2' = (posts (used_world sample_msg) + attempts tr)%nat.
Proof.
  refine (proj1 (run_deterministic (order := wait_then_stop)
    net_hint (later 2 net_hint) int_dec "hook"
                   "general" (fresh_world sample_msg) (used_world sample_msg)
                   4 9 _ _ _ _ _)).
  - reflexivity.
  - reflexivity.
  - lia.
  - lia.
  - intros i Hi. unfold later.
    change (posts (fresh_world sample_msg)) with 0%nat.
    change (posts (used_world sample_msg)) with 2%nat.
    f_equal. lia.
Defined.

(** ** Why the runs above start with no override pending *)

(** When the engine asks [stop] before the wait strategy, the override of
    a 429 met on the fourth attempt is never consumed: it is still there
    when the run is over.  When it asks the wait strategy first, that
    consumes it. *)
Example override_left_after_last_attempt :
  (∃ o w',
     RetriesSlack.send_msg_slack (order := stop_then_wait)
       (net_always (respond 429 {["retry-after" := "5"]} "slow down"))
       int_dec "hook" 4 (fresh_world ∅) = Some (o, w') ∧
     delays (trace w') = [5; 5; 5] ∧
     slot (Some 5) w') ∧
  (∃ o w',
     RetriesSlack.send_msg_slack (order := wait_then_stop)
       (net_always (respond 429 {["retry-after" := "5"]} "slow down"))
       int_dec "hook" 4 (fresh_world ∅) = Some (o, w') ∧
     delays (trace w') = [5; 5; 5] ∧
     slot None w').
Proof. split; do 2 eexists; vm_compute; split_and!; reflexivity. Qed.

(** A call on an instance with an override pending waits for it, not for
    the default schedule. *)
Example stale_override_is_used :
  ∃ o w',
    RetriesSlack.send_msg_slack (order := stop_then_wait)
      (net_always (respond 503 ∅ "unavailable")) int_dec "hook" 4
      (mkWorld 0 [] ∅ {["send_msg_slack" := Some 5]}) = Some (o, w') ∧
    delays (trace w') = [5; 1; 3].
Proof. do 2 eexists. vm_compute. split_and!; reflexivity. Qed.

(** * Further properties *)

Section AtMore.
Context {A : Type} {self : Retrying}.
Context {op : (nat → post_result) → World → outcome A * World}.
Context {name url : string} {payload : gmap string json}.
Context {rs : list post_result} {n : nat} {o : outcome A} {tr : list event}.
Hypothesis Hrun : unrolled self op name url payload n rs = (Some o, tr).

Lemma delay_at i d :
  delays tr !! i = Some d →
  ∃ r e h,
    rs !! i = Some r ∧ classify self op name r = Retry e h ∧
    stop self (mkState name (n + i)) = false ∧
    d = chosen_delay self name (n + i) h ∧ 0 ≤ d ≤ sleep_max.
Proof.
  intros Hd. apply (unrolled_delay_at self op name url payload rs n i d).
  by rewrite Hrun.
Qed.

Lemma delays_length : attempts tr = S (length (delays tr)).
Proof.
  pose proof (unrolled_delays_length self op name url payload rs n o) as H.
  rewrite Hrun in H. by apply H.
Qed.

Lemma aborted_at j r e h e' :
  rs !! j = Some r → (j < attempts tr)%nat →
  classify self op name r = Retry e h →
  stop self (mkState name (n + j)) = false →
  sleep_error (chosen_delay self name (n + j) h) = Some e' →
  o = Raised e' ∧ attempts tr = S j.
Proof.
  intros Hj Hatt Hc Hstop Hd.
  destruct (unrolled_abort_at self op name url payload rs n j r e h e' Hj)
    as (H1 & H2); rewrite ?Hrun; auto.
  rewrite Hrun in H1, H2. cbn [fst snd] in *. split; congruence.
Qed.

(** After [j] retried failures in a row the attempt number [j + 1] is
    made, and the sleeps so far are the ones chosen for those failures. *)
Lemma reached j :
  (∀ i, (i < j)%nat →
     ∃ r e h, rs !! i = Some r ∧ classify self op name r = Retry e h ∧
              stop self (mkState name (n + i)) = false ∧
              sleep_error (chosen_delay self name (n + i) h) = None) →
  (j < attempts tr)%nat.
Proof.
  induction j as [|j IH]; intros Hfail.
  - pose proof (unrolled_attempts_pos self op name url payload rs n o) as H.
    rewrite Hrun in H. by apply H.
  - destruct (Hfail j) as (r & e & h & Hr & Hc & Hstop & Hd); [lia|].
    assert (j < attempts tr)%nat as Hj.
    { apply IH. intros i Hi. apply Hfail. lia. }
    by destruct (retried_at Hrun j r e h Hr Hj Hc Hstop Hd).
Qed.
End AtMore.

(** ** How long a call can sleep *)

Lemma list_by_index (l : list Z) (f : nat → Z) :
  (∀ i d, l !! i = Some d → d = f i) → l = f <$> seq 0 (length l).
Proof.
  intros H. apply list_eq. intros i. rewrite list_lookup_fmap.
  destruct (l !! i) as [d|] eqn:E.
  - rewrite lookup_seq_lt by (by eapply lookup_lt_Some). cbn.
    f_equal. by apply H.
  - rewrite lookup_seq_ge; [done|]. by apply lookup_ge_None.
Qed.

Lemma exponential_0_10 i :
  (i < 3)%nat → exponential 0 10 (1 + i) = nth i [1; 2; 4] 0.
Proof. intros H. destruct i as [|[|[|i]]]; [reflexivity..|lia]. Qed.

Lemma exponential_4_10 i : (i < 3)%nat → exponential 4 10 (1 + i) = 4.
Proof. intros H. destruct i as [|[|[|i]]]; [reflexivity..|lia]. Qed.

Lemma fixed_chain_used i :
  (i < 3)%nat → fixed_chain (1 + i) = nth i [1; 1; 3] 0.
Proof. intros H. destruct i as [|[|[|i]]]; [reflexivity..|lia]. Qed.

(** The delays of a run under [stop_after_attempt 4] whose wait strategy
    answers [f i] after the attempt [i + 1]. *)
Lemma delays_of_schedule {A : Type} (self : Retrying)
    (op : (nat → post_result) → World → outcome A * World)
    (url : string) (payload : gmap string json) (rs : list post_result)
    (o : outcome A) (tr : list event) (f : nat → Z) :
  unrolled self op "send_msg_slack" url payload 1 rs = (Some o, tr) →
  (∀ k, stop self (mkState "send_msg_slack" k) = (4 <=? k)%nat) →
  (∀ i r e h, (i < 3)%nat → rs !! i = Some r →
              classify self op "send_msg_slack" r = Retry e h →
              chosen_delay self "send_msg_slack" (1 + i) h = f i) →
  (length (delays tr) ≤ 3)%nat ∧
  delays tr = f <$> seq 0 (attempts tr - 1).
Proof.
  intros Hun Hstop Hf.
  assert (∀ i d, delays tr !! i = Some d → (i < 3)%nat ∧ d = f i) as Hat.
  { intros i d Hd.
    destruct (delay_at Hun i d Hd) as (r & e & h & Hr & Hc & Hs & -> & _).
    rewrite Hstop in Hs. apply Nat.leb_gt in Hs.
    split; [lia|]. apply (Hf i r e h); [lia|done..]. }
  assert (length (delays tr) ≤ 3)%nat as Hlen.
  { destruct (Nat.le_gt_cases (length (delays tr)) 3) as [|Hgt]; [done|].
    destruct (lookup_lt_is_Some_2 (delays tr) 3 Hgt) as [d Hd].
    destruct (Hat 3%nat d Hd). lia. }
  split; [exact Hlen|].
  rewrite (delays_length Hun). cbn [Nat.sub]. rewrite Nat.sub_0_r.
  apply list_by_index. intros i d Hd. by destruct (Hat i d Hd).
Qed.

Lemma total_sleep_le (l : list Z) (b : Z) (k : nat) :
  (length l ≤ k)%nat → 0 ≤ b → (∀ d, d ∈ l → d ≤ b) →
  foldr Z.add 0 l ≤ Z.of_nat k * b.
Proof.
  revert k. induction l as [|d l IH]; intros k Hk Hb Hall; cbn in *; [nia|].
  destruct k as [|k]; [lia|].
  specialize (IH k ltac:(lia) Hb ltac:(intros; apply Hall; by right)).
  pose proof (Hall d ltac:(by left)). nia.
Qed.

Lemma sum_replicate (k : nat) (d : Z) :
  foldr Z.add 0 (replicate k d) = Z.of_nat k * d.
Proof. induction k as [|k IH]; cbn [replicate foldr]; [lia|]. rewrite IH. lia. Qed.

Lemma fmap_const_seq (d : Z) (k : nat) :
  (fun _ : nat => d) <$> seq 0 k = replicate k d.
Proof.
  generalize 0%nat. induction k as [|k IH]; intros j; [done|].
  cbn. by rewrite IH.
Qed.

(** X1.  Whatever the server answers, a call of v2 sleeps exactly 4 seconds
    between any two attempts: with at most four attempts the exponential
    term is 1, 2 or 4, which the minimum of 4 hides.  So the call never
    sleeps more than 12 seconds in all. *)
Theorem v2_always_sleeps_four_seconds {order : iter_order} net url channel w fuel :
  (4 ≤ fuel)%nat →
  ∃ o w' tr,
    V2.send_msg_slack net url channel fuel w = Some (o, w') ∧
    trace w' = trace w ++ tr ∧
    delays tr = replicate (attempts tr - 1) 4 ∧
    (1 ≤ attempts tr ≤ 4)%nat ∧
    total_sleep tr = 4 * (Z.of_nat (attempts tr) - 1) ∧
    total_sleep tr ≤ 12.
Proof.
  intros Hfuel.
  destruct (v2_run net url channel fuel w Hfuel)
    as (o & tr & w' & Hun & Hrun & Htr & _ & Hle & _).
  destruct (delays_of_schedule _ _ _ _ _ _ _ (fun _ => 4) Hun) as [Hlen Hd].
  { reflexivity. }
  { intros i r e h Hi _ _. rewrite v2_chosen_delay. by apply exponential_4_10. }
  assert (delays tr = replicate (attempts tr - 1) 4) as Hrep.
  { rewrite Hd. apply fmap_const_seq. }
  exists o, w', tr. split_and!; auto; try lia.
  - unfold total_sleep. rewrite Hrep, sum_replicate. lia.
  - unfold total_sleep. rewrite Hrep, sum_replicate. lia.
Qed.

Lemma v2_always_sleeps_four_seconds_witness :
  ∃ o w' tr,
    V2.send_msg_slack (order := wait_then_stop)
      (net_always (respond 503 ∅ "unavailable")) "hook" "general" 4
      (fresh_world sample_msg) = Some (o, w') ∧
    trace w' = trace (fresh_world sample_msg) ++ tr ∧
    delays tr = replicate (attempts tr - 1) 4 ∧
    (1 ≤ attempts tr ≤ 4)%nat ∧
    total_sleep tr = 4 * (Z.of_nat (attempts tr) - 1) ∧
    total_sleep tr ≤ 12.
Proof.
  apply (v2_always_sleeps_four_seconds (order := wait_then_stop)
           (net_always (respond 503 ∅ "unavailable")) "hook" "general"
           (fresh_world sample_msg) 4).
  lia.
Defined.

Lemma prefix_by_index (l : list Z) (k : nat) :
  (k ≤ length l)%nat → (fun i => nth i l 0) <$> seq 0 k = take k l.
Proof.
  intros Hk. apply list_eq. intros i. rewrite list_lookup_fmap.
  destruct (Nat.lt_ge_cases i k) as [Hi|Hi].
  - rewrite lookup_seq_lt, lookup_take_lt by done. cbn.
    destruct (lookup_lt_is_Some_2 l i ltac:(lia)) as [d Hd].
    rewrite Hd. f_equal. by apply nth_lookup_Some.
  - rewrite lookup_seq_ge, lookup_take_ge by done. done.
Qed.

(** X2.  Whatever the server answers, the sleeps of a call of v1 are the
    first ones of 1, 2, 4 seconds: with at most four attempts the cap of 10
    seconds is never reached, and the call never sleeps more than 7 seconds
    in all. *)
Theorem v1_sleeps_one_two_four {order : iter_order} net url channel w fuel :
  (4 ≤ fuel)%nat →
  ∃ o w' tr,
    V1.send_msg_slack net url channel fuel w = Some (o, w') ∧
    trace w' = trace w ++ tr ∧
    (1 ≤ attempts tr ≤ 4)%nat ∧
    delays tr = take (attempts tr - 1) [1; 2; 4] ∧
    total_sleep tr ≤ 7.
Proof.
  intros Hfuel.
  destruct (v1_run net url channel fuel w Hfuel)
    as (o & tr & w' & Hun & Hrun & Htr & _ & Hle & _).
  destruct (delays_of_schedule _ _ _ _ _ _ _ (fun i => nth i [1; 2; 4] 0) Hun)
    as [Hlen Hd].
  { reflexivity. }
  { intros i r e h Hi _ _. rewrite v1_chosen_delay. by apply exponential_0_10. }
  rewrite prefix_by_index in Hd by (cbn; lia).
  exists o, w', tr. split_and!; auto; try lia.
  unfold total_sleep. rewrite Hd.
  assert (attempts tr - 1 ≤ 3)%nat as Hk by lia. revert Hk.
  generalize (attempts tr - 1)%nat. intros k Hk.
  destruct k as [|[|[|[|k]]]]; cbn; lia.
Qed.

Lemma v1_sleeps_one_two_four_witness :
  ∃ o w' tr,
    V1.send_msg_slack (order := wait_then_stop)
      (net_always (respond 404 ∅ "no_service")) "hook" "general" 4
      (fresh_world sample_msg) = Some (o, w') ∧
    trace w' = trace (fresh_world sample_msg) ++ tr ∧
    (1 ≤ attempts tr ≤ 4)%nat ∧
    delays tr = take (attempts tr - 1) [1; 2; 4] ∧
    total_sleep tr ≤ 7.
Proof.
  apply (v1_sleeps_one_two_four (order := wait_then_stop)
    (net_always (respond 404 ∅ "no_service"))
           "hook" "general" (fresh_world sample_msg) 4).
  lia.
Defined.

(** X3.  In a run of [retries_slack.py] or of v3 started with no override
    pending, every sleep is either the [Retry-After] of the 429 just
    received or the default for that attempt, which is one of 1, 1, 3
    seconds in [retries_slack.py] and of 1, 2, 4 in v3: the second
    [wait_fixed(3)] and the [wait_fixed(6)] of the chain are never used, nor
    is the cap of 10.  If none of the four responses carries a
    [Retry-After] that [int] reads, the sleeps are the first ones of those
    lists. *)
Theorem default_delays_in_use {order : iter_order} net int url channel w fuel :
  slot None w → (4 ≤ fuel)%nat →
  (∃ o w' tr,
     RetriesSlack.send_msg_slack net int url fuel w = Some (o, w') ∧
     trace w' = trace w ++ tr ∧
     (∀ i d, delays tr !! i = Some d →
        suggested_delay int (net (posts w + i)%nat) = Some d ∨
        (suggested_delay int (net (posts w + i)%nat) = None ∧
         [1; 1; 3] !! i = Some d)) ∧
     ((∀ i, (i < 4)%nat → suggested_delay int (net (posts w + i)%nat) = None) →
      delays tr = take (attempts tr - 1) [1; 1; 3] ∧ total_sleep tr ≤ 5)) ∧
  (∃ o w' tr,
     V3.send_msg_slack net int (V3.mkSlackPub url channel) fuel w = Some (o, w') ∧
     trace w' = trace w ++ tr ∧
     (∀ i d, delays tr !! i = Some d →
        suggested_delay int (net (posts w + i)%nat) = Some d ∨
        (suggested_delay int (net (posts w + i)%nat) = None ∧
         [1; 2; 4] !! i = Some d)) ∧
     ((∀ i, (i < 4)%nat → suggested_delay int (net (posts w + i)%nat) = None) →
      delays tr = take (attempts tr - 1) [1; 2; 4] ∧ total_sleep tr ≤ 7)).
Proof.
  intros Hslot Hfuel. split.
  - destruct (rs_run net int url fuel w Hslot Hfuel)
      as (o & tr & w' & Hun & Hrun & Htr & _ & Hle & _).
    exists o, w', tr. split_and!; auto.
    + intros i d Hd.
      destruct (delay_at Hun i d Hd) as (r & e & h & Hr & Hc & Hs & -> & _).
      assert (i < 3)%nat as Hi by (destruct i as [|[|[|?]]]; [lia..|discriminate]).
      rewrite lookup_responses in Hr by lia. injection Hr as <-.
      apply rs_hint in Hc. subst h. rewrite rs_chosen_delay.
      destruct (suggested_delay int _) as [k|]; [by left|right].
      split; [done|]. rewrite fixed_chain_used by lia.
      destruct i as [|[|[|i]]]; [reflexivity..|lia].
    + intros Hnone.
      destruct (delays_of_schedule _ _ _ _ _ _ _ (fun i => nth i [1; 1; 3] 0) Hun)
        as [Hlen Hd].
      { reflexivity. }
      { intros i r e h Hi Hr Hc. rewrite lookup_responses in Hr by lia.
        injection Hr as <-. apply rs_hint in Hc. subst h.
        rewrite rs_chosen_delay, Hnone by lia. by apply fixed_chain_used. }
      rewrite prefix_by_index in Hd by (cbn; lia).
      split; [exact Hd|]. unfold total_sleep. rewrite Hd.
      assert (attempts tr - 1 ≤ 3)%nat as Hk by lia. revert Hk.
      generalize (attempts tr - 1)%nat. intros k Hk.
      destruct k as [|[|[|[|k]]]]; cbn; lia.
  - destruct (v3_run net int url channel fuel w Hslot Hfuel)
      as (o & tr & w' & Hun & Hrun & Htr & _ & Hle & _).
    exists o, w', tr. split_and!; auto.
    + intros i d Hd.
      destruct (delay_at Hun i d Hd) as (r & e & h & Hr & Hc & Hs & -> & _).
      assert (i < 3)%nat as Hi by (destruct i as [|[|[|?]]]; [lia..|discriminate]).
      rewrite lookup_responses in Hr by lia. injection Hr as <-.
      apply v3_hint in Hc. subst h. rewrite v3_chosen_delay.
      destruct (suggested_delay int _) as [k|]; [by left|right].
      split; [done|]. rewrite exponential_0_10 by lia.
      destruct i as [|[|[|i]]]; [reflexivity..|lia].
    + intros Hnone.
      destruct (delays_of_schedule _ _ _ _ _ _ _ (fun i => nth i [1; 2; 4] 0) Hun)
        as [Hlen Hd].
      { reflexivity. }
      { intros i r e h Hi Hr Hc. rewrite lookup_responses in Hr by lia.
        injection Hr as <-. apply v3_hint in Hc. subst h.
        rewrite v3_chosen_delay, Hnone by lia. by apply exponential_0_10. }
      rewrite prefix_by_index in Hd by (cbn; lia).
      split; [exact Hd|]. unfold total_sleep. rewrite Hd.
      assert (attempts tr - 1 ≤ 3)%nat as Hk by lia. revert Hk.
      generalize (attempts tr - 1)%nat. intros k Hk.
      destruct k as [|[|[|[|k]]]]; cbn; lia.
Qed.

Lemma default_delays_in_use_witness :
  ∃ o w' tr,
    RetriesSlack.send_msg_slack (order := wait_then_stop)
      net_hint int_dec "hook" 4 (fresh_world sample_msg) =
      Some (o, w') ∧
    trace w' = trace (fresh_world sample_msg) ++ tr ∧
    (∀ i d, delays tr !! i = Some d →
       suggested_delay int_dec (net_hint (posts (fresh_world sample_msg) + i)%nat) =
         Some d ∨
       (suggested_delay int_dec (net_hint (posts (fresh_world sample_msg) + i)%nat) =
          None ∧
        [1; 1; 3] !! i = Some d)).
Proof.
  destruct (default_delays_in_use (order := wait_then_stop)
    net_hint int_dec "hook" "general"
              (fresh_world sample_msg) 4 eq_refl ltac:(lia))
    as ((o & w' & tr & Hrun & Htr & Hd & _) & _).
  exists o, w', tr. auto.
Defined.

(** ** Runs that begin with retried failures *)

Section Prefix.
Context {A : Type} {self : Retrying}.
Context {op : (nat → post_result) → World → outcome A * World}.
Context {name url : string} {payload : gmap string json}.
Context {rs : list post_result} {n : nat} {o : outcome A} {tr : list event}.
Hypothesis Hrun : unrolled self op name url payload n rs = (Some o, tr).

(** The first [j] responses are retried failures, met before [stop] fires,
    after which the wait strategy chooses [f i]. *)
Variables (j : nat) (f : nat → Z).
Hypothesis Hprefix : ∀ i, (i < j)%nat →
  ∃ r e h, rs !! i = Some r ∧ classify self op name r = Retry e h ∧
           stop self (mkState name (n + i)) = false ∧
           chosen_delay self name (n + i) h = f i ∧ sleep_error (f i) = None.

Lemma prefix_reached : (j < attempts tr)%nat.
Proof.
  apply (reached Hrun). intros i Hi.
  destruct (Hprefix i Hi) as (r & e & h & Hr & Hc & Hs & Hd & Hf).
  exists r, e, h. rewrite Hd. auto.
Qed.

Lemma prefix_delays : attempts tr = S j → delays tr = f <$> seq 0 j.
Proof.
  intros Hatt. pose proof (delays_length Hrun) as Hlen.
  assert (length (delays tr) = j) as <- by lia.
  apply list_by_index. intros i d Hd.
  destruct (Hprefix i (lookup_lt_Some _ _ _ Hd))
    as (r & e & h & Hr & Hc & Hs & Hch & Hf).
  destruct (delay_at Hrun i d Hd) as (r' & e' & h' & Hr' & Hc' & _ & -> & _).
  rewrite Hr in Hr'. injection Hr' as <-. rewrite Hc in Hc'.
  injection Hc' as _ <-. exact Hch.
Qed.

(** Then a response that stops the run: that is the outcome. *)
Lemma recovered r o' :
  rs !! j = Some r → classify self op name r = Stop o' →
  o = o' ∧ attempts tr = S j ∧ delays tr = f <$> seq 0 j.
Proof.
  intros Hr Hc.
  destruct (stopped_at Hrun j r o' Hr prefix_reached Hc) as (Ho & Hatt & _).
  split_and!; auto. by apply prefix_delays.
Qed.

(** Or one more retried failure on which [stop] fires. *)
Lemma gave_up r e h :
  rs !! j = Some r → classify self op name r = Retry e h →
  stop self (mkState name (n + j)) = true →
  o = Raised (if reraise self then e else RetryError e) ∧
  attempts tr = S j ∧ delays tr = f <$> seq 0 j.
Proof.
  intros Hr Hc Hs.
  destruct (exhausted_at Hrun j r e h Hr prefix_reached Hc Hs) as (Ho & Hatt).
  split_and!; auto. by apply prefix_delays.
Qed.
End Prefix.

(** ** How each variant treats a response *)

Ltac classify_response :=
  unfold classify, rs_op, v1_op, v2_op, v3_op, RetriesSlack.send_msg_slack_fn,
    V1.send_msg_slack_fn, V2.send_msg_slack_fn, V3.send_msg_slack_fn,
    RetriesSlack.TOO_MANY_CALLS, raise_for_status, requests_post, set_channel,
    set_msg, pending;
  cbn [posts trace msg self_wait V3.channel V3.whook_url text].

Lemma rs_classify_server_error int url rq :
  500 ≤ status_code rq →
  classify RetriesSlack.retry_options (rs_op int url) "send_msg_slack" (Responded rq) =
  Retry (SendMsgError
           (url +:+ ": " +:+ pretty (status_code rq) +:+ " - " +:+ reason rq)
           (Some (mkResult false (text rq)
                    (url +:+ ": " +:+ pretty (status_code rq) +:+ " - " +:+ reason rq)
                    "destination")))
        None.
Proof. intros H. classify_response. status_cases. all: reflexivity. Qed.

Lemma rs_classify_ok int url rq :
  status_code rq = 200 →
  classify RetriesSlack.retry_options (rs_op int url) "send_msg_slack" (Responded rq) =
  Stop (Returned (mkResult true (text rq) "" "destination")).
Proof. intros H. classify_response. status_cases. all: reflexivity. Qed.

Lemma v1_classify_rejected url channel rq :
  400 ≤ status_code rq < 600 →
  classify V1.retrying (v1_op url channel) "send_msg_slack" (Responded rq) =
  Retry (HTTPError rq) None.
Proof. intros H. classify_response. status_cases. all: reflexivity. Qed.

Lemma v1_classify_accepted url channel rq :
  status_code rq < 400 ∨ 600 ≤ status_code rq →
  classify V1.retrying (v1_op url channel) "send_msg_slack" (Responded rq) =
  Stop (Returned (text rq)).
Proof. intros H. classify_response. status_cases. all: reflexivity. Qed.

Lemma v2_classify_retried url channel rq :
  status_code rq = 429 ∨ 500 ≤ status_code rq →
  classify V2.retrying (v2_op url channel) "send_msg_slack" (Responded rq) =
  Retry (SendMsgError (text rq +:+ " - " +:+ pretty (status_code rq)) None) None.
Proof. intros H. classify_response. status_cases. all: reflexivity. Qed.

Lemma v2_classify_ok url channel rq :
  status_code rq = 200 →
  classify V2.retrying (v2_op url channel) "send_msg_slack" (Responded rq) =
  Stop (Returned (text rq)).
Proof. intros H. classify_response. status_cases. all: reflexivity. Qed.

Lemma v3_classify_server_error int self rq :
  500 ≤ status_code rq →
  classify V3.retrying (v3_op int self) "send_msg_slack" (Responded rq) =
  Retry (SendMsgError (text rq +:+ " - " +:+ pretty (status_code rq)) None) None.
Proof. intros H. classify_response. status_cases. all: reflexivity. Qed.

Lemma v3_classify_ok int self rq :
  status_code rq = 200 →
  classify V3.retrying (v3_op int self) "send_msg_slack" (Responded rq) =
  Stop (Returned (text rq)).
Proof. intros H. classify_response. status_cases. all: reflexivity. Qed.

Lemma rs_classify_unreadable int url rq s :
  status_code rq = 429 → headers_get rq "Retry-After" = Some s → int s = None →
  classify RetriesSlack.retry_options (rs_op int url) "send_msg_slack" (Responded rq) =
  Retry (ValueError s) None.
Proof.
  intros H Hh Hi. classify_response. rewrite H, Hh, Hi. reflexivity.
Qed.

Lemma v3_classify_unreadable int self rq s :
  status_code rq = 429 → headers_get rq "Retry-After" = Some s → int s = None →
  classify V3.retrying (v3_op int self) "send_msg_slack" (Responded rq) =
  Stop (Raised (ValueError s)).
Proof.
  intros H Hh Hi. classify_response. rewrite H, Hh, Hi. reflexivity.
Qed.

(** A run under [stop_after_attempt(4)] whose first [j] responses are
    retried with no override, and whose next response is decisive. *)
Lemma run_recovers {A : Type} (self : Retrying)
    (op : (nat → post_result) → World → outcome A * World)
    (url : string) (payload : gmap string json) (net : nat → post_result)
    (p j : nat) (f : nat → Z) (o o' : outcome A) (tr : list event) :
  unrolled self op "send_msg_slack" url payload 1 (map net (seq p 4)) = (Some o, tr) →
  (∀ k, stop self (mkState "send_msg_slack" k) = (4 <=? k)%nat) →
  (j ≤ 3)%nat →
  (∀ i, (i < j)%nat →
     ∃ e, classify self op "send_msg_slack" (net (p + i)%nat) = Retry e None) →
  (∀ i, (i < 3)%nat →
     chosen_delay self "send_msg_slack" (1 + i) None = f i ∧ sleep_error (f i) = None) →
  classify self op "send_msg_slack" (net (p + j)%nat) = Stop o' →
  o = o' ∧ attempts tr = S j ∧ delays tr = f <$> seq 0 j.
Proof.
  intros Hun Hstop Hj Hfail Hf Hc.
  apply (recovered Hun j f) with (r := net (p + j)%nat); auto.
  - intros i Hi. destruct (Hfail i Hi) as [e He].
    destruct (Hf i ltac:(lia)) as [Hd H0].
    exists (net (p + i)%nat), e, None. split_and!; auto.
    + apply lookup_responses. lia.
    + rewrite Hstop. destruct i as [|[|[|?]]]; (reflexivity || lia).
  - apply lookup_responses. lia.
Qed.

(** The same, when the next response is a retried failure on the fourth
    attempt. *)
Lemma run_gives_up {A : Type} (self : Retrying)
    (op : (nat → post_result) → World → outcome A * World)
    (url : string) (payload : gmap string json) (net : nat → post_result)
    (p : nat) (f : nat → Z) (o : outcome A) (tr : list event) e h :
  unrolled self op "send_msg_slack" url payload 1 (map net (seq p 4)) = (Some o, tr) →
  (∀ k, stop self (mkState "send_msg_slack" k) = (4 <=? k)%nat) →
  (∀ i, (i < 3)%nat →
     ∃ e, classify self op "send_msg_slack" (net (p + i)%nat) = Retry e None) →
  (∀ i, (i < 3)%nat →
     chosen_delay self "send_msg_slack" (1 + i) None = f i ∧ sleep_error (f i) = None) →
  classify self op "send_msg_slack" (net (p + 3)%nat) = Retry e h →
  o = Raised (if reraise self then e else RetryError e) ∧
  attempts tr = 4%nat ∧ delays tr = f <$> seq 0 3.
Proof.
  intros Hun Hstop Hfail Hf Hc.
  apply (gave_up Hun 3 f) with (r := net (p + 3)%nat) (h := h); auto.
  - intros i Hi. destruct (Hfail i Hi) as [e' He].
    destruct (Hf i ltac:(lia)) as [Hd H0].
    exists (net (p + i)%nat), e', None. split_and!; auto.
    + apply lookup_responses. lia.
    + rewrite Hstop. destruct i as [|[|[|?]]]; (reflexivity || lia).
  - apply lookup_responses. lia.
Qed.

Lemma rs_default_delay i :
  (i < 3)%nat →
  chosen_delay RetriesSlack.retry_options "send_msg_slack" (1 + i) None =
    nth i [1; 1; 3] 0 ∧ sleep_error (nth i [1; 1; 3] 0) = None.
Proof.
  intros Hi. rewrite rs_chosen_delay, fixed_chain_used by done.
  split; [done|]. destruct i as [|[|[|i]]]; (reflexivity || lia).
Qed.

Lemma v3_default_delay i :
  (i < 3)%nat →
  chosen_delay V3.retrying "send_msg_slack" (1 + i) None =
    nth i [1; 2; 4] 0 ∧ sleep_error (nth i [1; 2; 4] 0) = None.
Proof.
  intros Hi. rewrite v3_chosen_delay, exponential_0_10 by done.
  split; [done|]. destruct i as [|[|[|i]]]; (reflexivity || lia).
Qed.

Lemma v1_default_delay i h :
  (i < 3)%nat →
  chosen_delay V1.retrying "send_msg_slack" (1 + i) h =
    nth i [1; 2; 4] 0 ∧ sleep_error (nth i [1; 2; 4] 0) = None.
Proof.
  intros Hi. rewrite v1_chosen_delay, exponential_0_10 by done.
  split; [done|]. destruct i as [|[|[|i]]]; (reflexivity || lia).
Qed.

Lemma v2_default_delay i h :
  (i < 3)%nat →
  chosen_delay V2.retrying "send_msg_slack" (1 + i) h =
    nth i [4; 4; 4] 0 ∧ sleep_error (nth i [4; 4; 4] 0) = None.
Proof.
  intros Hi. rewrite v2_chosen_delay, exponential_4_10 by done.
  destruct i as [|[|[|i]]]; (split; reflexivity) || lia.
Qed.

(** X4.  Recovery.  Let the server answer the first [j ≤ 3] requests of a
    call with a status 500..599 and the next one with 200.  Then each of
    the four decorated functions makes [j + 1] requests, sleeps the first
    [j] default delays of its schedule in between, and returns the body of
    the last response (inside a successful result record in
    [retries_slack.py]); the failures leave no trace in the outcome. *)
Theorem recovers_after_server_errors {order : iter_order}
    net int url channel w fuel j rq :
  slot None w → (4 ≤ fuel)%nat → (j ≤ 3)%nat →
  (∀ i, (i < j)%nat →
     ∃ rq', net (posts w + i)%nat = Responded rq' ∧ 500 ≤ status_code rq' < 600) →
  net (posts w + j)%nat = Responded rq → status_code rq = 200 →
  (∃ w' tr,
     RetriesSlack.send_msg_slack net int url fuel w =
       Some (Returned (mkResult true (text rq) "" "destination"), w') ∧
     trace w' = trace w ++ tr ∧ posts w' = (posts w + S j)%nat ∧
     attempts tr = S j ∧ delays tr = take j [1; 1; 3]) ∧
  (∃ w' tr,
     V3.send_msg_slack net int (V3.mkSlackPub url channel) fuel w =
       Some (Returned (text rq), w') ∧
     trace w' = trace w ++ tr ∧ posts w' = (posts w + S j)%nat ∧
     attempts tr = S j ∧ delays tr = take j [1; 2; 4]) ∧
  (∃ w' tr,
     V2.send_msg_slack net url channel fuel w = Some (Returned (text rq), w') ∧
     trace w' = trace w ++ tr ∧ posts w' = (posts w + S j)%nat ∧
     attempts tr = S j ∧ delays tr = take j [4; 4; 4]) ∧
  (∃ w' tr,
     V1.send_msg_slack net url channel fuel w = Some (Returned (text rq), w') ∧
     trace w' = trace w ++ tr ∧ posts w' = (posts w + S j)%nat ∧
     attempts tr = S j ∧ delays tr = take j [1; 2; 4]).
Proof.
  intros Hslot Hfuel Hj Hfail Hnet Hok. split_and!.
  - destruct (rs_run net int url fuel w Hslot Hfuel)
      as (o & tr & w' & Hun & Hrun & Htr & Hp & _).
    destruct (run_recovers _ _ _ _ _ _ j (fun i => nth i [1; 1; 3] 0) _
                (Returned (mkResult true (text rq) "" "destination")) _ Hun)
      as (-> & Hatt & Hd); auto using rs_default_delay.
    { intros i Hi. destruct (Hfail i Hi) as (rq' & -> & H5 & _).
      eexists. by apply rs_classify_server_error. }
    { rewrite Hnet. by apply rs_classify_ok. }
    rewrite prefix_by_index in Hd by (cbn; lia).
    exists w', tr. rewrite <- Hatt. auto.
  - destruct (v3_run net int url channel fuel w Hslot Hfuel)
      as (o & tr & w' & Hun & Hrun & Htr & Hp & _).
    destruct (run_recovers _ _ _ _ _ _ j (fun i => nth i [1; 2; 4] 0) _
                (Returned (text rq)) _ Hun)
      as (-> & Hatt & Hd); auto using v3_default_delay.
    { intros i Hi. destruct (Hfail i Hi) as (rq' & -> & H5 & _).
      eexists. by apply v3_classify_server_error. }
    { rewrite Hnet. by apply v3_classify_ok. }
    rewrite prefix_by_index in Hd by (cbn; lia).
    exists w', tr. rewrite <- Hatt. auto.
  - destruct (v2_run net url channel fuel w Hfuel)
      as (o & tr & w' & Hun & Hrun & Htr & Hp & _).
    destruct (run_recovers _ _ _ _ _ _ j (fun i => nth i [4; 4; 4] 0) _
                (Returned (text rq)) _ Hun)
      as (-> & Hatt & Hd); auto using v2_default_delay.
    { intros i Hi. destruct (Hfail i Hi) as (rq' & -> & H5 & _).
      eexists. apply v2_classify_retried. by right. }
    { rewrite Hnet. by apply v2_classify_ok. }
    rewrite prefix_by_index in Hd by (cbn; lia).
    exists w', tr. rewrite <- Hatt. auto.
  - destruct (v1_run net url channel fuel w Hfuel)
      as (o & tr & w' & Hun & Hrun & Htr & Hp & _).
    destruct (run_recovers _ _ _ _ _ _ j (fun i => nth i [1; 2; 4] 0) _
                (Returned (text rq)) _ Hun)
      as (-> & Hatt & Hd); auto using v1_default_delay.
    { intros i Hi. destruct (Hfail i Hi) as (rq' & -> & H5).
      eexists. apply v1_classify_rejected. lia. }
    { rewrite Hnet. apply v1_classify_accepted. lia. }
    rewrite prefix_by_index in Hd by (cbn; lia).
    exists w', tr. rewrite <- Hatt. auto.
Qed.

Lemma recovers_after_server_errors_witness :
  ∃ w' tr,
    RetriesSlack.send_msg_slack (order := wait_then_stop)
      (net_script [respond 503 ∅ "unavailable"; respond 500 ∅ "oops"] (respond 200 ∅ "ok"))
      int_dec "hook" 4 (fresh_world sample_msg) =
      Some (Returned (mkResult true "ok" "" "destination"), w') ∧
    trace w' = trace (fresh_world sample_msg) ++ tr ∧
    posts w' = (posts (fresh_world sample_msg) + 3)%nat ∧
    attempts tr = 3%nat ∧ delays tr = take 2 [1; 1; 3].
Proof.
  refine (proj1 (recovers_after_server_errors (order := wait_then_stop)
            (net_script [respond 503 ∅ "unavailable"; respond 500 ∅ "oops"]
               (respond 200 ∅ "ok"))
            int_dec "hook" "general" (fresh_world sample_msg) 4 2
            (mkResponse 200 "" ∅ "ok") eq_refl _ _ _ eq_refl eq_refl)).
  - lia.
  - lia.
  - intros [|[|i]] Hi.
    + exists (mkResponse 503 "" ∅ "unavailable"). split; [reflexivity|]. cbn. lia.
    + exists (mkResponse 500 "" ∅ "oops"). split; [reflexivity|]. cbn. lia.
    + lia.
Defined.

(** X5.  Giving up.  Let the server answer the four requests of a call with
    a status 500..599.  Then each decorated function makes four requests
    and sleeps its three default delays.  The caller of v1, v2 and v3
    receives a [RetryError] around the exception of the fourth attempt -
    the [HTTPError] in v1, the [SendMsgError] with the text and the status
    of the fourth response in v2 and v3 - while the caller of
    [retries_slack.py], whose options reraise, receives that
    [SendMsgError] itself, with the failed result record in it. *)
Theorem gives_up_after_four_server_errors {order : iter_order}
    net int url channel w fuel rq :
  slot None w → (4 ≤ fuel)%nat →
  (∀ i, (i < 3)%nat →
     ∃ rq', net (posts w + i)%nat = Responded rq' ∧ 500 ≤ status_code rq' < 600) →
  net (posts w + 3)%nat = Responded rq → 500 ≤ status_code rq < 600 →
  (∃ w' tr,
     RetriesSlack.send_msg_slack net int url fuel w =
       Some (Raised (SendMsgError
                       (url +:+ ": " +:+ pretty (status_code rq) +:+ " - " +:+ reason rq)
                       (Some (mkResult false (text rq)
                                (url +:+ ": " +:+ pretty (status_code rq) +:+ " - "
                                   +:+ reason rq)
                                "destination"))), w') ∧
     trace w' = trace w ++ tr ∧ posts w' = (posts w + 4)%nat ∧
     attempts tr = 4%nat ∧ delays tr = [1; 1; 3]) ∧
  (∃ w' tr,
     V3.send_msg_slack net int (V3.mkSlackPub url channel) fuel w =
       Some (Raised (RetryError
                       (SendMsgError (text rq +:+ " - " +:+ pretty (status_code rq)) None)),
             w') ∧
     trace w' = trace w ++ tr ∧ posts w' = (posts w + 4)%nat ∧
     attempts tr = 4%nat ∧ delays tr = [1; 2; 4]) ∧
  (∃ w' tr,
     V2.send_msg_slack net url channel fuel w =
       Some (Raised (RetryError
                       (SendMsgError (text rq +:+ " - " +:+ pretty (status_code rq)) None)),
             w') ∧
     trace w' = trace w ++ tr ∧ posts w' = (posts w + 4)%nat ∧
     attempts tr = 4%nat ∧ delays tr = [4; 4; 4]) ∧
  (∃ w' tr,
     V1.send_msg_slack net url channel fuel w =
       Some (Raised (RetryError (HTTPError rq)), w') ∧
     trace w' = trace w ++ tr ∧ posts w' = (posts w + 4)%nat ∧
     attempts tr = 4%nat ∧ delays tr = [1; 2; 4]).
Proof.
  intros Hslot Hfuel Hfail Hnet H5. split_and!.
  - destruct (rs_run net int url fuel w Hslot Hfuel)
      as (o & tr & w' & Hun & Hrun & Htr & Hp & _).
    pose proof (rs_classify_server_error int url rq (proj1 H5)) as Hc.
    rewrite <- Hnet in Hc.
    pose proof (fun H1 H2 H3 =>
      run_gives_up _ _ _ _ _ _ (fun i => nth i [1; 1; 3] 0) _ _ _ _ Hun H1 H2 H3 Hc) as HG.
    destruct HG as (-> & Hatt & Hd); auto using rs_default_delay.
    { intros i Hi. destruct (Hfail i Hi) as (rq' & -> & Hs & _).
      eexists. by apply rs_classify_server_error. }
    exists w', tr. rewrite <- Hatt. auto.
  - destruct (v3_run net int url channel fuel w Hslot Hfuel)
      as (o & tr & w' & Hun & Hrun & Htr & Hp & _).
    pose proof (v3_classify_server_error int (V3.mkSlackPub url channel) rq (proj1 H5))
      as Hc.
    rewrite <- Hnet in Hc.
    pose proof (fun H1 H2 H3 =>
      run_gives_up _ _ _ _ _ _ (fun i => nth i [1; 2; 4] 0) _ _ _ _ Hun H1 H2 H3 Hc) as HG.
    destruct HG as (-> & Hatt & Hd); auto using v3_default_delay.
    { intros i Hi. destruct (Hfail i Hi) as (rq' & -> & Hs & _).
      eexists. by apply v3_classify_server_error. }
    exists w', tr. rewrite <- Hatt. auto.
  - destruct (v2_run net url channel fuel w Hfuel)
      as (o & tr & w' & Hun & Hrun & Htr & Hp & _).
    pose proof (v2_classify_retried url channel rq (or_intror (proj1 H5))) as Hc.
    rewrite <- Hnet in Hc.
    pose proof (fun H1 H2 H3 =>
      run_gives_up _ _ _ _ _ _ (fun i => nth i [4; 4; 4] 0) _ _ _ _ Hun H1 H2 H3 Hc) as HG.
    destruct HG as (-> & Hatt & Hd); auto using v2_default_delay.
    { intros i Hi. destruct (Hfail i Hi) as (rq' & -> & Hs & _).
      eexists. apply v2_classify_retried. by right. }
    exists w', tr. rewrite <- Hatt. auto.
  - destruct (v1_run net url channel fuel w Hfuel)
      as (o & tr & w' & Hun & Hrun & Htr & Hp & _).
    assert (400 ≤ status_code rq < 600) as H4 by lia.
    pose proof (v1_classify_rejected url channel rq H4) as Hc.
    rewrite <- Hnet in Hc.
    pose proof (fun H1 H2 H3 =>
      run_gives_up _ _ _ _ _ _ (fun i => nth i [1; 2; 4] 0) _ _ _ _ Hun H1 H2 H3 Hc) as HG.
    destruct HG as (-> & Hatt & Hd); auto using v1_default_delay.
    { intros i Hi. destruct (Hfail i Hi) as (rq' & -> & Hs).
      eexists. apply v1_classify_rejected. lia. }
    exists w', tr. rewrite <- Hatt. auto.
Qed.

Lemma gives_up_after_four_server_errors_witness :
  ∃ w' tr,
    V2.send_msg_slack (order := wait_then_stop)
      (net_always (respond 503 ∅ "unavailable")) "hook" "general" 4
      (fresh_world sample_msg) =
      Some (Raised (RetryError (SendMsgError "unavailable - 503" None)), w') ∧
    trace w' = trace (fresh_world sample_msg) ++ tr ∧
    posts w' = (posts (fresh_world sample_msg) + 4)%nat ∧
    attempts tr = 4%nat ∧ delays tr = [4; 4; 4].
Proof.
  refine (proj1 (proj2 (proj2 (gives_up_after_four_server_errors (order := wait_then_stop)
            (net_always (respond 503 ∅ "unavailable"))
            int_dec "hook" "general" (fresh_world sample_msg) 4
            (mkResponse 503 "" ∅ "unavailable") eq_refl _ _ eq_refl _)))).
  - lia.
  - intros i Hi. exists (mkResponse 503 "" ∅ "unavailable").
    split; [reflexivity|]. cbn. lia.
  - cbn. lia.
Defined.

(** ** A [Retry-After] that cannot be used *)

Section Budget4.
Context {A : Type} (self : Retrying).
Context (op : (nat → post_result) → World → outcome A * World).
Context (url : string) (payload : gmap string json) (net : nat → post_result).
Context (p j : nat) (f : nat → Z) (o : outcome A) (tr : list event).
Hypothesis Hun :
  unrolled self op "send_msg_slack" url payload 1 (map net (seq p 4)) = (Some o, tr).
Hypothesis Hstop : ∀ k, stop self (mkState "send_msg_slack" k) = (4 <=? k)%nat.
Hypothesis Hj : (j < 3)%nat.
Hypothesis Hfail : ∀ i, (i < j)%nat →
  ∃ e, classify self op "send_msg_slack" (net (p + i)%nat) = Retry e None.
Hypothesis Hf : ∀ i, (i < 3)%nat →
  chosen_delay self "send_msg_slack" (1 + i) None = f i ∧ sleep_error (f i) = None.

Lemma retried_prefix i :
  (i < j)%nat →
  ∃ r e h, map net (seq p 4) !! i = Some r ∧
           classify self op "send_msg_slack" r = Retry e h ∧
           stop self (mkState "send_msg_slack" (1 + i)) = false ∧
           chosen_delay self "send_msg_slack" (1 + i) h = f i ∧ sleep_error (f i) = None.
Proof.
  intros Hi. destruct (Hfail i Hi) as [e He].
  destruct (Hf i ltac:(lia)) as [Hd H0].
  exists (net (p + i)%nat), e, None. split_and!; auto.
  - apply lookup_responses. lia.
  - rewrite Hstop. destruct i as [|[|[|?]]]; (reflexivity || lia).
Qed.

Lemma stop_before_budget : stop self (mkState "send_msg_slack" (1 + j)) = false.
Proof. rewrite Hstop. destruct j as [|[|[|?]]]; (reflexivity || lia). Qed.

(** The failure after the prefix is retried: its delay is slept and one
    more attempt is made. *)
Lemma run_continues e h :
  classify self op "send_msg_slack" (net (p + j)%nat) = Retry e h →
  sleep_error (chosen_delay self "send_msg_slack" (1 + j) h) = None →
  (S j < attempts tr)%nat ∧
  delays tr !! j = Some (chosen_delay self "send_msg_slack" (1 + j) h).
Proof.
  intros Hc Hd.
  apply (retried_at Hun j (net (p + j)%nat) e h); auto.
  - apply lookup_responses. lia.
  - apply (prefix_reached Hun j f retried_prefix).
  - apply stop_before_budget.
Qed.

(** The failure after the prefix asks for a delay that [time.sleep]
    refuses: the sleep raises and the run is over. *)
Lemma run_aborts e h e' :
  classify self op "send_msg_slack" (net (p + j)%nat) = Retry e h →
  sleep_error (chosen_delay self "send_msg_slack" (1 + j) h) = Some e' →
  o = Raised e' ∧ attempts tr = S j ∧ delays tr = f <$> seq 0 j.
Proof.
  intros Hc Hd.
  destruct (aborted_at Hun j (net (p + j)%nat) e h e') as [Ho Hatt]; auto.
  - apply lookup_responses. lia.
  - apply (prefix_reached Hun j f retried_prefix).
  - apply stop_before_budget.
  - split_and!; auto. apply (prefix_delays Hun j f retried_prefix Hatt).
Qed.
End Budget4.

(** X6.  A 429 whose [Retry-After] the conversion [int] rejects, met on the
    attempt [j + 1] after [j ≤ 3] responses with a status 500..599.  In v3
    the [ValueError] of the conversion is not a [SendMsgError], so the call
    ends at once with it, after [j + 1] requests.  In [retries_slack.py]
    every exception is retried: before the fourth attempt the call sleeps
    the default delay of that attempt and posts again, and on the fourth
    attempt the caller receives the [ValueError], not a [SendMsgError]. *)
Theorem unreadable_retry_after {order : iter_order} net int url channel w fuel j rq s :
  slot None w → (4 ≤ fuel)%nat → (j ≤ 3)%nat →
  (∀ i, (i < j)%nat →
     ∃ rq', net (posts w + i)%nat = Responded rq' ∧ 500 ≤ status_code rq' < 600) →
  net (posts w + j)%nat = Responded rq → status_code rq = 429 →
  headers_get rq "Retry-After" = Some s → int s = None →
  (∃ w' tr,
     V3.send_msg_slack net int (V3.mkSlackPub url channel) fuel w =
       Some (Raised (ValueError s), w') ∧
     trace w' = trace w ++ tr ∧ posts w' = (posts w + S j)%nat ∧
     attempts tr = S j ∧ delays tr = take j [1; 2; 4]) ∧
  (∃ o w' tr,
     RetriesSlack.send_msg_slack net int url fuel w = Some (o, w') ∧
     trace w' = trace w ++ tr ∧
     ((j < 3)%nat → (S j < attempts tr)%nat ∧ delays tr !! j = [1; 1; 3] !! j) ∧
     (j = 3%nat → o = Raised (ValueError s) ∧ attempts tr = 4%nat ∧
                  delays tr = [1; 1; 3])).
Proof.
  intros Hslot Hfuel Hj Hfail Hnet H429 Hh Hint. split.
  - destruct (v3_run net int url channel fuel w Hslot Hfuel)
      as (o & tr & w' & Hun & Hrun & Htr & Hp & _).
    destruct (run_recovers _ _ _ _ _ _ j (fun i => nth i [1; 2; 4] 0) _
                (Raised (ValueError s)) _ Hun)
      as (-> & Hatt & Hd); auto using v3_default_delay.
    { intros i Hi. destruct (Hfail i Hi) as (rq' & -> & H5 & _).
      eexists. by apply v3_classify_server_error. }
    { rewrite Hnet. by apply v3_classify_unreadable. }
    rewrite prefix_by_index in Hd by (cbn; lia).
    exists w', tr. rewrite <- Hatt. auto.
  - destruct (rs_run net int url fuel w Hslot Hfuel)
      as (o & tr & w' & Hun & Hrun & Htr & Hp & _).
    pose proof (rs_classify_unreadable int url rq s H429 Hh Hint) as Hc.
    rewrite <- Hnet in Hc.
    assert (∀ i, (i < j)%nat →
              ∃ e, classify RetriesSlack.retry_options (rs_op int url)
                     "send_msg_slack" (net (posts w + i)%nat) = Retry e None)
      as Hpre.
    { intros i Hi. destruct (Hfail i Hi) as (rq' & -> & H5 & _).
      eexists. by apply rs_classify_server_error. }
    exists o, w', tr. split_and!; auto.
    + intros Hj3.
      destruct (rs_default_delay j Hj3) as [Hdj H0].
      destruct (run_continues _ _ _ _ _ _ j (fun i => nth i [1; 1; 3] 0) _ _ Hun
                  ltac:(reflexivity) Hj3 Hpre rs_default_delay (ValueError s) None Hc)
        as [Hlt Hd].
      { by rewrite Hdj. }
      split; [done|]. rewrite Hd. rewrite rs_chosen_delay, fixed_chain_used by done.
      destruct j as [|[|[|?]]]; (reflexivity || lia).
    + intros ->.
      pose proof (fun H1 H2 H3 =>
        run_gives_up _ _ _ _ _ _ (fun i => nth i [1; 1; 3] 0) _ _ _ _ Hun H1 H2 H3 Hc)
        as HG.
      destruct HG as (-> & Hatt & Hd); auto using rs_default_delay.
Qed.

Lemma unreadable_retry_after_witness :
  ∃ w' tr,
    V3.send_msg_slack (order := wait_then_stop)
      (net_script [respond 429 {["retry-after" := "soon"]} "slow down"]
         (respond 200 ∅ "ok"))
      int_dec (V3.mkSlackPub "hook" "general") 4 (fresh_world sample_msg) =
      Some (Raised (ValueError "soon"), w') ∧
    trace w' = trace (fresh_world sample_msg) ++ tr ∧
    posts w' = (posts (fresh_world sample_msg) + 1)%nat ∧
    attempts tr = 1%nat ∧ delays tr = take 0 [1; 2; 4].
Proof.
  refine (proj1 (unreadable_retry_after (order := wait_then_stop)
            (net_script [respond 429 {["retry-after" := "soon"]} "slow down"]
               (respond 200 ∅ "ok"))
            int_dec "hook" "general" (fresh_world sample_msg) 4 0
            (mkResponse 429 "" {["retry-after" := "soon"]} "slow down") "soon"
            eq_refl _ _ _ eq_refl eq_refl eq_refl eq_refl)).
  - lia.
  - lia.
  - intros i Hi. lia.
Defined.

(** X7.  A 429 whose [Retry-After] reads as a negative number, met before
    the fourth attempt after [j] responses with a status 500..599, in a run
    started with no override pending.  Both in v3 and in
    [retries_slack.py] the wait strategy hands the negative number to the
    sleep, which raises: the call ends there with the [ValueError] of
    [time.sleep], after [j + 1] requests, and the exception the function
    raised for the 429 is lost. *)
Theorem negative_retry_after {order : iter_order} net int url channel w fuel j rq s k :
  slot None w → (4 ≤ fuel)%nat → (j < 3)%nat →
  (∀ i, (i < j)%nat →
     ∃ rq', net (posts w + i)%nat = Responded rq' ∧ 500 ≤ status_code rq' < 600) →
  net (posts w + j)%nat = Responded rq → status_code rq = 429 →
  headers_get rq "Retry-After" = Some s → int s = Some k → k < 0 →
  (∃ w' tr,
     V3.send_msg_slack net int (V3.mkSlackPub url channel) fuel w =
       Some (Raised negative_sleep, w') ∧
     trace w' = trace w ++ tr ∧ posts w' = (posts w + S j)%nat ∧
     attempts tr = S j ∧ delays tr = take j [1; 2; 4]) ∧
  (∃ w' tr,
     RetriesSlack.send_msg_slack net int url fuel w =
       Some (Raised negative_sleep, w') ∧
     trace w' = trace w ++ tr ∧ posts w' = (posts w + S j)%nat ∧
     attempts tr = S j ∧ delays tr = take j [1; 1; 3]).
Proof.
  intros Hslot Hfuel Hj Hfail Hnet H429 Hh Hint Hk.
  assert (suggested_delay int (Responded rq) = Some k) as Hsug.
  { unfold suggested_delay. by rewrite H429, Hh. }
  split.
  - destruct (v3_run net int url channel fuel w Hslot Hfuel)
      as (o & tr & w' & Hun & Hrun & Htr & Hp & _).
    destruct (v3_classify_429 int (V3.mkSlackPub url channel) rq H429) as [e Hc].
    { right. eauto. }
    rewrite Hsug, <- Hnet in Hc.
    assert (∀ i, (i < j)%nat →
              ∃ e, classify V3.retrying (v3_op int (V3.mkSlackPub url channel))
                     "send_msg_slack" (net (posts w + i)%nat) = Retry e None)
      as Hpre.
    { intros i Hi. destruct (Hfail i Hi) as (rq' & -> & H5 & _).
      eexists. by apply v3_classify_server_error. }
    destruct (run_aborts _ _ _ _ _ _ j (fun i => nth i [1; 2; 4] 0) _ _ Hun
                ltac:(reflexivity) Hj Hpre v3_default_delay e (Some k)
                negative_sleep Hc)
      as (-> & Hatt & Hd).
    { rewrite v3_chosen_delay. by apply sleep_error_negative. }
    rewrite prefix_by_index in Hd by (cbn; lia).
    exists w', tr. rewrite <- Hatt. auto.
  - destruct (rs_run net int url fuel w Hslot Hfuel)
      as (o & tr & w' & Hun & Hrun & Htr & Hp & _).
    destruct (rs_classify_429 int url rq H429) as [e Hc].
    { right. eauto. }
    rewrite Hsug, <- Hnet in Hc.
    assert (∀ i, (i < j)%nat →
              ∃ e, classify RetriesSlack.retry_options (rs_op int url)
                     "send_msg_slack" (net (posts w + i)%nat) = Retry e None)
      as Hpre.
    { intros i Hi. destruct (Hfail i Hi) as (rq' & -> & H5 & _).
      eexists. by apply rs_classify_server_error. }
    destruct (run_aborts _ _ _ _ _ _ j (fun i => nth i [1; 1; 3] 0) _ _ Hun
                ltac:(reflexivity) Hj Hpre rs_default_delay e (Some k)
                negative_sleep Hc)
      as (-> & Hatt & Hd).
    { rewrite rs_chosen_delay. by apply sleep_error_negative. }
    rewrite prefix_by_index in Hd by (cbn; lia).
    exists w', tr. rewrite <- Hatt. auto.
Qed.

Lemma negative_retry_after_witness :
  ∃ w' tr,
    RetriesSlack.send_msg_slack (order := wait_then_stop)
      (net_script [respond 503 ∅ "unavailable";
                   respond 429 {["retry-after" := "-5"]} "slow down"]
         (respond 200 ∅ "ok"))
      int_dec "hook" 4 (fresh_world sample_msg) =
      Some (Raised negative_sleep, w') ∧
    trace w' = trace (fresh_world sample_msg) ++ tr ∧
    posts w' = (posts (fresh_world sample_msg) + 2)%nat ∧
    attempts tr = 2%nat ∧ delays tr = take 1 [1; 1; 3].
Proof.
  refine (proj2 (negative_retry_after (order := wait_then_stop)
            (net_script [respond 503 ∅ "unavailable";
                         respond 429 {["retry-after" := "-5"]} "slow down"]
               (respond 200 ∅ "ok"))
            int_dec "hook" "general" (fresh_world sample_msg) 4 1
            (mkResponse 429 "" {["retry-after" := "-5"]} "slow down") "-5" (-5)
            eq_refl _ _ _ eq_refl eq_refl eq_refl eq_refl _)).
  - lia.
  - lia.
  - intros [|i] Hi; [|lia].
    exists (mkResponse 503 "" ∅ "unavailable"). split; [reflexivity|]. cbn. lia.
  - lia.
Defined.

(** ** The manual loop of v0, response by response *)

Lemma raise_for_status_none rq :
  ¬ (400 ≤ status_code rq < 600) → raise_for_status rq = None.
Proof.
  intros H. unfold raise_for_status.
  destruct (Z.leb_spec 400 (status_code rq)), (Z.ltb_spec (status_code rq) 600);
    cbn [andb]; (reflexivity || (exfalso; apply H; lia)).
Qed.

Lemma raise_for_status_some rq e :
  raise_for_status rq = Some e → e = HTTPError rq ∧ 400 ≤ status_code rq < 600.
Proof.
  unfold raise_for_status.
  destruct (Z.leb_spec 400 (status_code rq)), (Z.ltb_spec (status_code rq) 600);
    cbn [andb]; intros Heq; try discriminate.
  injection Heq as <-. split; [done|lia].
Qed.

(** Every way out of the loop: the body of an accepted response, the
    exception of the transport, or the [HTTPError] of a rejected response
    once the attempts are used up.  All sleeps are of [SLEEP] seconds, one
    per rejected response. *)
Lemma v0_loop_outcome net url channel fuel : ∀ attemp last w,
  (1 ≤ fuel)%nat → (6 - attemp ≤ fuel)%nat →
  ((4 < attemp)%nat → ∃ rq, last = Some rq ∧ 400 ≤ status_code rq < 600) →
  ∃ o w' tr,
    V0.loop net url channel fuel attemp last w = Some (o, w') ∧
    trace w' = trace w ++ tr ∧
    delays tr = replicate (length (delays tr)) V0.SLEEP ∧
    (length (delays tr) ≤ attempts tr ≤ 5 - attemp)%nat ∧
    ((∃ rq, o = Returned (Some (text rq)) ∧ ¬ (400 ≤ status_code rq < 600) ∧
            attempts tr = S (length (delays tr))) ∨
     (∃ what, o = Raised (ConnectionError what) ∧
              attempts tr = S (length (delays tr))) ∨
     (∃ rq, o = Raised (HTTPError rq) ∧ 400 ≤ status_code rq < 600 ∧
            length (delays tr) = attempts tr ∧
            attempts tr = (5 - attemp)%nat)).
Proof.
  induction fuel as [|fuel IH]; intros attemp last w H1 Hfuel Hlast; [lia|].
  cbn [V0.loop]. unfold V0.TOTAL_ATTEMPS.
  destruct (Nat.leb_spec attemp 4) as [Hle|Hgt].
  - unfold set_channel, requests_post, set_msg. cbn [posts trace msg self_wait].
    destruct (net (posts w)) as [rq|what].
    2:{ eexists _, _, [_]. split_and!; try reflexivity; cbn; try lia.
        right; left. eauto. }
    destruct (raise_for_status rq) as [e|] eqn:Est.
    2:{ eexists _, _, [_]. split_and!; try reflexivity; cbn; try lia.
        left. exists rq. split_and!; auto.
        intros Hs. by rewrite (raise_for_status_error rq Hs) in Est. }
    apply raise_for_status_some in Est as [-> Hs].
    unfold time_sleep. cbn [V0.SLEEP Z.ltb Z.compare].
    edestruct (IH (S attemp) (Some rq))
      as (o & w' & tr & Hrun & Htr & Hd & Hlen & Hout); [lia|lia| |].
    { intros _. eauto. }
    exists o, w', (Post url (<["channel" := JStr ("#" +:+ channel)]> (msg w))
                    (Responded rq) :: Sleep 1 :: tr).
    split; [exact Hrun|]. cbn [attempts delays length replicate].
    split; [|split; [|split]].
    + rewrite Htr. cbn. rewrite <- !app_assoc. reflexivity.
    + f_equal. exact Hd.
    + lia.
    + destruct Hout as [(rq' & -> & Hn & Hl)|[(what & -> & Hl)|(rq' & -> & Hs' & Hl & Ha)]].
      * left. exists rq'. split_and!; auto.
      * right; left. exists what. split; [done|]. lia.
      * right; right. exists rq'. split_and!; auto; lia.
  - destruct (Hlast Hgt) as (rq & -> & Hs).
    rewrite (raise_for_status_error rq Hs).
    eexists _, w, []. rewrite app_nil_r. cbn.
    split_and!; try reflexivity; try lia.
    right; right. exists rq. split_and!; auto; lia.
Qed.

Lemma delays_app tr1 tr2 : delays (tr1 ++ tr2) = delays tr1 ++ delays tr2.
Proof.
  induction tr1 as [|[u pl r|s] tr1 IH]; cbn; [done|done|by rewrite IH].
Qed.

(** One decisive round of the loop. *)
Lemma v0_accepted_round net url channel fuel attemp last w rq :
  (attemp ≤ 4)%nat →
  net (posts w) = Responded rq →
  ¬ (400 ≤ status_code rq < 600) →
  V0.loop net url channel (S fuel) attemp last w =
  Some (Returned (Some (text rq)),
        mkWorld (S (posts w))
          (trace w ++ [Post url (with_channel channel (msg w)) (Responded rq)])
          (with_channel channel (msg w)) (self_wait w)).
Proof.
  intros Hle Hnet Hstatus. cbn [V0.loop].
  replace (attemp <=? V0.TOTAL_ATTEMPS)%nat with true
    by (symmetry; apply Nat.leb_le; exact Hle).
  unfold set_channel, requests_post, set_msg. cbn [posts trace msg self_wait].
  rewrite Hnet, (raise_for_status_none rq Hstatus). reflexivity.
Qed.

Lemma v0_broken_round net url channel fuel attemp last w what :
  (attemp ≤ 4)%nat →
  net (posts w) = Failed what →
  V0.loop net url channel (S fuel) attemp last w =
  Some (Raised (ConnectionError what),
        mkWorld (S (posts w))
          (trace w ++ [Post url (with_channel channel (msg w)) (Failed what)])
          (with_channel channel (msg w)) (self_wait w)).
Proof.
  intros Hle Hnet. cbn [V0.loop].
  replace (attemp <=? V0.TOTAL_ATTEMPS)%nat with true
    by (symmetry; apply Nat.leb_le; exact Hle).
  unfold set_channel, requests_post, set_msg. cbn [posts trace msg self_wait].
  rewrite Hnet. reflexivity.
Qed.

(** [j] rejected responses in a row: [j] rounds of POST and sleep. *)
Lemma v0_failed_rounds net url channel j : ∀ fuel attemp last w,
  (attemp + j ≤ 5)%nat →
  (∀ i, (i < j)%nat →
     ∃ rq, net (posts w + i)%nat = Responded rq ∧ 400 ≤ status_code rq < 600) →
  ∃ last' w1 tr,
    V0.loop net url channel (j + fuel) attemp last w =
      V0.loop net url channel fuel (attemp + j) last' w1 ∧
    posts w1 = (posts w + j)%nat ∧ trace w1 = trace w ++ tr ∧
    with_channel channel (msg w1) = with_channel channel (msg w) ∧
    self_wait w1 = self_wait w ∧
    attempts tr = j ∧ delays tr = replicate j V0.SLEEP.
Proof.
  induction j as [|j IH]; intros fuel attemp last w Hle Hfail.
  - exists last, w, []. rewrite Nat.add_0_r, app_nil_r.
    split_and!; try reflexivity. lia.
  - destruct (Hfail 0%nat) as (rq & Hn & Hs); [lia|]. rewrite Nat.add_0_r in Hn.
    cbn [Nat.add].
    rewrite (v0_failed_round net url channel (j + fuel) attemp last w rq)
      by (done || lia).
    edestruct (IH fuel (S attemp) (Some rq)) as (last' & w1 & tr & Hrun & Hp & Htr & Hm & Hw & Ha & Hd).
    3:{ exists last', w1,
          (Post url (with_channel channel (msg w)) (Responded rq) :: Sleep V0.SLEEP :: tr).
        split_and!.
        - rewrite Hrun. f_equal. lia.
        - rewrite Hp. cbn [posts]. lia.
        - rewrite Htr. cbn [trace]. rewrite <- !app_assoc. reflexivity.
        - rewrite Hm. cbn [msg]. apply with_channel_idem.
        - rewrite Hw. reflexivity.
        - cbn. by rewrite Ha.
        - cbn. by rewrite Hd. }
    + lia.
    + intros i Hi. cbn [posts].
      destruct (Hfail (S i)) as (rq' & Hn' & Hs'); [lia|].
      exists rq'. split; [|done]. rewrite <- Hn'. f_equal. lia.
Qed.

(** The rounds before the first response that is not rejected, and that
    response. *)
Lemma v0_first_unrejected net url channel w fuel j :
  (5 ≤ fuel)%nat → (j ≤ 3)%nat →
  (∀ i, (i < j)%nat →
     ∃ rq, net (posts w + i)%nat = Responded rq ∧ 400 ≤ status_code rq < 600) →
  (∀ rq, net (posts w + j)%nat = Responded rq →
         ¬ (400 ≤ status_code rq < 600) →
     ∃ w' tr,
       V0.send_msg_slack net url channel fuel w =
         Some (Returned (Some (text rq)), w') ∧
       trace w' = trace w ++ tr ∧ posts w' = (posts w + S j)%nat ∧
       attempts tr = S j ∧ delays tr = replicate j V0.SLEEP ∧
       total_sleep tr = Z.of_nat j) ∧
  (∀ what, net (posts w + j)%nat = Failed what →
     ∃ w' tr,
       V0.send_msg_slack net url channel fuel w =
         Some (Raised (ConnectionError what), w') ∧
       trace w' = trace w ++ tr ∧ posts w' = (posts w + S j)%nat ∧
       attempts tr = S j ∧ delays tr = replicate j V0.SLEEP ∧
       total_sleep tr = Z.of_nat j).
Proof.
  intros Hfuel Hj Hfail.
  assert (∃ fuel', fuel = (j + S fuel')%nat) as [fuel' ->].
  { exists (fuel - j - 1)%nat. lia. }
  destruct (v0_failed_rounds net url channel j (S fuel') 1 None w ltac:(lia) Hfail)
    as (last' & w1 & tr & Hrun & Hp & Htr & Hm & Hw & Ha & Hd).
  unfold V0.send_msg_slack. rewrite Hrun. rewrite <- Hp.
  assert (∀ r, attempts (tr ++ [Post url (with_channel channel (msg w1)) r]) = S j ∧
               delays (tr ++ [Post url (with_channel channel (msg w1)) r]) =
                 replicate j V0.SLEEP) as Htrace.
  { intros r. rewrite attempts_app, delays_app, Ha, Hd, app_nil_r. cbn. split; [lia|done]. }
  split.
  - intros rq Hnet Hs.
    rewrite (v0_accepted_round net url channel fuel' (1 + j) last' w1 rq)
      by (done || lia).
    eexists _, (tr ++ [Post url (with_channel channel (msg w1)) (Responded rq)]).
    split; [reflexivity|]. cbn [trace posts].
    destruct (Htrace (Responded rq)) as [Ha' Hd'].
    split_and!; auto; try lia.
    + rewrite Htr, <- app_assoc. reflexivity.
    + unfold total_sleep. rewrite Hd', sum_replicate. unfold V0.SLEEP. lia.
  - intros what Hnet.
    rewrite (v0_broken_round net url channel fuel' (1 + j) last' w1 what)
      by (done || lia).
    eexists _, (tr ++ [Post url (with_channel channel (msg w1)) (Failed what)]).
    split; [reflexivity|]. cbn [trace posts].
    destruct (Htrace (Failed what)) as [Ha' Hd'].
    split_and!; auto; try lia.
    + rewrite Htr, <- app_assoc. reflexivity.
    + unfold total_sleep. rewrite Hd', sum_replicate. unfold V0.SLEEP. lia.
Qed.

(** X8.  In the manual loop of v0 the first response that
    [raise_for_status] does not reject decides: after [j ≤ 3] responses
    with a status 400..599, each followed by a sleep of [SLEEP], a response
    with any other status makes the function return its body, and an
    exception of the transport leaves the function at once, unretried;
    [j + 1] requests were made and [j] seconds slept. *)
Theorem manual_loop_first_unrejected_decides net url channel w fuel j :
  (5 ≤ fuel)%nat → (j ≤ 3)%nat →
  (∀ i, (i < j)%nat →
     ∃ rq, net (posts w + i)%nat = Responded rq ∧ 400 ≤ status_code rq < 600) →
  (∀ rq, net (posts w + j)%nat = Responded rq →
         ¬ (400 ≤ status_code rq < 600) →
     ∃ w' tr,
       V0.send_msg_slack net url channel fuel w =
         Some (Returned (Some (text rq)), w') ∧
       trace w' = trace w ++ tr ∧ posts w' = (posts w + S j)%nat ∧
       attempts tr = S j ∧ delays tr = replicate j V0.SLEEP ∧
       total_sleep tr = Z.of_nat j) ∧
  (∀ what, net (posts w + j)%nat = Failed what →
     ∃ w' tr,
       V0.send_msg_slack net url channel fuel w =
         Some (Raised (ConnectionError what), w') ∧
       trace w' = trace w ++ tr ∧ posts w' = (posts w + S j)%nat ∧
       attempts tr = S j ∧ delays tr = replicate j V0.SLEEP ∧
       total_sleep tr = Z.of_nat j).
Proof.
  intros Hfuel Hj Hfail. by apply v0_first_unrejected.
Qed.

Lemma manual_loop_first_unrejected_decides_witness :
  ∃ w' tr,
    V0.send_msg_slack
      (net_script [respond 503 ∅ "unavailable"; respond 404 ∅ "no_service"]
         (respond 302 ∅ "moved"))
      "hook" "general" 5 (fresh_world sample_msg) =
      Some (Returned (Some "moved"), w') ∧
    trace w' = trace (fresh_world sample_msg) ++ tr ∧
    posts w' = (posts (fresh_world sample_msg) + 3)%nat ∧
    attempts tr = 3%nat ∧ delays tr = replicate 2 V0.SLEEP ∧
    total_sleep tr = 2.
Proof.
  refine (proj1 (manual_loop_first_unrejected_decides
            (net_script [respond 503 ∅ "unavailable"; respond 404 ∅ "no_service"]
               (respond 302 ∅ "moved"))
            "hook" "general" (fresh_world sample_msg) 5 2 _ _ _)
            (mkResponse 302 "" ∅ "moved") eq_refl _).
  - lia.
  - lia.
  - intros [|[|i]] Hi.
    + exists (mkResponse 503 "" ∅ "unavailable"). split; [reflexivity|]. cbn. lia.
    + exists (mkResponse 404 "" ∅ "no_service"). split; [reflexivity|]. cbn. lia.
    + lia.
  - cbn. lia.
Defined.

(** X9.  The manual loop of v0 always ends, within four requests, in one of
    three ways: it returns the body of a response whose status is not
    400..599, it raises the exception of the transport, or - after four
    rejected responses and as many sleeps - it raises the [HTTPError] of a
    rejected response.  The statement after the loop therefore always
    raises: the function never falls off its end returning [None], and
    [msg_rq] is never unbound there.  Every sleep is of [SLEEP] seconds and
    the call sleeps at most 4 seconds. *)
Theorem manual_loop_never_falls_through net url channel w fuel :
  (5 ≤ fuel)%nat →
  ∃ o w' tr,
    V0.send_msg_slack net url channel fuel w = Some (o, w') ∧
    trace w' = trace w ++ tr ∧
    (attempts tr ≤ 4)%nat ∧ total_sleep tr ≤ 4 ∧
    o ≠ Returned None ∧ (∀ x, o ≠ Raised (UnboundLocalError x)) ∧
    ((∃ rq, o = Returned (Some (text rq)) ∧ ¬ (400 ≤ status_code rq < 600) ∧
            total_sleep tr = Z.of_nat (attempts tr) - 1) ∨
     (∃ what, o = Raised (ConnectionError what) ∧
              total_sleep tr = Z.of_nat (attempts tr) - 1) ∨
     (∃ rq, o = Raised (HTTPError rq) ∧ 400 ≤ status_code rq < 600 ∧
            attempts tr = 4%nat ∧ total_sleep tr = 4)).
Proof.
  intros Hfuel.
  destruct (v0_loop_outcome net url channel fuel 1 None w)
    as (o & w' & tr & Hrun & Htr & Hd & Hlen & Hout); [lia|lia|lia|].
  assert (total_sleep tr = Z.of_nat (length (delays tr))) as Hsum.
  { unfold total_sleep. rewrite Hd, sum_replicate, length_replicate.
    unfold V0.SLEEP. lia. }
  exists o, w', tr. split_and!; auto; try lia.
  - destruct Hout as [(rq & -> & _)|[(what & -> & _)|(rq & -> & _)]]; discriminate.
  - intros x.
    destruct Hout as [(rq & -> & _)|[(what & -> & _)|(rq & -> & _)]]; discriminate.
  - destruct Hout as [(rq & -> & Hn & Hl)|[(what & -> & Hl)|(rq & -> & Hs & Hl & Ha)]].
    + left. exists rq. split_and!; auto. lia.
    + right; left. exists what. split; [done|]. lia.
    + right; right. exists rq. split_and!; auto; lia.
Qed.

Lemma manual_loop_never_falls_through_witness :
  ∃ o w' tr,
    V0.send_msg_slack net_hint "hook" "general" 5 (fresh_world sample_msg) =
      Some (o, w') ∧
    trace w' = trace (fresh_world sample_msg) ++ tr ∧
    (attempts tr ≤ 4)%nat ∧ total_sleep tr ≤ 4 ∧
    o ≠ Returned None ∧ (∀ x, o ≠ Raised (UnboundLocalError x)).
Proof.
  destruct (manual_loop_never_falls_through net_hint "hook" "general"
              (fresh_world sample_msg) 5 ltac:(lia))
    as (o & w' & tr & Hrun & Htr & Ha & Hs & Hn & Hu & _).
  exists o, w', tr.
  exact (conj Hrun (conj Htr (conj Ha (conj Hs (conj Hn Hu))))).
Defined.

(** ** The world that a call leaves *)

Section LastAttempt.
Context {order : iter_order}.
Context {A : Type}.
Variable self : Retrying.
Variable op : (nat → post_result) → World → outcome A * World.
Variable name : string.
Variables (url : string) (payload : gmap string json).
Variable net : nat → post_result.
Variable Pre : World → Prop.
Variable Mid : option Z → World → Prop.
Variable Q : World → Prop.

Hypothesis op_local : ∀ w, Pre w →
  ∃ w1,
    op net w = (fst (op (fun _ => net (posts w)) (pending name None)), w1) ∧
    posts w1 = S (posts w) ∧
    trace w1 = trace w ++ [Post url payload (net (posts w))] ∧
    Mid (dict_get
           (self_wait (snd (op (fun _ => net (posts w)) (pending name None))))
           name) w1 ∧
    Q w1.

Hypothesis wait_local : ∀ n h w, Mid h w → Q w →
  ∃ w2,
    wait self (mkState name n) w = (chosen_delay self name n h, w2) ∧
    posts w2 = posts w ∧ trace w2 = trace w ∧ Pre w2 ∧ Q w2.

Hypothesis Pre_log : ∀ e w, Pre w → Pre (log e w).

(** A call that ends made [a + 1] attempts for some [a], and ended in one
    of three ways.  The last attempt was decisive: the world is as that
    attempt left it.  Or the last attempt failed with a retried exception
    and [stop] fired: the world is as that attempt left it when the engine
    asks [stop] first, and as the wait strategy left it when the engine
    asks that first.  Or the sleep after the last attempt refused the
    delay, the wait strategy having run. *)
Lemma call_last fuel : ∀ n w o w', Pre w →
  call fuel self (op net) (mkState name n) w = Some (o, w') →
  ∃ a, posts w' = (posts w + S a)%nat ∧
    ((Mid (hint_after op name (net (posts w + a)%nat)) w' ∧
      ∃ o', classify self op name (net (posts w + a)%nat) = Stop o') ∨
     (stop self (mkState name (n + a)) = true ∧
      match order with
      | stop_then_wait => Mid (hint_after op name (net (posts w + a)%nat)) w'
      | wait_then_stop => Pre w'
      end) ∨
     (Pre w' ∧ stop self (mkState name (n + a)) = false)).
Proof.
  induction fuel as [|fuel IH]; intros n w o w' HPre Hcall; [discriminate|].
  destruct (op_local w HPre) as (w1 & Hop & Hposts & Htrace & HMid & HQ).
  rewrite call_step, Hop in Hcall.
  fold (hint_after op name (net (posts w))) in HMid.
  assert (∀ fut wc, op (fun _ => net (posts w)) (pending name None) = (fut, wc) →
            (∀ v, fut = Raised v → retry self v = false) →
            ∃ o', classify self op name (net (posts w)) = Stop o') as Hstop.
  { intros fut wc E Hfut. unfold classify. rewrite E.
    destruct fut as [v|e]; [eauto|].
    rewrite (Hfut e eq_refl). eauto. }
  destruct (op (fun _ => net (posts w)) (pending name None)) as [fut wc] eqn:Eop.
  cbn [fst snd] in *.
  destruct fut as [v|e].
  { injection Hcall as <- <-. exists 0%nat. rewrite !Nat.add_0_r.
    split; [lia|]. left. split; [exact HMid|].
    apply (Hstop _ _ eq_refl). intros v' [=]. }
  destruct (retry self e) eqn:Er; cbn [negb] in Hcall.
  2:{ injection Hcall as <- <-. exists 0%nat. rewrite !Nat.add_0_r.
      split; [lia|]. left. split; [exact HMid|].
      apply (Hstop _ _ eq_refl). intros v' [= <-]. exact Er. }
  destruct (wait_local n _ w1 HMid HQ) as (w2 & Hw & Hp2 & Ht2 & HPre2 & HQ2).
  cbn [fn_name attempt_number] in Hcall. rewrite Hw in Hcall.
  destruct (stop self (mkState name n)) eqn:Es.
  { injection Hcall as <- <-. exists 0%nat. rewrite !Nat.add_0_r.
    split; [destruct order; lia|]. right; left. split; [exact Es|].
    by destruct order. }
  destruct (sleep_error (chosen_delay self name n _)).
  { injection Hcall as <- <-. exists 0%nat. rewrite !Nat.add_0_r.
    split; [lia|]. right; right. by split. }
  apply IH in Hcall; [|by apply Pre_log].
  destruct Hcall as (a & Hpa & Hcase). exists (S a).
  cbn [log posts] in Hpa, Hcase. rewrite Hp2, Hposts in Hpa, Hcase.
  replace (posts w + S a)%nat with (S (posts w) + a)%nat by lia.
  replace (n + S a)%nat with (S n + a)%nat by lia.
  split; [lia|exact Hcase].
Qed.
End LastAttempt.

Lemma rs_hint_after int url r :
  hint_after (rs_op int url) "send_msg_slack" r = suggested_delay int r.
Proof.
  unfold hint_after, rs_op, RetriesSlack.send_msg_slack_fn, requests_post,
    suggested_delay, pending, RetriesSlack.TOO_MANY_CALLS.
  cbn [posts trace msg self_wait].
  destruct r as [msg_rq|what]; [|reflexivity].
  repeat case_match; cbn;
    rewrite ?dict_get_insert, ?dict_get_singleton; try reflexivity;
    simplify_eq; try done; lia.
Qed.

Lemma v3_hint_after int self r :
  hint_after (v3_op int self) "send_msg_slack" r = suggested_delay int r.
Proof.
  unfold hint_after, v3_op, V3.send_msg_slack_fn, requests_post, set_channel,
    set_msg, suggested_delay, pending.
  cbn [posts trace msg self_wait].
  destruct r as [msg_rq|what]; [|reflexivity].
  repeat case_match; cbn;
    rewrite ?dict_get_insert, ?dict_get_singleton; try reflexivity;
    simplify_eq; try done; lia.
Qed.

(** What [call_last] gives under [stop_after_attempt(4)] when the override
    that an attempt leaves is the server's delay. *)
Lemma override_after {order : iter_order} (hint : option Z) (decided : Prop)
    (a : nat) w' (suggested : nat → option Z) :
  (slot hint w' ∧ decided) ∨
  ((4 <=? 1 + a)%nat = true ∧
   match order with
   | stop_then_wait => slot hint w'
   | wait_then_stop => slot None w'
   end) ∨
  (slot None w' ∧ (4 <=? 1 + a)%nat = false) →
  hint = suggested a →
  (decided → suggested a = None) →
  (a ≤ 3)%nat →
  slot match order with
       | stop_then_wait => if (S a =? 4)%nat then suggested 3%nat else None
       | wait_then_stop => None
       end w'.
Proof.
  intros Hcase Hhint Hdecided Ha.
  destruct Hcase as [[Hslot Hd]|[[Hs Hslot]|[Hslot Hs]]].
  - rewrite Hhint, (Hdecided Hd) in Hslot.
    destruct order; [|done].
    destruct (Nat.eqb_spec (S a) 4) as [Ha4|Ha4]; [|done].
    assert (a = 3%nat) as -> by lia. by rewrite (Hdecided Hd).
  - assert (a = 3%nat) as ->.
    { destruct a as [|[|[|[|?]]]]; (reflexivity || discriminate || lia). }
    destruct order; [|done]. cbn. by rewrite <- Hhint.
  - destruct order; [|done].
    destruct (Nat.eqb_spec (S a) 4) as [Ha4|Ha4]; [|done].
    assert (a = 3%nat) as -> by lia. discriminate.
Qed.

(** X10.  What a call leaves in the instance.  After a call of
    [send_msg_slack] of [retries_slack.py] or of v3 that started with no
    override pending, whether one is pending depends on the release of
    tenacity.  When the engine asks [stop] before the wait strategy, an
    override is pending exactly when the call used all four attempts and
    the fourth response was a 429 with a [Retry-After] that [int] reads:
    that value stays in [self.wait] for the next call on the instance.
    When the engine asks the wait strategy first, that consumes the
    override of the fourth attempt as well, and none is ever pending after
    a call. *)
Theorem override_after_a_call {order : iter_order} net int url channel w fuel :
  slot None w → (4 ≤ fuel)%nat →
  (∃ o w' tr,
     RetriesSlack.send_msg_slack net int url fuel w = Some (o, w') ∧
     trace w' = trace w ++ tr ∧
     slot match order with
          | stop_then_wait =>
            if (attempts tr =? 4)%nat
            then suggested_delay int (net (posts w + 3)%nat) else None
          | wait_then_stop => None
          end w') ∧
  (∃ o w' tr,
     V3.send_msg_slack net int (V3.mkSlackPub url channel) fuel w = Some (o, w') ∧
     trace w' = trace w ++ tr ∧
     slot match order with
          | stop_then_wait =>
            if (attempts tr =? 4)%nat
            then suggested_delay int (net (posts w + 3)%nat) else None
          | wait_then_stop => None
          end w').
Proof.
  intros Hslot Hfuel. split.
  - destruct (rs_run net int url fuel w Hslot Hfuel)
      as (o & tr & w' & Hun & Hrun & Htr & Hp & Hle & _).
    exists o, w', tr. split_and!; auto.
    destruct (call_last RetriesSlack.retry_options (rs_op int url)
                "send_msg_slack" url RetriesSlack.prepare_msg net
                (slot None) slot (fun _ => True)
                (rs_op_local net int url) (rs_wait_local) slot_log
                fuel 1 w o w' Hslot Hrun) as (a & Hpa & Hcase).
    assert (attempts tr = S a) as -> by lia.
    apply (override_after _ _ a w'
             (fun i => suggested_delay int (net (posts w + i)%nat)) Hcase).
    + apply rs_hint_after.
    + intros [o' Ho'].
      destruct (suggested_delay int (net (posts w + a)%nat)) as [k|] eqn:Hk;
        [|done].
      destruct (rs_suggested_retry int url _ k Hk) as [e He]. congruence.
    + lia.
  - destruct (v3_run net int url channel fuel w Hslot Hfuel)
      as (o & tr & w' & Hun & Hrun & Htr & Hp & Hle & _).
    exists o, w', tr. split_and!; auto.
    destruct (call_last V3.retrying (v3_op int (V3.mkSlackPub url channel))
                "send_msg_slack" url (with_channel channel (msg w)) net
                (sent_pre channel (msg w)) slot (sent channel (msg w))
                (v3_op_local net int url channel (msg w))
                (v3_wait_local channel (msg w))
                (sent_pre_log channel (msg w))
                fuel 1 w o w' ltac:(by split) Hrun) as (a & Hpa & Hcase).
    assert (attempts tr = S a) as -> by lia.
    apply (override_after
             (hint_after (v3_op int (V3.mkSlackPub url channel)) "send_msg_slack"
                (net (posts w + a)%nat))
             (∃ o', classify V3.retrying (v3_op int (V3.mkSlackPub url channel))
                      "send_msg_slack" (net (posts w + a)%nat) = Stop o')
             a w' (fun i => suggested_delay int (net (posts w + i)%nat))).
    + destruct Hcase as [Hl|[[Hs Hm]|[[Hs _] Hr]]].
      * by left.
      * right; left. split; [exact Hs|]. destruct order; [exact Hm|apply Hm].
      * right; right. by split.
    + apply v3_hint_after.
    + intros [o' Ho'].
      destruct (suggested_delay int (net (posts w + a)%nat)) as [k|] eqn:Hk;
        [|done].
      destruct (v3_suggested_retry int (V3.mkSlackPub url channel) _ k Hk)
        as [e He]. congruence.
    + lia.
Qed.

Lemma override_after_a_call_witness :
  ∃ o w' tr,
    RetriesSlack.send_msg_slack (order := wait_then_stop)
      (net_always (respond 429 {["retry-after" := "5"]} "slow down"))
      int_dec "hook" 4 (fresh_world sample_msg) = Some (o, w') ∧
    trace w' = trace (fresh_world sample_msg) ++ tr ∧
    slot None w'.
Proof.
  refine (proj1 (override_after_a_call (order := wait_then_stop)
            (net_always (respond 429 {["retry-after" := "5"]} "slow down"))
            int_dec "hook" "general" (fresh_world sample_msg) 4 eq_refl _)).
  lia.
Defined.

(** ** The loop over the configuration of [retries_slack.py] *)

Lemma rs_fn_posts net int url w :
  posts (snd (RetriesSlack.send_msg_slack_fn net int url w)) = S (posts w).
Proof.
  unfold RetriesSlack.send_msg_slack_fn, requests_post.
  destruct (net (posts w)) as [msg_rq|what]; [|reflexivity].
  repeat case_match; reflexivity.
Qed.

Lemma rs_wait_posts retry_state w :
  posts (snd (RetriesSlack.custom_wait retry_state w)) = posts w.
Proof.
  unfold RetriesSlack.custom_wait.
  destruct (dict_get _ _); [reflexivity|]. by rewrite rs_default_wait_eq.
Qed.

(** A call on the instance returns, whatever is pending, after one to four
    requests. *)
Lemma rs_call_returns {order : iter_order} net int url fuel w :
  (4 ≤ fuel)%nat →
  ∃ o w', RetriesSlack.send_msg_slack net int url fuel w = Some (o, w') ∧
          (posts w < posts w' ≤ posts w + 4)%nat.
Proof.
  intros Hfuel. unfold RetriesSlack.send_msg_slack, wrapped_f.
  destruct (call_total RetriesSlack.retry_options
              (RetriesSlack.send_msg_slack_fn net int url) 4 (fun _ => eq_refl)
              fuel (mkState "send_msg_slack" 1) w) as (o & w' & Hcall);
    cbn [attempt_number]; [lia..|].
  exists o, w'. split; [exact Hcall|].
  apply (call_posts_le RetriesSlack.retry_options
           (RetriesSlack.send_msg_slack_fn net int url) 4 (fun _ => eq_refl)
           (rs_fn_posts net int url)
           (fun retry_state w0 => rs_wait_posts retry_state w0)) in Hcall.
  cbn [attempt_number] in Hcall. lia.
Qed.

(** A call that meets a response with a status below 500 other than 429
    returns after that one request, without touching the overrides; the
    result record says whether the status was 200. *)
Lemma rs_call_decided {order : iter_order} net int url fuel w rq :
  net (posts w) = Responded rq →
  status_code rq < 500 → status_code rq ≠ 429 →
  ∃ res w',
    RetriesSlack.send_msg_slack net int url (S fuel) w = Some (Returned res, w') ∧
    success res = (status_code rq =? 200) ∧
    posts w' = S (posts w) ∧
    trace w' = trace w ++ [Post url RetriesSlack.prepare_msg (Responded rq)] ∧
    self_wait w' = self_wait w.
Proof.
  intros Hnet H5 H429.
  unfold RetriesSlack.send_msg_slack, wrapped_f. cbn [call].
  unfold RetriesSlack.send_msg_slack_fn, requests_post, RetriesSlack.TOO_MANY_CALLS.
  cbn [posts trace msg self_wait]. rewrite Hnet.
  destruct (Z.eqb_spec (status_code rq) 200) as [H200|H200].
  - cbn [negb]. eexists _, _. split_and!; reflexivity.
  - cbn [negb].
    destruct (Z.eqb_spec (status_code rq) 429) as [|_]; [done|].
    destruct (Z.leb_spec 500 (status_code rq)) as [|_]; [lia|].
    eexists _, _. split_and!; reflexivity.
Qed.

(** A call that starts with no override pending and meets four responses
    with a status from 500 on gives up, and leaves no override. *)
Lemma rs_call_gives_up {order : iter_order} net int url fuel w :
  slot None w → (4 ≤ fuel)%nat →
  (∀ i, (i < 4)%nat →
     ∃ rq, net (posts w + i)%nat = Responded rq ∧ 500 ≤ status_code rq) →
  ∃ e w' tr,
    RetriesSlack.send_msg_slack net int url fuel w = Some (Raised e, w') ∧
    trace w' = trace w ++ tr ∧ posts w' = (posts w + 4)%nat ∧
    attempts tr = 4%nat ∧ delays tr = [1; 1; 3] ∧ slot None w'.
Proof.
  intros Hslot Hfuel Hfail.
  destruct (rs_run net int url fuel w Hslot Hfuel)
    as (o & tr & w' & Hun & Hrun & Htr & Hp & Hle & _).
  destruct (Hfail 3%nat ltac:(lia)) as (rq & Hnet & H5).
  pose proof (rs_classify_server_error int url rq H5) as Hc.
  rewrite <- Hnet in Hc.
  pose proof (fun H1 H2 H3 =>
    run_gives_up _ _ _ _ _ _ (fun i => nth i [1; 1; 3] 0) _ _ _ _ Hun H1 H2 H3 Hc)
    as HG.
  destruct HG as (Ho & Hatt & Hd); auto using rs_default_delay.
  { intros i Hi. destruct (Hfail i ltac:(lia)) as (rq' & -> & Hs).
    eexists. by apply rs_classify_server_error. }
  eexists _, w', tr. split_and!; auto.
  - rewrite Hrun, Ho. reflexivity.
  - lia.
  - destruct (call_last RetriesSlack.retry_options (rs_op int url)
                "send_msg_slack" url RetriesSlack.prepare_msg net
                (slot None) slot (fun _ => True)
                (rs_op_local net int url) (rs_wait_local) slot_log
                fuel 1 w o w' Hslot Hrun) as (a & Hpa & Hcase).
    assert (a = 3%nat) as -> by lia.
    assert (hint_after (rs_op int url) "send_msg_slack" (net (posts w + 3)%nat) = None)
      as Hnone.
    { rewrite rs_hint_after, Hnet. unfold suggested_delay.
      destruct (Z.eqb_spec (status_code rq) 429) as [|_]; [lia|done]. }
    rewrite Hnone in Hcase.
    destruct Hcase as [[Hs _]|[[_ Hs]|[_ Hs]]]; [done| |discriminate].
    by destruct order.
Qed.

(** X11.  The loop at the end of [retries_slack.py] always comes to its
    end, whatever the server does and whatever an earlier call left
    pending: it makes one call per entry of the configuration, and in all
    at least one and at most four requests per entry. *)
Theorem main_loop_returns {order : iter_order} net int config fuel w :
  (4 ≤ fuel)%nat →
  ∃ printed w',
    RetriesSlack.main net int config fuel w = Some (printed, w') ∧
    length printed = length config ∧
    (posts w + length config ≤ posts w' ≤ posts w + 4 * length config)%nat.
Proof.
  intros Hfuel. unfold RetriesSlack.main.
  change (posts w) with (posts (RetriesSlack.init w)).
  generalize (RetriesSlack.init w). clear w.
  induction config as [|[cfg url] config IH]; intros w.
  - exists [], w. cbn. split_and!; auto; lia.
  - destruct (rs_call_returns net int url fuel w Hfuel) as (o & w1 & Hcall & Hp).
    destruct (IH w1) as (printed & w' & Hloop & Hlen & Hposts).
    cbn [RetriesSlack.main_loop]. rewrite Hcall, Hloop.
    eexists _, w'. split; [reflexivity|]. cbn [length]. split; [lia|]. lia.
Qed.

Lemma main_loop_returns_witness :
  ∃ printed w',
    RetriesSlack.main (order := wait_then_stop)
      net_hint int_dec [("first", "hook"); ("second", "mock")] 4
      (mkWorld 0 [] ∅ ∅) = Some (printed, w') ∧
    length printed = 2%nat ∧
    (0 + 2 ≤ posts w' ≤ 0 + 4 * 2)%nat.
Proof.
  apply (main_loop_returns (order := wait_then_stop)
    net_hint int_dec [("first", "hook"); ("second", "mock")]
           4 (mkWorld 0 [] ∅ ∅)).
  lia.
Defined.

(** X12.  When the server answers every request with a status below 500
    other than 429, the loop makes exactly one request per entry, never
    sleeps, and prints ["Failure"] for no entry - also when every message
    was refused, say with 404: such a call returns a result record with
    [success = False] that the loop does not look at. *)
Theorem main_loop_reports_no_refusal {order : iter_order} net int config fuel w :
  (1 ≤ fuel)%nat →
  (∀ i, ∃ rq, net i = Responded rq ∧ status_code rq < 500 ∧ status_code rq ≠ 429) →
  ∃ w' tr,
    RetriesSlack.main net int config fuel w =
      Some (replicate (length config) false, w') ∧
    trace w' = trace w ++ tr ∧
    posts w' = (posts w + length config)%nat ∧
    attempts tr = length config ∧ delays tr = [] ∧
    slot None w'.
Proof.
  intros Hfuel Hnet. unfold RetriesSlack.main.
  destruct fuel as [|fuel]; [lia|]. clear Hfuel.
  assert (slot None (RetriesSlack.init w)) as Hslot by reflexivity.
  change (posts w) with (posts (RetriesSlack.init w)).
  change (trace w) with (trace (RetriesSlack.init w)).
  revert Hslot. generalize (RetriesSlack.init w). clear w.
  induction config as [|[cfg url] config IH]; intros w Hslot.
  - exists w, []. rewrite app_nil_r, Nat.add_0_r. by split_and!.
  - destruct (Hnet (posts w)) as (rq & Hrq & H5 & H429).
    destruct (rs_call_decided net int url fuel w rq Hrq H5 H429)
      as (res & w1 & Hcall & _ & Hp & Htr & Hw).
    destruct (IH w1) as (w' & tr & Hloop & Htr' & Hp' & Ha & Hd & Hs).
    { unfold slot. by rewrite Hw. }
    cbn [RetriesSlack.main_loop]. rewrite Hcall, Hloop.
    exists w', (Post url RetriesSlack.prepare_msg (Responded rq) :: tr).
    cbn [length replicate attempts delays]. split_and!; auto.
    + rewrite Htr', Htr, <- app_assoc. reflexivity.
    + lia.
Qed.

Lemma main_loop_reports_no_refusal_witness :
  ∃ w' tr,
    RetriesSlack.main (order := wait_then_stop)
      (net_always (respond 404 ∅ "no_service")) int_dec
      [("first", "hook"); ("second", "mock")] 1 (mkWorld 0 [] ∅ ∅) =
      Some (replicate 2 false, w') ∧
    trace w' = [] ++ tr ∧
    posts w' = (0 + 2)%nat ∧
    attempts tr = 2%nat ∧ delays tr = [] ∧
    slot None w'.
Proof.
  apply (main_loop_reports_no_refusal (order := wait_then_stop)
    (net_always (respond 404 ∅ "no_service"))
           int_dec [("first", "hook"); ("second", "mock")] 1 (mkWorld 0 [] ∅ ∅)).
  - lia.
  - intros i. exists (mkResponse 404 "" ∅ "no_service").
    split; [reflexivity|]. cbn. lia.
Defined.

(** X13.  When the server answers every request with a status from 500
    on, the loop prints ["Failure"] for every entry; each call starts
    with no override pending, makes four requests and sleeps 1, 1 and 3
    seconds, so the script makes four requests and sleeps 5 seconds per
    entry. *)
Theorem main_loop_against_failing_server {order : iter_order} net int config fuel w :
  (4 ≤ fuel)%nat →
  (∀ i, ∃ rq, net i = Responded rq ∧ 500 ≤ status_code rq) →
  ∃ w' tr,
    RetriesSlack.main net int config fuel w =
      Some (replicate (length config) true, w') ∧
    trace w' = trace w ++ tr ∧
    posts w' = (posts w + 4 * length config)%nat ∧
    attempts tr = (4 * length config)%nat ∧
    delays tr = concat (replicate (length config) [1; 1; 3]) ∧
    total_sleep tr = 5 * Z.of_nat (length config) ∧
    slot None w'.
Proof.
  intros Hfuel Hnet. unfold RetriesSlack.main.
  assert (slot None (RetriesSlack.init w)) as Hslot by reflexivity.
  change (posts w) with (posts (RetriesSlack.init w)).
  change (trace w) with (trace (RetriesSlack.init w)).
  revert Hslot. generalize (RetriesSlack.init w). clear w.
  induction config as [|[cfg url] config IH]; intros w Hslot.
  - exists w, []. rewrite app_nil_r. cbn. split_and!; auto; lia.
  - destruct (rs_call_gives_up net int url fuel w Hslot Hfuel)
      as (e & w1 & tr1 & Hcall & Htr1 & Hp1 & Ha1 & Hd1 & Hs1).
    { intros i _. apply Hnet. }
    destruct (IH w1 Hs1) as (w' & tr & Hloop & Htr' & Hp' & Ha & Hd & Hsum & Hs).
    cbn [RetriesSlack.main_loop]. rewrite Hcall, Hloop.
    exists w', (tr1 ++ tr).
    cbn [length replicate concat]. split_and!; auto.
    + rewrite Htr', Htr1, <- app_assoc. reflexivity.
    + lia.
    + rewrite attempts_app. lia.
    + rewrite delays_app, Hd1, Hd. reflexivity.
    + unfold total_sleep in *. rewrite delays_app, Hd1, foldr_app.
      cbn [app foldr]. lia.
Qed.

Lemma main_loop_against_failing_server_witness :
  ∃ w' tr,
    RetriesSlack.main (order := wait_then_stop)
      (net_always (respond 503 ∅ "unavailable")) int_dec
      [("first", "hook"); ("second", "mock")] 4 (mkWorld 0 [] ∅ ∅) =
      Some (replicate 2 true, w') ∧
    trace w' = [] ++ tr ∧
    posts w' = (0 + 4 * 2)%nat ∧
    attempts tr = (4 * 2)%nat ∧
    delays tr = concat (replicate 2 [1; 1; 3]) ∧
    total_sleep tr = 5 * Z.of_nat 2 ∧
    slot None w'.
Proof.
  apply (main_loop_against_failing_server (order := wait_then_stop)
           (net_always (respond 503 ∅ "unavailable")) int_dec
           [("first", "hook"); ("second", "mock")] 4 (mkWorld 0 [] ∅ ∅)).
  - lia.
  - intros i. exists (mkResponse 503 "" ∅ "unavailable").
    split; [reflexivity|]. cbn. lia.
Defined.

(** ** A call that finds an override pending *)





(** ** The decorated v1 against the manual loop of v0 *)

(** Along the first [n] indices either a decidable property always holds,
    or there is a first index where it fails. *)
Lemma first_failing (P : nat → Prop) (n : nat) :
  (∀ i, (i < n)%nat → P i ∨ ¬ P i) →
  (∀ i, (i < n)%nat → P i) ∨
  ∃ j, (j < n)%nat ∧ (∀ i, (i < j)%nat → P i) ∧ ¬ P j.
Proof.
  induction n as [|n IH]; intros Hdec; [left; lia|].
  destruct IH as [Hall|(j & Hj & Hbefore & Hnot)].
  - intros i Hi. apply Hdec. lia.
  - destruct (Hdec n ltac:(lia)) as [Hn|Hn].
    + left. intros i Hi.
      destruct (decide (i = n)) as [->|Hne]; [done|]. apply Hall. lia.
    + right. exists n. split_and!; auto.
  - right. exists j. split_and!; auto.
Qed.

(** X15.  The decorated function of v1 against the manual loop of v0, on a
    server that answers every request.  Both make the same number of
    requests, at most four.  Both return the body of the first response
    whose status is not 400..599, if one of the first four is such; else v0
    raises the [HTTPError] of the fourth response and v1 a [RetryError]
    around it.  They differ in the sleeps: 1 second after every rejected
    response in v0, the fourth included, against 1, 2, 4 seconds between
    the attempts in v1. *)
Theorem v1_agrees_with_manual_loop {order : iter_order} net url channel w fuel :
  (5 ≤ fuel)%nat →
  (∀ i, (i < 4)%nat → ∃ rq, net (posts w + i)%nat = Responded rq) →
  ∃ o0 w0 tr0 o1 w1 tr1,
    V0.send_msg_slack net url channel fuel w = Some (o0, w0) ∧
    V1.send_msg_slack net url channel fuel w = Some (o1, w1) ∧
    trace w0 = trace w ++ tr0 ∧ trace w1 = trace w ++ tr1 ∧
    attempts tr0 = attempts tr1 ∧ posts w0 = posts w1 ∧
    ((∃ rq, o0 = Returned (Some (text rq)) ∧ o1 = Returned (text rq) ∧
            net (posts w0 - 1)%nat = Responded rq ∧
            delays tr0 = replicate (attempts tr0 - 1) 1 ∧
            delays tr1 = take (attempts tr1 - 1) [1; 2; 4]) ∨
     (∃ rq, o0 = Raised (HTTPError rq) ∧ o1 = Raised (RetryError (HTTPError rq)) ∧
            net (posts w + 3)%nat = Responded rq ∧
            attempts tr0 = 4%nat ∧
            delays tr0 = [1; 1; 1; 1] ∧ delays tr1 = [1; 2; 4])).
Proof.
  intros Hfuel Hresp.
  destruct (v1_run net url channel fuel w ltac:(lia))
    as (o1 & tr1 & w1 & Hun & Hrun1 & Htr1 & Hp1 & Hle1 & _).
  destruct (first_failing
              (fun i => ∃ rq, net (posts w + i)%nat = Responded rq ∧
                              400 ≤ status_code rq < 600) 4)
    as [Hall|(j & Hj & Hbefore & Hnot)].
  { intros i Hi. destruct (Hresp i Hi) as [rq Hrq].
    destruct (Z.leb_spec 400 (status_code rq)), (Z.ltb_spec (status_code rq) 600);
      [left; exists rq; split; [done|lia]|right..];
      intros (rq' & Hrq' & Hs); rewrite Hrq in Hrq'; injection Hrq' as <-; lia. }
  - destruct (v0_four_failures net url channel w fuel Hall Hfuel)
      as (rq4 & w0 & Hn4 & Hrun0 & Htr0 & Hp0).
    destruct (Hall 3%nat ltac:(lia)) as (rq & Hrq & Hs).
    rewrite Hn4 in Hrq. injection Hrq as <-.
    pose proof (v1_classify_rejected url channel rq4 Hs) as Hc.
    rewrite <- Hn4 in Hc.
    pose proof (fun H1 H2 H3 =>
      run_gives_up _ _ _ _ _ _ (fun i => nth i [1; 2; 4] 0) _ _ _ _ Hun H1 H2 H3 Hc)
      as HG.
    destruct HG as (-> & Hatt & Hd); auto using v1_default_delay.
    { intros i Hi. destruct (Hall i ltac:(lia)) as (rq' & -> & Hs').
      eexists. by apply v1_classify_rejected. }
    eexists _, w0, _, _, w1, tr1.
    split; [exact Hrun0|]. split; [exact Hrun1|]. split; [exact Htr0|].
    split; [exact Htr1|]. rewrite Hatt, Hp1, Hp0, Hatt. cbn [attempts].
    split_and!; auto. right. exists rq4. split_and!; auto.
  - destruct (Hresp j Hj) as [rq Hrq].
    assert (¬ (400 ≤ status_code rq < 600)) as Hs.
    { intros Hs. apply Hnot. eauto. }
    destruct (v0_first_unrejected net url channel w fuel j Hfuel ltac:(lia) Hbefore)
      as [Hv0 _].
    destruct (Hv0 rq Hrq Hs) as (w0 & tr0 & Hrun0 & Htr0 & Hp0 & Ha0 & Hd0 & _).
    destruct (run_recovers _ _ _ _ _ _ j (fun i => nth i [1; 2; 4] 0) _
                (Returned (text rq)) _ Hun)
      as (-> & Hatt & Hd); auto using v1_default_delay; [lia| | |].
    { intros i Hi. destruct (Hbefore i Hi) as (rq' & -> & Hs').
      eexists. by apply v1_classify_rejected. }
    { rewrite Hrq. apply v1_classify_accepted. lia. }
    rewrite prefix_by_index in Hd by (cbn; lia).
    exists (Returned (Some (text rq))), w0, tr0, (Returned (text rq)), w1, tr1.
    split; [exact Hrun0|]. split; [exact Hrun1|]. split; [exact Htr0|].
    split; [exact Htr1|]. rewrite Hatt, Ha0, Hp1, Hp0, Hatt.
    split_and!; auto. left. exists rq. split_and!; auto.
    + rewrite <- Hrq. f_equal. lia.
    + rewrite Hd0. f_equal. lia.
    + rewrite Hd. f_equal. lia.
Qed.

Lemma v1_agrees_with_manual_loop_witness :
  ∃ o0 w0 tr0 o1 w1 tr1,
    V0.send_msg_slack net_hint "hook" "general" 5 (fresh_world sample_msg) =
      Some (o0, w0) ∧
    V1.send_msg_slack (order := wait_then_stop)
      net_hint "hook" "general" 5 (fresh_world sample_msg) =
      Some (o1, w1) ∧
    trace w0 = trace (fresh_world sample_msg) ++ tr0 ∧
    trace w1 = trace (fresh_world sample_msg) ++ tr1 ∧
    attempts tr0 = attempts tr1 ∧ posts w0 = posts w1.
Proof.
  destruct (v1_agrees_with_manual_loop (order := wait_then_stop)
    net_hint "hook" "general"
              (fresh_world sample_msg) 5)
    as (o0 & w0 & tr0 & o1 & w1 & tr1 & H0 & H1 & H2 & H3 & H4 & H5 & _).
  - lia.
  - intros [|[|i]] Hi; eexists; reflexivity.
  - exists o0, w0, tr0, o1, w1, tr1.
    exact (conj H0 (conj H1 (conj H2 (conj H3 (conj H4 H5))))).
Defined.

(** ** v3 against v2 *)

Section SameOutcome.
Context {A : Type}.
Variables (self1 self2 : Retrying).
Variables (op1 op2 : (nat → post_result) → World → outcome A * World).
Variable name : string.
Variables (url1 url2 : string) (payload1 payload2 : gmap string json).
Hypothesis same_stop : ∀ retry_state, stop self1 retry_state = stop self2 retry_state.
Hypothesis same_reraise : reraise self1 = reraise self2.

End SameOutcome.



